(** * userteg: the update-ingestion and persistence pipeline

    A shallow embedding of [userteg.py]: the SQLite schema and the queries of
    [DatabaseManager] (both textual definitions of the class), the
    normalisation done by [UserTegOSINT.process_message], the polling
    loop [start_monitoring], [api_call] with [validate_token],
    [FolderStructure.get_path] and the dispatch of [MenuSystem].

    Conventions.
    - A table is the list of its rows in insertion (rowid) order.
    - A nullable column is an [option]; [None] is SQL [NULL].
    - A column declared [TIMESTAMP] has NUMERIC affinity: it holds a
      [sql_value], text that reads as a number being kept as the number.
    - A Python call either returns or raises: [outcome].
    - Text is a [string]; every [ascii] stands for one character, the
      character of that code point (0 to 255). *)

From Stdlib Require Import ZArith List String Ascii Bool Lia.
From Stdlib Require Import Sorted Permutation.
Import ListNotations.
Local Open Scope string_scope.
Local Open Scope Z_scope.

(** ** Python outcomes *)

Inductive exn : Type :=
| AttributeError (obj attr : string)
| ConnectionError
| JSONDecodeError
| OSError
| OverflowError
| OperationalError
| KeyboardInterrupt.

Inductive outcome (A : Type) : Type :=
| Return (a : A)
| Raise (e : exn).
Arguments Return {A} a.
Arguments Raise {A} e.

(** ** Classes as namespaces

    Executing a class body binds every [def] in the namespace of the class,
    in textual order; a later [def] of a name replaces the earlier binding.
    A body is recorded as the list of its [def]s with their source lines. *)

Definition class_body : Type := list (string * nat).

Fixpoint bind_def (ns : class_body) (name : string) (line : nat) : class_body :=
  match ns with
  | [] => [(name, line)]
  | (n, l) :: rest =>
      if String.eqb n name then (name, line) :: rest
      else (n, l) :: bind_def rest name line
  end.

Definition namespace_of (body : class_body) : class_body :=
  fold_left (fun ns d => bind_def ns (fst d) (snd d)) body [].

Fixpoint lookup_def (ns : class_body) (name : string) : option nat :=
  match ns with
  | [] => None
  | (n, l) :: rest => if String.eqb n name then Some l else lookup_def rest name
  end.

(** [getattr] on a class: the line of the [def] bound to [name], if any. *)
Definition class_attr (body : class_body) (name : string) : option nat :=
  lookup_def (namespace_of body) name.

(** ** Stored values

    What a column of NUMERIC affinity holds after a text was written to it.
    [Integer z] is the integer [z].  [Number literal] is the number that
    SQLite reads from [literal], a well-formed numeric literal that is not
    an integer of at most 2^53 in size: the value itself (a 64-bit float,
    or the integer it equals) is not computed here.  [Text s] is a text
    that does not read as a number, kept as it is. *)

Inductive sql_value : Type :=
| Integer (z : Z)
| Number (literal : string)
| Text (s : string).

Module Numeric.

(** [sqlite3Isspace] and [sqlite3Isdigit] *)
Definition is_space (c : ascii) : bool :=
  let n := nat_of_ascii c in
  (Nat.leb 9 n && Nat.leb n 13) || Nat.eqb n 32.

Definition is_digit (c : ascii) : bool :=
  let n := nat_of_ascii c in Nat.leb 48 n && Nat.leb n 57.

Fixpoint skip (p : ascii -> bool) (s : list ascii) : list ascii :=
  match s with
  | [] => []
  | c :: s' => if p c then skip p s' else s
  end.

Fixpoint take (p : ascii -> bool) (s : list ascii) : list ascii :=
  match s with
  | [] => []
  | c :: s' => if p c then c :: take p s' else []
  end.

Definition is_sign (c : ascii) : bool :=
  Ascii.eqb c "-"%char || Ascii.eqb c "+"%char.

Definition skip_sign (s : list ascii) : list ascii :=
  match s with
  | c :: s' => if is_sign c then s' else s
  | [] => []
  end.

(** The shape that [sqlite3AtoF] accepts as a number: blanks, a sign,
    digits, a point with digits, an exponent with a sign and at least one
    digit, blanks; at least one digit before the exponent; nothing else.
    [Some false] for digits alone, [Some true] with a point or an
    exponent, [None] when the text is no number. *)
Definition shape (s : list ascii) : option bool :=
  let s1 := skip_sign (skip is_space s) in
  let int_digits := take is_digit s1 in
  let s2 := skip is_digit s1 in
  let has_point := match s2 with
                   | c :: _ => Ascii.eqb c "."%char
                   | [] => false
                   end in
  let s3 := if has_point then tl s2 else s2 in
  let frac_digits := if has_point then take is_digit s3 else [] in
  let s4 := if has_point then skip is_digit s3 else s3 in
  let has_exp := match s4 with
                 | c :: _ => Ascii.eqb c "e"%char || Ascii.eqb c "E"%char
                 | [] => false
                 end in
  let s5 := if has_exp then skip_sign (tl s4) else s4 in
  let exp_digits := if has_exp then take is_digit s5 else [] in
  let s6 := if has_exp then skip is_digit s5 else s5 in
  let rest := skip is_space s6 in
  match rest, (int_digits ++ frac_digits)%list with
  | [], _ :: _ =>
      if has_exp then
        match exp_digits with
        | [] => None
        | _ :: _ => Some true
        end
      else Some has_point
  | _, _ => None
  end.

(** The value of a run of digits. *)
Definition digits_value (ds : list ascii) : Z :=
  fold_left (fun acc c => 10 * acc + (Z.of_nat (nat_of_ascii c) - 48)) ds 0.

(** The integer that a text of digits alone denotes. *)
Definition integer_of (s : list ascii) : Z :=
  let s0 := skip is_space s in
  let negative := match s0 with
                  | c :: _ => Ascii.eqb c "-"%char
                  | [] => false
                  end in
  let v := digits_value (take is_digit (skip_sign s0)) in
  if negative then - v else v.

(** What a column of NUMERIC affinity keeps of a text. *)
Definition affinity (s : string) : sql_value :=
  let cs := list_ascii_of_string s in
  match shape cs with
  | None => Text s
  | Some true => Number s
  | Some false =>
      let z := integer_of cs in
      if Z.abs z <=? 2 ^ 53 then Integer z else Number s
  end.

End Numeric.

(** Python integers that SQLite's INTEGER holds; binding another one
    raises [OverflowError]. *)
Definition in_int64 (z : Z) : bool := (- 2 ^ 63 <=? z) && (z <? 2 ^ 63).

Definition opt_in_int64 (z : option Z) : bool :=
  match z with
  | Some v => in_int64 v
  | None => true
  end.

(** ** The persisted schema ([_init_database]) *)

(** [users]: [user_id INTEGER PRIMARY KEY] and seven nullable columns. *)
Record user_row : Type := {
  u_user_id : Z;
  u_first_name : option string;
  u_last_name : option string;
  u_current_username : option string;
  u_is_bot : option Z;
  u_language_code : option string;
  u_first_seen : option sql_value;
  u_last_seen : option sql_value
}.

(** [username_history]: [id INTEGER PRIMARY KEY AUTOINCREMENT]. *)
Record history_row : Type := {
  h_id : Z;
  h_user_id : option Z;
  h_username : option string;
  h_changed_at : option sql_value
}.

(** The arguments of a call of [store_message_data], typed by its
    annotations. *)
Record message_args : Type := {
  message_id : Z;
  chat_id : Z;
  user_id : Z;
  username : option string;
  first_name : option string;
  message_text : string;
  message_date : string;
  media_type : option string;
  forwarded_from : option Z;
  reply_to_message_id : option Z
}.

(** [messages]: [PRIMARY KEY (message_id, chat_id)], as
    [store_message_data], the only writer, fills it; [message_date] is
    declared [TIMESTAMP]. *)
Record message_row : Type := {
  m_message_id : Z;
  m_chat_id : Z;
  m_user_id : Z;
  m_username : option string;
  m_first_name : option string;
  m_message_text : string;
  m_message_date : sql_value;
  m_media_type : option string;
  m_forwarded_from : option Z;
  m_reply_to_message_id : option Z
}.

(** The row that [INSERT ... VALUES (?, ...)] makes of the arguments. *)
Definition row_of (a : message_args) : message_row :=
  {| m_message_id := message_id a; m_chat_id := chat_id a;
     m_user_id := user_id a; m_username := username a;
     m_first_name := first_name a; m_message_text := message_text a;
     m_message_date := Numeric.affinity (message_date a);
     m_media_type := media_type a; m_forwarded_from := forwarded_from a;
     m_reply_to_message_id := reply_to_message_id a |}.

(** Every integer among the arguments can be bound. *)
Definition bindable (a : message_args) : bool :=
  in_int64 (message_id a) && in_int64 (chat_id a) && in_int64 (user_id a)
  && opt_in_int64 (forwarded_from a) && opt_in_int64 (reply_to_message_id a).

(** [chats]: [chat_id INTEGER PRIMARY KEY]. *)
Record chat_row : Type := {
  c_chat_id : Z;
  c_chat_type : option string;
  c_title : option string;
  c_username : option string;
  c_description : option string;
  c_member_count : option Z;
  c_first_seen : option sql_value;
  c_last_updated : option sql_value
}.

(** [user_activity]: [id INTEGER PRIMARY KEY AUTOINCREMENT],
    [message_count INTEGER DEFAULT 0]. *)
Record activity_row : Type := {
  a_id : Z;
  a_user_id : option Z;
  a_chat_id : option Z;
  a_chat_title : option string;
  a_status : option string;
  a_first_seen : option sql_value;
  a_last_seen : option sql_value;
  a_message_count : option Z
}.

(** The file at [db_path]: each table exists or not. *)
Record db_file : Type := {
  f_users : option (list user_row);
  f_username_history : option (list history_row);
  f_messages : option (list message_row);
  f_chats : option (list chat_row);
  f_user_activity : option (list activity_row)
}.

(** The database of a [DatabaseManager] instance: [__init__] has run
    [_init_database], so the five tables exist. *)
Record Database : Type := {
  users : list user_row;
  username_history : list history_row;
  messages : list message_row;
  chats : list chat_row;
  user_activity : list activity_row
}.

Definition empty_file : db_file :=
  {| f_users := None; f_username_history := None; f_messages := None;
     f_chats := None; f_user_activity := None |}.

(** [CREATE TABLE IF NOT EXISTS t]: an existing table is kept as it is, a
    missing one is created empty. *)
Definition create_table_if_not_exists {R : Type} (t : option (list R)) : list R :=
  match t with
  | Some rows => rows
  | None => []
  end.

Definition set_messages (db : Database) (ms : list message_row) : Database :=
  {| users := users db; username_history := username_history db;
     messages := ms; chats := chats db; user_activity := user_activity db |}.

(** The [user_id] column of a [messages] row, for the methods whose
    parameter has the same name. *)
Definition sender_of (m : message_row) : Z := m_user_id m.

(** ** SQLite semantics used by the queries *)

Module Sqlite.

(** *** [INSERT OR REPLACE] on [messages]

    A row conflicts with the new one when both primary-key columns are
    equal; the conflicting rows are deleted and the new row is inserted. *)
Definition same_key (a b : message_row) : bool :=
  (m_message_id a =? m_message_id b) && (m_chat_id a =? m_chat_id b).

Definition insert_or_replace (r : message_row) (t : list message_row)
  : list message_row :=
  filter (fun x => negb (same_key r x)) t ++ [r].

(** *** [LIKE]

    [%] matches any run of characters, [_] exactly one character, any
    other character itself, the letters [A]-[Z] and [a]-[z] without
    regard to case.  No [ESCAPE] clause is given by the queries.
    Pattern and text are read up to their first NUL character.  A
    pattern of more than 50000 bytes is refused when [LIKE] is
    evaluated, which happens for the first row the query looks at. *)
Definition lower (c : ascii) : ascii :=
  let n := nat_of_ascii c in
  if (Nat.leb 65 n && Nat.leb n 90)%bool then ascii_of_nat (n + 32) else c.

Definition eq_nocase (c d : ascii) : bool := Ascii.eqb (lower c) (lower d).

Definition is_percent (c : ascii) : bool := Ascii.eqb c "%"%char.
Definition is_underscore (c : ascii) : bool := Ascii.eqb c "_"%char.

Fixpoint like_chars (p : list ascii) (s : list ascii) {struct p} : bool :=
  match p with
  | [] => match s with [] => true | _ :: _ => false end
  | c :: p' =>
      if is_percent c then
        (fix star (t : list ascii) : bool :=
           like_chars p' t ||
           match t with
           | [] => false
           | _ :: t' => star t'
           end) s
      else if is_underscore c then
        match s with
        | [] => false
        | _ :: s' => like_chars p' s'
        end
      else
        match s with
        | [] => false
        | d :: s' => eq_nocase c d && like_chars p' s'
        end
  end.

Definition is_nul (c : ascii) : bool := Ascii.eqb c "000"%char.

(** The characters before the first NUL. *)
Fixpoint upto_nul (s : list ascii) : list ascii :=
  match s with
  | [] => []
  | c :: s' => if is_nul c then [] else c :: upto_nul s'
  end.

(** [x LIKE pattern] in a [WHERE] clause: [NULL LIKE p] is [NULL], which
    does not select the row. *)
Definition like (x : option string) (pattern : string) : bool :=
  match x with
  | None => false
  | Some s =>
      like_chars (upto_nul (list_ascii_of_string pattern))
                 (upto_nul (list_ascii_of_string s))
  end.

(** The length of a text in bytes of UTF-8. *)
Definition utf8_length (s : string) : Z :=
  fold_right (fun c n => (if Nat.ltb (nat_of_ascii c) 128 then 1 else 2) + n)
             0 (list_ascii_of_string s).

(** [SQLITE_MAX_LIKE_PATTERN_LENGTH] *)
Definition max_like_pattern_length : Z := 50000.

Definition too_complex (pattern : string) : bool :=
  max_like_pattern_length <? utf8_length pattern.

(** *** [LEFT JOIN ... ON]: every left row with each matching right row,
    or once with an all-[NULL] right side when nothing matches. *)
Definition left_join {L R : Type} (on : L -> R -> bool)
    (ls : list L) (rs : list R) : list (L * option R) :=
  flat_map (fun l =>
    match filter (on l) rs with
    | [] => [(l, None)]
    | ms => map (fun r => (l, Some r)) ms
    end) ls.

(** *** [SELECT DISTINCT]: the first occurrence of every row is kept. *)
Fixpoint distinct {A : Type} (eqb : A -> A -> bool) (l : list A) : list A :=
  match l with
  | [] => []
  | x :: l' => x :: filter (fun y => negb (eqb x y)) (distinct eqb l')
  end.

(** *** [ORDER BY key DESC]: [NULL] sorts below every number, a number
    below every text; texts compare character by character, integers by
    value.  How two numbers compare when one of them is a [Number] is
    SQLite's comparison of the values it read, taken as [number_leb].
    SQLite leaves the order of ties open; the model keeps them in table
    order. *)
Section Ordering.

Variable number_leb : sql_value -> sql_value -> bool.

Definition value_leb (a b : option sql_value) : bool :=
  match a, b with
  | None, _ => true
  | Some _, None => false
  | Some (Text x), Some (Text y) => String.leb x y
  | Some (Text _), Some _ => false
  | Some _, Some (Text _) => true
  | Some (Integer x), Some (Integer y) => x <=? y
  | Some x, Some y => number_leb x y
  end.

Fixpoint insert_desc {A : Type} (key : A -> option sql_value) (x : A)
    (l : list A) : list A :=
  match l with
  | [] => [x]
  | y :: l' =>
      if value_leb (key y) (key x) then x :: y :: l'
      else y :: insert_desc key x l'
  end.

Definition order_by_desc {A : Type} (key : A -> option sql_value)
    (l : list A) : list A :=
  fold_right (insert_desc key) [] l.

End Ordering.

(** *** [LIMIT n]: a negative bound is no bound. *)
Definition limit {A : Type} (n : Z) (l : list A) : list A :=
  if n <? 0 then l else firstn (Z.to_nat n) l.

(** Equality of nullable values as [SELECT DISTINCT] sees it. *)
Definition opt_eqb {A : Type} (eqb : A -> A -> bool) (a b : option A) : bool :=
  match a, b with
  | None, None => true
  | Some x, Some y => eqb x y
  | _, _ => false
  end.

(** [a = b] in an [ON] clause with a nullable right side. *)
Definition sql_eq (a : Z) (b : option Z) : bool :=
  match b with
  | None => false
  | Some y => a =? y
  end.

End Sqlite.

(** ** Platform objects

    The dictionaries decoded from the platform's JSON, with the keys the
    program reads.  A field is a key of the dictionary and [None] says that
    the key is absent; identifiers and dates are integers, names are text. *)

Module User.
Record t : Type := {
  id : option Z;
  username : option string;
  first_name : option string
}.
(** [{}] *)
Definition empty : t := {| id := None; username := None; first_name := None |}.
End User.

Module Chat.
Record t : Type := {
  id : option Z;
  title : option string
}.
Definition empty : t := {| id := None; title := None |}.
End Chat.

(** The value under [reply_to_message]: a message, of which only
    [message_id] is read. *)
Module Reply.
Record t : Type := { message_id : option Z }.
Definition empty : t := {| message_id := None |}.
End Reply.

Module Message.
Record t : Type := {
  message_id : option Z;
  chat : option Chat.t;
  from : option User.t;
  text : option string;
  date : option Z;
  photo : option (list string);
  video : option string;
  document : option string;
  forward_from : option User.t;
  reply_to_message : option Reply.t
}.
End Message.

Module Update.
Record t : Type := {
  update_id : Z;
  message : option Message.t
}.
End Update.

(** [d.get(key, default)] *)
Definition get {A : Type} (value : option A) (default : A) : A :=
  match value with
  | Some v => v
  | None => default
  end.

(** [not rows] for a list *)
Definition is_empty {A : Type} (l : list A) : bool :=
  match l with
  | [] => true
  | _ :: _ => false
  end.

(** [key in d] *)
Definition contains {A : Type} (value : option A) : bool :=
  match value with
  | Some _ => true
  | None => false
  end.

(** Truth value of [d.get(key)] for an integer key: [None] and [0] are
    false. *)
Definition truthy (x : option Z) : bool :=
  match x with
  | Some z => negb (z =? 0)
  | None => false
  end.

(** [all(xs)] *)
Definition all (xs : list (option Z)) : bool := forallb truthy xs.

(** The integer held by a value that passed the guard. *)
Definition the_int (x : option Z) : Z := get x 0.

(** ** The world a call acts on *)

(** A line written by [print]. *)
Inductive printed : Type :=
| Logged (who : string + Z) (place : string + Z)   (* line 460 *)
| SectionHeader (title : string)                  (* line 650 *)
| Info (text : string)                            (* line 651 *)
| Warning (text : string)                         (* line 652 *)
| Blank                                           (* line 653 *)
| MonitoringStopped.                              (* line 677 *)

Record World : Type := {
  db : Database;
  stdout : list printed;
  log_file : list string
}.

Definition set_db (w : World) (d : Database) : World :=
  {| db := d; stdout := stdout w; log_file := log_file w |}.

Definition print (p : printed) (w : World) : World :=
  {| db := db w; stdout := stdout w ++ [p]; log_file := log_file w |}.

(** A method of the database manager: it returns or raises, and leaves a
    database. *)
Definition M (A : Type) : Type := Database -> outcome A * Database.

(** ** Results of the read queries *)

Record found_user : Type := {
  fu_user_id : Z;
  fu_first_name : option string;
  fu_current_username : option string
}.

Record message_view : Type := {
  mv_message_id : Z;
  mv_chat_id : Z;
  mv_username : option string;
  mv_first_name : option string;
  mv_text : string;
  mv_date : sql_value;
  mv_media_type : option string;
  mv_chat_title : option string
}.

Record history_view : Type := {
  hv_username : option string;
  hv_changed_at : option sql_value
}.

Definition found_user_eqb (a b : found_user) : bool :=
  (fu_user_id a =? fu_user_id b)
  && Sqlite.opt_eqb String.eqb (fu_first_name a) (fu_first_name b)
  && Sqlite.opt_eqb String.eqb (fu_current_username a) (fu_current_username b).

(** Columns of the right side of a [LEFT JOIN]: [NULL] when no row joined. *)
Definition joined {R A : Type} (col : R -> option A) (r : option R) : option A :=
  match r with
  | Some x => col x
  | None => None
  end.

(** ** [class DatabaseManager], first definition (lines 150-319) *)

Module DatabaseManager_150.

Definition body : class_body :=
  [ ("__init__", 153%nat); ("_init_database", 157%nat);
    ("store_message_data", 235%nat); ("search_usernames", 253%nat);
    ("get_user_messages", 275%nat); ("get_username_history", 305%nat) ].

(** Lines 157-233: five [CREATE TABLE IF NOT EXISTS]. *)
Definition _init_database (f : db_file) : Database :=
  {| users := create_table_if_not_exists (f_users f);
     username_history := create_table_if_not_exists (f_username_history f);
     messages := create_table_if_not_exists (f_messages f);
     chats := create_table_if_not_exists (f_chats f);
     user_activity := create_table_if_not_exists (f_user_activity f) |}.

(** Lines 235-251: [INSERT OR REPLACE INTO messages ... VALUES (?, ...)].
    Binding an integer that SQLite cannot hold raises before the statement
    runs. *)
Definition store_message_data (message_id chat_id user_id : Z)
    (username first_name : option string)
    (message_text message_date : string) (media_type : option string)
    (forwarded_from reply_to_message_id : option Z) : M unit :=
  fun db =>
    let values :=
      {| message_id := message_id; chat_id := chat_id; user_id := user_id;
         username := username; first_name := first_name;
         message_text := message_text; message_date := message_date;
         media_type := media_type; forwarded_from := forwarded_from;
         reply_to_message_id := reply_to_message_id |} in
    if bindable values then
      (Return tt,
       set_messages db (Sqlite.insert_or_replace (row_of values) (messages db)))
    else (Raise OverflowError, db).

(** Lines 253-273. *)
Definition search_usernames (username_query : string)
  : M (list found_user) :=
  fun db =>
    let pattern := "%" ++ username_query ++ "%" in
    let u_uh :=
      Sqlite.left_join
        (fun u uh => Sqlite.sql_eq (u_user_id u) (h_user_id uh))
        (users db) (username_history db) in
    if Sqlite.too_complex pattern && negb (is_empty u_uh) then
      (Raise OperationalError, db)
    else
      let selected :=
        filter (fun r =>
                  Sqlite.like (u_current_username (fst r)) pattern
                  || Sqlite.like (joined h_username (snd r)) pattern)
               u_uh in
      let results :=
        Sqlite.distinct found_user_eqb
          (map (fun r =>
                  {| fu_user_id := u_user_id (fst r);
                     fu_first_name := u_first_name (fst r);
                     fu_current_username := u_current_username (fst r) |})
               selected) in
      (Return results, db).

(** The two read queries below order their rows; [number_leb] is SQLite's
    comparison of stored numbers (see [Sqlite.value_leb]).  Binding an
    integer that SQLite cannot hold raises before the query runs. *)
Section Reads.

Variable number_leb : sql_value -> sql_value -> bool.

(** Lines 275-303.  Every fetched row has eleven columns, so
    [chat_title] is column 10, the joined [c.title]. *)
Definition get_user_messages (user_id : Z) (limit : Z)
  : M (list message_view) :=
  fun db =>
    if in_int64 user_id && in_int64 limit then
      let m_c :=
        Sqlite.left_join (fun m c => m_chat_id m =? c_chat_id c)
          (messages db) (chats db) in
      let selected := filter (fun r => sender_of (fst r) =? user_id) m_c in
      let rows :=
        Sqlite.limit limit
          (Sqlite.order_by_desc number_leb
             (fun r => Some (m_message_date (fst r))) selected) in
      (Return
         (map (fun r =>
                 {| mv_message_id := m_message_id (fst r);
                    mv_chat_id := m_chat_id (fst r);
                    mv_username := m_username (fst r);
                    mv_first_name := m_first_name (fst r);
                    mv_text := m_message_text (fst r);
                    mv_date := m_message_date (fst r);
                    mv_media_type := m_media_type (fst r);
                    mv_chat_title := joined c_title (snd r) |})
              rows),
       db)
    else (Raise OverflowError, db).

(** Lines 305-319. *)
Definition get_username_history (user_id : Z) : M (list history_view) :=
  fun db =>
    if in_int64 user_id then
      let selected :=
        filter (fun h => Sqlite.sql_eq user_id (h_user_id h))
               (username_history db) in
      let rows := Sqlite.order_by_desc number_leb h_changed_at selected in
      (Return
         (map (fun h => {| hv_username := h_username h;
                           hv_changed_at := h_changed_at h |}) rows),
       db)
    else (Raise OverflowError, db).

End Reads.

End DatabaseManager_150.

(** ** The object behind [self.db_manager]

    [process_message] looks its two methods up on the object at the call;
    [None] says that the lookup fails. *)

Record manager : Type := {
  class_name : string;
  attr_store_user_data : option (User.t -> M unit);
  attr_store_message_data : option (message_args -> M unit)
}.

(** ** [class UserTegOSINT] (lines 383-460) *)

Module UserTegOSINT.

Definition body : class_body :=
  [ ("__init__", 384%nat); ("log_operation", 394%nat); ("api_call", 404%nat);
    ("validate_token", 418%nat); ("process_message", 423%nat) ].

(** Lines 438-444. *)
Definition media_type_of (message : Message.t) : option string :=
  if contains (Message.photo message) then Some "photo"
  else if contains (Message.video message) then Some "video"
  else if contains (Message.document message) then Some "document"
  else None.

(** Line 460: [user.get('username', user_id)] and
    [chat.get('title', chat_id)]. *)
Definition label (name : option string) (ident : option Z) : string + Z :=
  match name with
  | Some s => inl s
  | None => inr (the_int ident)
  end.

Section Process.

(** [datetime.fromtimestamp(ts).isoformat()]: the local time of the
    process, or an error for a timestamp the platform cannot convert. *)
Variable fromtimestamp_isoformat : Z -> outcome string.

(** [self.db_manager] *)
Variable db_manager : manager.

(** The keyword arguments of lines 447-458. *)
Definition message_record (message : Message.t) (message_date : string)
  : message_args :=
  let chat := get (Message.chat message) Chat.empty in
  let user := get (Message.from message) User.empty in
  {| message_id := the_int (Message.message_id message);
     chat_id := the_int (Chat.id chat);
     user_id := the_int (User.id user);
     username := User.username user;
     first_name := User.first_name user;
     message_text := get (Message.text message) "";
     message_date := message_date;
     media_type := media_type_of message;
     forwarded_from :=
       User.id (get (Message.forward_from message) User.empty);
     reply_to_message_id :=
       Reply.message_id (get (Message.reply_to_message message) Reply.empty) |}.

(** Lines 423-460. *)
Definition process_message (message : Message.t) (w : World)
  : outcome unit * World :=
  let chat := get (Message.chat message) Chat.empty in
  let chat_id := Chat.id chat in
  let user := get (Message.from message) User.empty in
  let user_id := User.id user in
  if negb (all [Message.message_id message; chat_id; user_id]) then
    (Return tt, w)
  else
    match attr_store_user_data db_manager with
    | None =>
        (Raise (AttributeError (class_name db_manager) "store_user_data"), w)
    | Some store_user_data =>
        match store_user_data user (db w) with
        | (Raise e, d) => (Raise e, set_db w d)
        | (Return _, d) =>
            match fromtimestamp_isoformat (get (Message.date message) 0) with
            | Raise e => (Raise e, set_db w d)
            | Return message_date =>
                match attr_store_message_data db_manager with
                | None =>
                    (Raise (AttributeError (class_name db_manager)
                              "store_message_data"),
                     set_db w d)
                | Some store_message_data =>
                    match store_message_data
                            (message_record message message_date) d with
                    | (Raise e, d') => (Raise e, set_db w d')
                    | (Return _, d') =>
                        (Return tt,
                         print (Logged (label (User.username user) user_id)
                                       (label (Chat.title chat) chat_id))
                               (set_db w d'))
                    end
                end
            end
        end
    end.

End Process.

End UserTegOSINT.

(** ** [class DatabaseManager], second definition (lines 462-677)

    The class statement of line 462 rebinds the module-level name
    [DatabaseManager], so [UserTegOSINT.__init__] instantiates this class.
    Its body runs to line 677: the four [def]s of lines 636-677 are indented
    as members of it. *)

(** What [session.get] and [response.json()] yield for one request. *)
Inductive reply : Type :=
| Fails (e : exn)                     (* either call raises *)
| NotOk                               (* decoded, [data.get('ok')] false *)
| Ok (updates : list Update.t).       (* decoded, [ok], [data.get('result', [])] *)

(** Where [start_monitoring] stands. *)
Inductive control : Type :=
| Polling                                       (* line 659 *)
| Iterating (updates : list Update.t)           (* line 668 *)
| Dispatching (update : Update.t) (rest : list Update.t)   (* line 671 *)
| Sleeping                                      (* line 674 *)
| Stopped                                       (* after line 677 *)
| Crashed (e : exn).                            (* an exception left the call *)

Record monitor : Type := {
  at_ : control;
  last_update_id : Z;
  world : World;
  requests : list (Z * Z);       (* [(offset, timeout)] of each request, oldest first *)
  sleeps : nat                   (* number of [time.sleep(0.1)] done *)
}.

Module DatabaseManager.

Definition body : class_body :=
  [ ("__init__", 465%nat); ("_init_database", 469%nat);
    ("store_message_data", 547%nat); ("search_usernames", 565%nat);
    ("get_user_messages", 587%nat); ("get_username_history", 617%nat);
    ("get_username_history", 636%nat); ("search_messages", 640%nat);
    ("get_database_stats", 644%nat); ("start_monitoring", 648%nat) ].

(** Attributes set on the instance by [__init__] (line 466). *)
Definition instance_attributes : list string := ["db_path"].

(** [hasattr(self, name)] *)
Definition has_attribute (name : string) : bool :=
  existsb (String.eqb name) instance_attributes
  || contains (class_attr body name).

(** Lines 469-545. *)
Definition _init_database (f : db_file) : Database :=
  {| users := create_table_if_not_exists (f_users f);
     username_history := create_table_if_not_exists (f_username_history f);
     messages := create_table_if_not_exists (f_messages f);
     chats := create_table_if_not_exists (f_chats f);
     user_activity := create_table_if_not_exists (f_user_activity f) |}.

(** Lines 547-563. *)
Definition store_message_data (message_id chat_id user_id : Z)
    (username first_name : option string)
    (message_text message_date : string) (media_type : option string)
    (forwarded_from reply_to_message_id : option Z) : M unit :=
  fun db =>
    let values :=
      {| message_id := message_id; chat_id := chat_id; user_id := user_id;
         username := username; first_name := first_name;
         message_text := message_text; message_date := message_date;
         media_type := media_type; forwarded_from := forwarded_from;
         reply_to_message_id := reply_to_message_id |} in
    if bindable values then
      (Return tt,
       set_messages db (Sqlite.insert_or_replace (row_of values) (messages db)))
    else (Raise OverflowError, db).

(** Lines 565-585. *)
Definition search_usernames (username_query : string)
  : M (list found_user) :=
  fun db =>
    let pattern := "%" ++ username_query ++ "%" in
    let u_uh :=
      Sqlite.left_join
        (fun u uh => Sqlite.sql_eq (u_user_id u) (h_user_id uh))
        (users db) (username_history db) in
    if Sqlite.too_complex pattern && negb (is_empty u_uh) then
      (Raise OperationalError, db)
    else
      let selected :=
        filter (fun r =>
                  Sqlite.like (u_current_username (fst r)) pattern
                  || Sqlite.like (joined h_username (snd r)) pattern)
               u_uh in
      let results :=
        Sqlite.distinct found_user_eqb
          (map (fun r =>
                  {| fu_user_id := u_user_id (fst r);
                     fu_first_name := u_first_name (fst r);
                     fu_current_username := u_current_username (fst r) |})
               selected) in
      (Return results, db).

(** The two read queries below order their rows; [number_leb] is SQLite's
    comparison of stored numbers (see [Sqlite.value_leb]).  Binding an
    integer that SQLite cannot hold raises before the query runs. *)
Section Reads.

Variable number_leb : sql_value -> sql_value -> bool.

(** Lines 587-615. *)
Definition get_user_messages (user_id : Z) (limit : Z)
  : M (list message_view) :=
  fun db =>
    if in_int64 user_id && in_int64 limit then
      let m_c :=
        Sqlite.left_join (fun m c => m_chat_id m =? c_chat_id c)
          (messages db) (chats db) in
      let selected := filter (fun r => sender_of (fst r) =? user_id) m_c in
      let rows :=
        Sqlite.limit limit
          (Sqlite.order_by_desc number_leb
             (fun r => Some (m_message_date (fst r))) selected) in
      (Return
         (map (fun r =>
                 {| mv_message_id := m_message_id (fst r);
                    mv_chat_id := m_chat_id (fst r);
                    mv_username := m_username (fst r);
                    mv_first_name := m_first_name (fst r);
                    mv_text := m_message_text (fst r);
                    mv_date := m_message_date (fst r);
                    mv_media_type := m_media_type (fst r);
                    mv_chat_title := joined c_title (snd r) |})
              rows),
       db)
    else (Raise OverflowError, db).

(** Lines 617-631: the first binding of [get_username_history] in this
    body, replaced by the [def] of line 636 when the body is executed. *)
Definition get_username_history_617 (user_id : Z) : M (list history_view) :=
  fun db =>
    if in_int64 user_id then
      let selected :=
        filter (fun h => Sqlite.sql_eq user_id (h_user_id h))
               (username_history db) in
      let rows := Sqlite.order_by_desc number_leb h_changed_at selected in
      (Return
         (map (fun h => {| hv_username := h_username h;
                           hv_changed_at := h_changed_at h |}) rows),
       db)
    else (Raise OverflowError, db).

End Reads.

(** Lines 636-638: [return self.db_manager.get_username_history(user_id)].
    An instance has no attribute [db_manager] (see [has_attribute]), so the
    attribute lookup raises before anything is read. *)
Definition get_username_history (user_id : Z) : M (list history_view) :=
  fun db => (Raise (AttributeError "DatabaseManager" "db_manager"), db).

(** Lines 640-642, likewise. *)
Definition search_messages (keyword : string) (limit : Z)
  : M (list message_view) :=
  fun db => (Raise (AttributeError "DatabaseManager" "db_manager"), db).

(** Lines 644-646, likewise. *)
Definition get_database_stats : M (list (string * Z)) :=
  fun db => (Raise (AttributeError "DatabaseManager" "db_manager"), db).

(** [store_message_data] called with the fields of a record. *)
Definition store_record (r : message_args) : M unit :=
  store_message_data (message_id r) (chat_id r) (user_id r)
    (username r) (first_name r) (message_text r)
    (message_date r) (media_type r) (forwarded_from r)
    (reply_to_message_id r).

(** The instance as [process_message] sees it: no [def] of the body binds
    [store_user_data]. *)
Definition instance : manager :=
  {| class_name := "DatabaseManager";
     attr_store_user_data := None;
     attr_store_message_data := Some store_record |}.

(** *** [start_monitoring] (lines 648-677)

    The function reads [self.session], [self.base_url] and
    [self.process_message]; they are parameters here.  [server n] is what
    the [n]-th request meets. *)
Section Monitoring.

Variable server : nat -> reply.
Variable process_message : Message.t -> World -> outcome unit * World.

Definition goto (c : control) (m : monitor) : monitor :=
  {| at_ := c; last_update_id := last_update_id m; world := world m;
     requests := requests m; sleeps := sleeps m |}.

Definition set_world (w : World) (m : monitor) : monitor :=
  {| at_ := at_ m; last_update_id := last_update_id m; world := w;
     requests := requests m; sleeps := sleeps m |}.

(** Lines 657, 676-677: [except KeyboardInterrupt] is the only handler. *)
Definition raised (e : exn) (m : monitor) : monitor :=
  match e with
  | KeyboardInterrupt =>
      goto Stopped (set_world (print MonitoringStopped (world m)) m)
  | _ => goto (Crashed e) m
  end.

Definition step (m : monitor) : monitor :=
  match at_ m with
  | Polling =>
      (* lines 659-666 *)
      let asked :=
        {| at_ := Polling; last_update_id := last_update_id m;
           world := world m;
           requests := requests m ++ [(last_update_id m + 1, 30)];
           sleeps := sleeps m |} in
      match server (List.length (requests m)) with
      | Fails e => raised e asked
      | NotOk => goto Sleeping asked
      | Ok updates => goto (Iterating updates) asked
      end
  | Iterating [] => goto Sleeping m
  | Iterating (update :: rest) =>
      (* line 669 *)
      {| at_ := Dispatching update rest;
         last_update_id := Update.update_id update;
         world := world m; requests := requests m; sleeps := sleeps m |}
  | Dispatching update rest =>
      (* lines 671-672 *)
      match Update.message update with
      | None => goto (Iterating rest) m
      | Some message =>
          match process_message message (world m) with
          | (Return _, w) => goto (Iterating rest) (set_world w m)
          | (Raise e, w) => raised e (set_world w m)
          end
      end
  | Sleeping =>
      (* line 674 *)
      {| at_ := Polling; last_update_id := last_update_id m;
         world := world m; requests := requests m;
         sleeps := S (sleeps m) |}
  | Stopped => m
  | Crashed _ => m
  end.

Fixpoint run (n : nat) (m : monitor) : monitor :=
  match n with
  | O => m
  | S n' => run n' (step m)
  end.

(** Lines 650-655. *)
Definition start_monitoring (w : World) : monitor :=
  {| at_ := Polling; last_update_id := 0;
     world :=
       print Blank
         (print (Warning "Press Ctrl+C to stop monitoring")
            (print (Info "Bot is now logging all messages from groups it's in")
               (print (SectionHeader "MESSAGE MONITORING ACTIVE") w)));
     requests := []; sleeps := O |}.

End Monitoring.

End DatabaseManager.

(** ** The program as [UserTegOSINT.__init__] wires it (line 391) *)

Module Program.

Section Wired.

Variable fromtimestamp_isoformat : Z -> outcome string.

Definition process_message : Message.t -> World -> outcome unit * World :=
  UserTegOSINT.process_message fromtimestamp_isoformat DatabaseManager.instance.

(** The polling loop over this [process_message], [n] steps from the
    call of [start_monitoring]. *)
Definition monitoring (server : nat -> reply) (n : nat) (w : World) : monitor :=
  DatabaseManager.run server process_message n
    (DatabaseManager.start_monitoring w).

End Wired.

(** A fresh installation: the database file has no table yet. *)
Definition fresh : World :=
  {| db := DatabaseManager._init_database empty_file;
     stdout := []; log_file := [] |}.

End Program.

(** ** Notions of the specification *)

(** The stored rows of [messages] under one composite key. *)
Definition rows_with_key (mid cid : Z) (d : Database) : list message_row :=
  filter (fun x => (m_message_id x =? mid) && (m_chat_id x =? cid)) (messages d).

(** The row holds the field values of the arguments, each as written. *)
Definition holds_values (x : message_row) (a : message_args) : Prop :=
  m_message_id x = message_id a /\ m_chat_id x = chat_id a
  /\ m_user_id x = user_id a /\ m_username x = username a
  /\ m_first_name x = first_name a /\ m_message_text x = message_text a
  /\ m_message_date x = Text (message_date a)
  /\ m_media_type x = media_type a /\ m_forwarded_from x = forwarded_from a
  /\ m_reply_to_message_id x = reply_to_message_id a.

(** The claim on [store_message_data] for one record, one later record
    under the same key, and one database. *)
Definition second_write_is_the_row (d : Database) (a a' : message_args) : Prop :=
  exists x,
    rows_with_key (message_id a) (chat_id a)
      (snd (DatabaseManager.store_record a'
              (snd (DatabaseManager.store_record a d)))) = [x]
    /\ holds_values x a'.

(** The three identifiers of the guard, as the update carries them. *)
Definition chat_identifier (message : Message.t) : option Z :=
  match Message.chat message with
  | Some c => Chat.id c
  | None => None
  end.

Definition sender_identifier (message : Message.t) : option Z :=
  match Message.from message with
  | Some u => User.id u
  | None => None
  end.

Definition lacks_identifier (message : Message.t) : Prop :=
  Message.message_id message = None
  \/ chat_identifier message = None
  \/ sender_identifier message = None.

Definition zero_identifier (message : Message.t) : Prop :=
  Message.message_id message = Some 0
  \/ chat_identifier message = Some 0
  \/ sender_identifier message = Some 0.

(** Media classification as the specification words it: an ordered list of
    checks, the first that holds decides. *)
Definition media_checks (message : Message.t) : list (string * bool) :=
  [ ("photo", contains (Message.photo message));
    ("video", contains (Message.video message));
    ("document", contains (Message.document message)) ].

Definition first_match (checks : list (string * bool)) : option string :=
  match find snd checks with
  | Some (name, _) => Some name
  | None => None
  end.

(** [q] occurs in [s] as a run of consecutive characters, letters compared
    without regard to case. *)
Definition substring_nocase (q s : list ascii) : Prop :=
  exists before found after : list ascii,
    s = (before ++ found ++ after)%list
    /\ Forall2 (fun c d => Sqlite.eq_nocase c d = true) q found.

Definition username_contains (query : string) (name : option string) : Prop :=
  exists s, name = Some s
    /\ substring_nocase (list_ascii_of_string query) (list_ascii_of_string s).

(** The same, of the name as [LIKE] reads it: up to its first NUL. *)
Definition visible_contains (query : string) (name : option string) : Prop :=
  exists s, name = Some s
    /\ substring_nocase (list_ascii_of_string query)
         (Sqlite.upto_nul (list_ascii_of_string s)).

(** The same, decided. *)
Fixpoint prefix_nocase (q s : list ascii) : bool :=
  match q, s with
  | [], _ => true
  | _ :: _, [] => false
  | c :: q', d :: s' => Sqlite.eq_nocase c d && prefix_nocase q' s'
  end.

Fixpoint contains_nocase (q s : list ascii) : bool :=
  prefix_nocase q s ||
  match s with
  | [] => false
  | _ :: s' => contains_nocase q s'
  end.

(** A query without the two wildcards of [LIKE]. *)
Definition wildcard_free (query : string) : Prop :=
  forallb (fun c => negb (Sqlite.is_percent c) && negb (Sqlite.is_underscore c))
          (list_ascii_of_string query) = true.

(** A query without a NUL character. *)
Definition nul_free (query : string) : Prop :=
  forallb (fun c => negb (Sqlite.is_nul c)) (list_ascii_of_string query) = true.

(** The pattern made of the query is one that [LIKE] accepts. *)
Definition pattern_fits (query : string) : Prop :=
  Sqlite.too_complex ("%" ++ query ++ "%") = false.

(** What the specification says [search_usernames] returns for user [u]. *)
Definition found_of (u : user_row) : found_user :=
  {| fu_user_id := u_user_id u; fu_first_name := u_first_name u;
     fu_current_username := u_current_username u |}.

Definition username_hit (query : string) (d : Database) (u : user_row) : Prop :=
  username_contains query (u_current_username u)
  \/ exists h, In h (username_history d)
       /\ h_user_id h = Some (u_user_id u)
       /\ username_contains query (h_username h).

(** The claim on [search_usernames] for one query and one database. *)
Definition search_is_substring_search (query : string) (d : Database) : Prop :=
  exists results,
    DatabaseManager.search_usernames query d = (Return results, d)
    /\ NoDup results
    /\ forall t, In t results <->
         exists u, In u (users d) /\ t = found_of u /\ username_hit query d u.

(** The same with usernames read up to their first NUL. *)
Definition visible_hit (query : string) (d : Database) (u : user_row) : Prop :=
  visible_contains query (u_current_username u)
  \/ exists h, In h (username_history d)
       /\ h_user_id h = Some (u_user_id u)
       /\ visible_contains query (h_username h).

Definition search_is_visible_substring_search (query : string) (d : Database)
  : Prop :=
  exists results,
    DatabaseManager.search_usernames query d = (Return results, d)
    /\ NoDup results
    /\ forall t, In t results <->
         exists u, In u (users d) /\ t = found_of u /\ visible_hit query d u.

(** The offset held when an update is about to be dispatched. *)
Definition offset_advanced (m : monitor) : Prop :=
  match at_ m with
  | Dispatching update _ => last_update_id m = Update.update_id update
  | _ => True
  end.

(** The loop has ended: it will make no further request. *)
Definition ended (m : monitor) : Prop :=
  at_ m = Stopped \/ exists e, at_ m = Crashed e.

(** A request of [m] asks the platform for the update [update_id]:
    [getUpdates] hands out the updates from its offset on. *)
Definition asks_for (m : monitor) (update_id : Z) : Prop :=
  exists r, In r (requests m) /\ fst r <= update_id.

(** ** [api_call] and [validate_token] (lines 404-421) *)

(** What the request of [api_call] meets. *)
Inductive api_reply (A : Type) : Type :=
| ApiFails (e : exn)                       (* [session.get] or [response.json()] raises *)
| ApiNotOk (description : option string)   (* decoded, [data.get('ok')] false *)
| ApiOkNoResult                            (* [ok], but no key ['result'] *)
| ApiOk (result : A).                      (* [ok], [data['result']] *)
Arguments ApiFails {A} e.
Arguments ApiNotOk {A} description.
Arguments ApiOkNoResult {A}.
Arguments ApiOk {A} result.

(** The dictionary that [api_call] returns: ['success'], and ['data'] or
    ['error']. *)
Record api_result (A : Type) : Type := {
  success : bool;
  data : option A;
  error : option string
}.
Arguments success {A} _.
Arguments data {A} _.
Arguments error {A} _.

(** [except Exception] catches every exception of the model but
    [KeyboardInterrupt], which derives from [BaseException] only. *)
Definition is_Exception (e : exn) : bool :=
  match e with
  | KeyboardInterrupt => false
  | _ => true
  end.

Section ApiCall.

(** [str(e)] *)
Variable str : exn -> string.

Context {A : Type}.

(** Lines 404-416. *)
Definition api_call (r : api_reply A) : outcome (api_result A) :=
  match r with
  | ApiOk result =>
      Return {| success := true; data := Some result; error := None |}
  | ApiNotOk description =>
      Return {| success := false; data := None;
                error := Some (get description "Unknown error") |}
  | ApiOkNoResult =>
      (* [data['result']] raises [KeyError('result')], caught at line 415 *)
      Return {| success := false; data := None; error := Some "'result'" |}
  | ApiFails e =>
      if is_Exception e then
        Return {| success := false; data := None; error := Some (str e) |}
      else Raise e
  end.

(** Lines 418-421: [result.get('success', False)]. *)
Definition validate_token (r : api_reply A) : outcome bool :=
  match api_call r with
  | Return result => Return (success result)
  | Raise e => Raise e
  end.

End ApiCall.

(** ** [class FolderStructure] (lines 48-98)

    A path is the list of its components; [p / name] appends one. *)

Module FolderStructure.

Definition Path : Type := list string.

Definition div (p : Path) (name : string) : Path := (p ++ [name])%list.

(** Lines 53-62: the dictionary [self.folders], in the order written. *)
Definition folders (base_dir : Path) : list (string * Path) :=
  [ ("database", div base_dir "database");
    ("logs", div base_dir "logs");
    ("exports", div base_dir "exports");
    ("downloads", div base_dir "downloads");
    ("profiles", div (div base_dir "downloads") "profiles");
    ("media", div (div base_dir "downloads") "media");
    ("config", div base_dir "config");
    ("cache", div base_dir "cache") ].

Fixpoint dict_get (d : list (string * Path)) (key : string) : option Path :=
  match d with
  | [] => None
  | (k, v) :: rest => if String.eqb k key then Some v else dict_get rest key
  end.

(** Lines 96-98: [self.folders.get(key, self.base_dir)]. *)
Definition get_path (base_dir : Path) (key : string) : Path :=
  get (dict_get (folders base_dir) key) base_dir.

(** Line 391: the path handed to [DatabaseManager]. *)
Definition database_file (base_dir : Path) : Path :=
  div (get_path base_dir "database") "intelligence.db".

End FolderStructure.

(** ** [class MenuSystem] (lines 683-843) *)

Module MenuSystem.

(** [str.isspace] and [str.isdigit] on the characters of the model. *)
Definition isspace (c : ascii) : bool :=
  let n := nat_of_ascii c in
  (Nat.leb 9 n && Nat.leb n 13) || (Nat.leb 28 n && Nat.leb n 32)
  || Nat.eqb n 133 || Nat.eqb n 160.

Definition isdigit_char (c : ascii) : bool :=
  let n := nat_of_ascii c in
  (Nat.leb 48 n && Nat.leb n 57)
  || Nat.eqb n 178 || Nat.eqb n 179 || Nat.eqb n 185.

Fixpoint lstrip (s : list ascii) : list ascii :=
  match s with
  | [] => []
  | c :: s' => if isspace c then lstrip s' else s
  end.

(** [s.strip()] *)
Definition strip (s : string) : string :=
  string_of_list_ascii
    (rev (lstrip (rev (lstrip (list_ascii_of_string s))))).

(** [s.isdigit()]: false for the empty text. *)
Definition isdigit (s : string) : bool :=
  match list_ascii_of_string s with
  | [] => false
  | cs => forallb isdigit_char cs
  end.

(** A line put on the screen. *)
Inductive shown : Type :=
| ShowHeader (title : string)             (* [BannerDisplay.show_section_header] *)
| ShowError (text : string)               (* [BannerDisplay.show_error] *)
| ShowWarning (text : string)             (* [BannerDisplay.show_warning] *)
| ShowInfo (text : string)                (* [BannerDisplay.show_info] *)
| ShowFound (n : nat)                     (* line 779 *)
| ShowMatch (idx : nat) (r : found_user)  (* line 781 *)
| ShowBotName (v : option string)         (* line 841 *)
| ShowBotUsername (v : option string)     (* line 842 *)
| ShowBotId (v : option Z).               (* line 843 *)

Record console : Type := {
  c_db : Database;
  c_out : list shown
}.

Definition show (l : list shown) (c : console) : console :=
  {| c_db := c_db c; c_out := (c_out c ++ l)%list |}.

(** [self.osint.name] for a name that neither [UserTegOSINT.__init__] sets
    nor the class body binds. *)
Definition missing (name : string) : exn := AttributeError "UserTegOSINT" name.

(** [enumerate(results, 1)] with line 781. *)
Fixpoint matches_from (idx : nat) (results : list found_user) : list shown :=
  match results with
  | [] => []
  | r :: rest => ShowMatch idx r :: matches_from (S idx) rest
  end.

Section Menu.

Variable str : exn -> string.

(** [self.osint.log_file], as text. *)
Variable log_file : string.

(** Lines 746-770, with the text typed at the prompt. *)
Definition view_user_intelligence (typed : string) (c : console)
  : outcome unit * console :=
  let c := show [ShowHeader "User Intelligence Lookup"] c in
  let user_id := strip typed in
  if negb (isdigit user_id) then
    (Return tt, show [ShowError "Invalid User ID"] c)
  else (Raise (missing "get_username_history"), c).

(** Lines 772-783. *)
Definition search_username (typed : string) (c : console)
  : outcome unit * console :=
  let c := show [ShowHeader "Username Search"] c in
  let username := strip typed in
  match DatabaseManager.search_usernames username (c_db c) with
  | (Raise e, d) => (Raise e, {| c_db := d; c_out := c_out c |})
  | (Return results, d) =>
      let c := {| c_db := d; c_out := c_out c |} in
      match results with
      | [] => (Return tt, show [ShowWarning "No matches found"] c)
      | _ :: _ =>
          (Return tt,
           show (ShowFound (List.length results) :: matches_from 1 results) c)
      end
  end.

(** Lines 785-804. *)
Definition view_message_history (typed : string) (c : console)
  : outcome unit * console :=
  let c := show [ShowHeader "Message History Viewer"] c in
  let user_id := strip typed in
  if negb (isdigit user_id) then
    (Return tt, show [ShowError "Invalid User ID"] c)
  else (Raise (missing "get_user_messages"), c).

(** Lines 806-817. *)
Definition search_messages (typed : string) (c : console)
  : outcome unit * console :=
  let c := show [ShowHeader "Message Keyword Search"] c in
  (Raise (missing "search_messages"), c).

(** Lines 819-826. *)
Definition show_statistics (c : console) : outcome unit * console :=
  let c := show [ShowHeader "Database Statistics"] c in
  (Raise (missing "get_database_stats"), c).

(** Lines 828-835. *)
Definition generate_report (c : console) : outcome unit * console :=
  (Return tt, show [ShowInfo "Report generation feature - Coming soon"] c).

Definition export_data (c : console) : outcome unit * console :=
  (Return tt, show [ShowInfo "Data export feature - Coming soon"] c).

Definition view_logs (c : console) : outcome unit * console :=
  (Return tt, show [ShowInfo ("Log file: " ++ log_file)] c).

(** Lines 837-843. *)
Definition show_bot_info (getMe : api_reply User.t) (c : console)
  : outcome unit * console :=
  match api_call str getMe with
  | Raise e => (Raise e, c)
  | Return result =>
      if success result then
        match data result with
        | Some bot =>
            (Return tt,
             show [ ShowBotName (User.first_name bot);
                    ShowBotUsername (User.username bot);
                    ShowBotId (User.id bot) ] c)
        | None => (Return tt, c)
        end
      else (Return tt, c)
  end.

(** Lines 721-744.  [typed] is what the user enters at the prompt of the
    chosen entry, [getMe] what the request of entry 10 meets. *)
Definition handle_choice (choice : Z) (typed : string)
    (getMe : api_reply User.t) (c : console) : outcome bool * console :=
  let after (r : outcome unit * console) : outcome bool * console :=
    match r with
    | (Return _, c') => (Return true, c')
    | (Raise e, c') => (Raise e, c')
    end in
  if choice =? 1 then after (view_user_intelligence typed c)
  else if choice =? 2 then after (search_username typed c)
  else if choice =? 3 then after (view_message_history typed c)
  else if choice =? 4 then after (search_messages typed c)
  else if choice =? 5 then (Raise (missing "start_monitoring"), c)
  else if choice =? 6 then after (show_statistics c)
  else if choice =? 7 then after (generate_report c)
  else if choice =? 8 then after (export_data c)
  else if choice =? 9 then after (view_logs c)
  else if choice =? 10 then after (show_bot_info getMe c)
  else if choice =? 11 then (Return false, c)
  else (Return true, c).

End Menu.

(** The names that [MenuSystem] asks of [self.osint] without finding them:
    [UserTegOSINT.__init__] sets [token], [folders], [session], [base_url],
    [db_manager] and [log_file] (lines 385-392). *)
Definition osint_attributes : list string :=
  ["token"; "folders"; "session"; "base_url"; "db_manager"; "log_file"].

Definition osint_has (name : string) : bool :=
  existsb (String.eqb name) osint_attributes
  || contains (class_attr UserTegOSINT.body name).

End MenuSystem.

(** ** Concrete inputs *)

Module Scenario.

(** A local-time conversion for the runs below; no run reaches it. *)
Definition isoformat_stub (ts : Z) : outcome string :=
  Return "1970-01-01T00:00:00".

Definition chat100 : Chat.t :=
  {| Chat.id := Some 100; Chat.title := Some "ops" |}.

Definition sender (uid : Z) (name : option string) : User.t :=
  {| User.id := Some uid; User.username := name; User.first_name := Some "Al" |}.

Definition text_message (mid : Z) (chat : option Chat.t) (from : option User.t)
    (ts : Z) (body : string) : Message.t :=
  {| Message.message_id := Some mid; Message.chat := chat;
     Message.from := from; Message.text := Some body;
     Message.date := Some ts; Message.photo := None; Message.video := None;
     Message.document := None; Message.forward_from := None;
     Message.reply_to_message := None |}.

(** User 1 seen as alice at T1, bob at T2, alice at T3, in chat 100. *)
Definition alice_T1 : Message.t :=
  text_message 11 (Some chat100) (Some (sender 1 (Some "alice"))) 1000 "hello".
Definition bob_T2 : Message.t :=
  text_message 12 (Some chat100) (Some (sender 1 (Some "bob"))) 2000 "hi again".
Definition alice_T3 : Message.t :=
  text_message 13 (Some chat100) (Some (sender 1 (Some "alice"))) 3000 "back".

Definition renames : list Update.t :=
  [ {| Update.update_id := 501; Update.message := Some alice_T1 |};
    {| Update.update_id := 502; Update.message := Some bob_T2 |};
    {| Update.update_id := 503; Update.message := Some alice_T3 |} ].

(** A server that hands out [updates] on the first request and has nothing
    new afterwards. *)
Definition serves (updates : list Update.t) (n : nat) : reply :=
  match n with
  | O => Ok updates
  | S _ => Ok []
  end.

(** A message without [chat.id], one with [message_id] 0, and an update
    without a message. *)
Definition no_chat_id : Message.t :=
  text_message 21 (Some {| Chat.id := None; Chat.title := Some "ops" |})
    (Some (sender 1 (Some "alice"))) 1000 "hello".

Definition zero_message_id : Message.t :=
  text_message 0 (Some chat100) (Some (sender 1 (Some "alice"))) 1000 "hello".

Definition bare_update : Update.t :=
  {| Update.update_id := 601; Update.message := None |}.

(** A message that carries a photo and a document. *)
Definition photo_and_document : Message.t :=
  {| Message.message_id := Some 31; Message.chat := Some chat100;
     Message.from := Some (sender 1 (Some "alice")); Message.text := None;
     Message.date := Some 1000; Message.photo := Some ["p1"; "p2"];
     Message.video := None; Message.document := Some "d1";
     Message.forward_from := None; Message.reply_to_message := None |}.

(** A record of [messages] and a later one under the same key. *)
Definition first_write : message_args :=
  {| message_id := 11; chat_id := 100; user_id := 1;
     username := Some "alice"; first_name := Some "Al";
     message_text := "hello"; message_date := "2024-01-01T10:00:00";
     media_type := None; forwarded_from := None; reply_to_message_id := None |}.

Definition second_write : message_args :=
  {| message_id := 11; chat_id := 100; user_id := 1;
     username := Some "alice"; first_name := Some "Al";
     message_text := "hello, edited"; message_date := "2024-01-01T10:05:00";
     media_type := Some "photo"; forwarded_from := None;
     reply_to_message_id := Some 7 |}.

(** A database in which user 1, now bob, was alice before. *)
Definition bob_row : user_row :=
  {| u_user_id := 1; u_first_name := Some "Al"; u_last_name := None;
     u_current_username := Some "bob"; u_is_bot := Some 0;
     u_language_code := None;
     u_first_seen := Some (Text "2024-01-01T10:00:00");
     u_last_seen := Some (Text "2024-01-02T10:00:00") |}.

Definition was_alice : history_row :=
  {| h_id := 1; h_user_id := Some 1; h_username := Some "alice";
     h_changed_at := Some (Text "2024-01-02T10:00:00") |}.

Definition renamed : Database :=
  {| users := [bob_row]; username_history := [was_alice]; messages := [];
     chats := []; user_activity := [] |}.

Definition at_polling (w : World) : monitor :=
  {| at_ := Polling; last_update_id := 500; world := w;
     requests := [(1, 30)]; sleeps := 1%nat |}.

End Scenario.

(** ** Notions for the behaviour of the queries *)

(** The composite key of the arguments of a call, and of a row. *)
Definition message_key (a : message_args) : Z * Z := (message_id a, chat_id a).

Definition row_key (m : message_row) : Z * Z := (m_message_id m, m_chat_id m).

(** No two rows of [messages] under one key, as the primary key demands. *)
Definition keys_unique (d : Database) : Prop :=
  NoDup (map row_key (messages d)).

(** A run of calls of [store_message_data], one per record, in order. *)
Definition store_all (rs : list message_args) (d : Database) : Database :=
  fold_left (fun d' r => snd (DatabaseManager.store_record r d')) rs d.

(** [a] is not older than [b]: the order of [ORDER BY ... DESC]. *)
Definition not_older (number_leb : sql_value -> sql_value -> bool)
    (a b : option sql_value) : Prop :=
  Sqlite.value_leb number_leb b a = true.

(** The comparison of stored numbers leaves no two of them unordered. *)
Definition total (number_leb : sql_value -> sql_value -> bool) : Prop :=
  forall a b, number_leb a b = true \/ number_leb b a = true.

(** The dictionary that [get_user_messages] builds shows the row [m]. *)
Definition shows (v : message_view) (m : message_row) : Prop :=
  mv_message_id v = m_message_id m /\ mv_chat_id v = m_chat_id m
  /\ mv_username v = m_username m /\ mv_first_name v = m_first_name m
  /\ mv_text v = m_message_text m /\ mv_date v = m_message_date m
  /\ mv_media_type v = m_media_type m.

(** The dictionary that [get_username_history] builds from a row. *)
Definition history_view_of (h : history_row) : history_view :=
  {| hv_username := h_username h; hv_changed_at := h_changed_at h |}.

(** Two texts that differ at most in the case of their letters. *)
Definition same_nocase (a b : string) : Prop :=
  Forall2 (fun c d => Sqlite.eq_nocase c d = true)
          (list_ascii_of_string a) (list_ascii_of_string b).

(** User [u] has a username, current or recorded, that the pattern of the
    query matches. *)
Definition like_hit (query : string) (d : Database) (u : user_row) : Prop :=
  Sqlite.like (u_current_username u) ("%" ++ query ++ "%") = true
  \/ exists h, In h (username_history d)
       /\ h_user_id h = Some (u_user_id u)
       /\ Sqlite.like (h_username h) ("%" ++ query ++ "%") = true.

(** ** Notions for the behaviour of the polling loop *)

(** One sleep between any two requests: at the request as many sleeps as
    requests were made, elsewhere one request more. *)
Definition paced (m : monitor) : Prop :=
  match at_ m with
  | Polling => List.length (requests m) = sleeps m
  | _ => List.length (requests m) = S (sleeps m)
  end.

(** A server that never has an update. *)
Definition without_updates (server : nat -> reply) : Prop :=
  forall n, server n = NotOk \/ server n = Ok [].

(** [process_message] returns for every message of the batch. *)
Definition dispatch_returns
    (process_message : Message.t -> World -> outcome unit * World)
    (updates : list Update.t) : Prop :=
  forall update message w,
    In update updates -> Update.message update = Some message ->
    fst (process_message message w) = Return tt.

(** The world after the updates were dispatched one after the other, in
    the order of the list. *)
Definition dispatched
    (process_message : Message.t -> World -> outcome unit * World)
    (updates : list Update.t) (w : World) : World :=
  fold_left (fun w' update =>
               match Update.message update with
               | Some message => snd (process_message message w')
               | None => w'
               end) updates w.

(** The identifier of the last update of a batch, [otherwise] for an empty
    batch. *)
Definition last_id (updates : list Update.t) (otherwise : Z) : Z :=
  last (map Update.update_id updates) otherwise.

(** ** Further concrete inputs *)

Module Sample.

(** A manager object that has both methods; its [store_user_data] does
    nothing. *)
Definition capable : manager :=
  {| class_name := "Stub";
     attr_store_user_data := Some (fun _ d => (Return tt, d));
     attr_store_message_data := Some DatabaseManager.store_record |}.

Definition world_of (d : Database) : World :=
  {| db := d; stdout := []; log_file := [] |}.

Definition console_of (d : Database) : MenuSystem.console :=
  {| MenuSystem.c_db := d; MenuSystem.c_out := [] |}.

(** [str(e)] *)
Definition str_stub (e : exn) : string := "error".

(** A record with an identifier that SQLite's INTEGER cannot hold, and one
    whose date reads as a number. *)
Definition large_id : message_args :=
  {| message_id := 2 ^ 63; chat_id := 100; user_id := 1;
     username := Some "alice"; first_name := Some "Al";
     message_text := "hello"; message_date := "2024-01-01T10:00:00";
     media_type := None; forwarded_from := None; reply_to_message_id := None |}.

(** A message of another sender under another key. *)
Definition other_message : message_args :=
  {| message_id := 12; chat_id := 100; user_id := 2;
     username := None; first_name := None;
     message_text := "other"; message_date := "2024-01-02T09:00:00";
     media_type := None; forwarded_from := None; reply_to_message_id := None |}.

(** A comparison of stored numbers for databases that hold dates as text
    only, where it is never consulted. *)
Definition no_numbers (a b : sql_value) : bool := true.

(** A database with a recorded username that holds an underscore. *)
Definition underscored : Database :=
  {| users := [Scenario.bob_row];
     username_history :=
       [ {| h_id := 1; h_user_id := Some 1; h_username := Some "A_ice";
            h_changed_at := None |} ];
     messages := []; chats := []; user_activity := [] |}.

Definition numeric_date : message_args :=
  {| message_id := 11; chat_id := 100; user_id := 1;
     username := Some "alice"; first_name := Some "Al";
     message_text := "hello"; message_date := "007";
     media_type := None; forwarded_from := None; reply_to_message_id := None |}.

End Sample.

(** * Theorems *)

(** ** The class namespaces *)

Lemma DatabaseManager_has_no_store_user_data :
  class_attr DatabaseManager.body "store_user_data" = None
  /\ class_attr DatabaseManager_150.body "store_user_data" = None.
Proof. split; reflexivity. Qed.

Lemma DatabaseManager_get_username_history_is_line_636 :
  class_attr DatabaseManager.body "get_username_history" = Some 636%nat.
Proof. reflexivity. Qed.

Lemma DatabaseManager_has_no_db_manager :
  DatabaseManager.has_attribute "db_manager" = false.
Proof. reflexivity. Qed.

Lemma start_monitoring_is_bound_in_DatabaseManager :
  class_attr DatabaseManager.body "start_monitoring" = Some 648%nat
  /\ class_attr UserTegOSINT.body "start_monitoring" = None.
Proof. split; reflexivity. Qed.

(** ** [INSERT OR REPLACE] *)

Section InsertOrReplace.

Variable r : message_row.

Let here (x : message_row) : bool :=
  (m_message_id x =? m_message_id r) && (m_chat_id x =? m_chat_id r).

Lemma same_key_here (x : message_row) : Sqlite.same_key r x = here x.
Proof.
  unfold Sqlite.same_key, here.
  now rewrite (Z.eqb_sym (m_message_id r)), (Z.eqb_sym (m_chat_id r)).
Qed.

Lemma here_self : here r = true.
Proof. unfold here. now rewrite !Z.eqb_refl. Qed.

Lemma no_conflict_left (t : list message_row) :
  filter here (filter (fun x => negb (Sqlite.same_key r x)) t) = [].
Proof.
  induction t as [|x t IH]; simpl; [reflexivity|].
  rewrite same_key_here.
  destruct (here x) eqn:E; simpl; [exact IH|].
  now rewrite E.
Qed.

Lemma insert_or_replace_one_row (t : list message_row) :
  filter here (Sqlite.insert_or_replace r t) = [r].
Proof.
  unfold Sqlite.insert_or_replace.
  rewrite filter_app, no_conflict_left. simpl.
  now rewrite here_self.
Qed.

End InsertOrReplace.

Lemma store_record_messages (r : message_args) (d : Database) :
  DatabaseManager.store_record r d
  = if bindable r then
      (Return tt,
       set_messages d (Sqlite.insert_or_replace (row_of r) (messages d)))
    else (Raise OverflowError, d).
Proof. destruct r; reflexivity. Qed.

Lemma store_record_stored (r : message_args) (d : Database) :
  bindable r = true ->
  DatabaseManager.store_record r d
  = (Return tt,
     set_messages d (Sqlite.insert_or_replace (row_of r) (messages d))).
Proof. intros H. now rewrite store_record_messages, H. Qed.

(** C1, as the code has it.  For a message record whose integers SQLite
    can hold, storing it twice through [store_message_data] leaves exactly
    one row under its [(message_id, chat_id)] key, the row made of the
    record; and whatever such record is stored later under the same key is
    the one row found there afterwards, entirely that of the later call:
    every field as written, [message_date] as the [TIMESTAMP] column keeps
    it, which is the text itself unless the text reads as a number.  Both
    calls return, and no other table is touched. *)
Theorem store_message_data_replaces (d : Database) (r : message_args) :
  bindable r = true ->
  let after r' := snd (DatabaseManager.store_record r'
                         (snd (DatabaseManager.store_record r d))) in
  rows_with_key (message_id r) (chat_id r) (after r) = [row_of r]
  /\ (forall r' : message_args,
        bindable r' = true ->
        message_id r' = message_id r -> chat_id r' = chat_id r ->
        fst (DatabaseManager.store_record r'
               (snd (DatabaseManager.store_record r d))) = Return tt
        /\ rows_with_key (message_id r) (chat_id r) (after r') = [row_of r']
        /\ (Numeric.affinity (message_date r') = Text (message_date r') ->
            holds_values (row_of r') r')
        /\ users (after r') = users d
        /\ username_history (after r') = username_history d
        /\ chats (after r') = chats d
        /\ user_activity (after r') = user_activity d).
Proof.
  intros Hr. cbv zeta. split.
  - rewrite !store_record_stored by exact Hr. unfold rows_with_key. simpl.
    apply (insert_or_replace_one_row (row_of r)).
  - intros r' Hr' Hm Hc.
    rewrite (store_record_stored r d Hr). simpl.
    rewrite (store_record_stored r' _ Hr'). simpl.
    repeat split; try reflexivity.
    + unfold rows_with_key. simpl. rewrite <- Hm, <- Hc.
      apply (insert_or_replace_one_row (row_of r')).
    + simpl. exact H.
Qed.

Lemma store_message_data_witness :
  rows_with_key 11 100
    (snd (DatabaseManager.store_record Scenario.first_write
            (snd (DatabaseManager.store_record Scenario.first_write
                    (DatabaseManager._init_database empty_file)))))
  = [row_of Scenario.first_write]
  /\ rows_with_key 11 100
       (snd (DatabaseManager.store_record Scenario.second_write
               (snd (DatabaseManager.store_record Scenario.first_write
                       (DatabaseManager._init_database empty_file)))))
     = [row_of Scenario.second_write]
  /\ holds_values (row_of Scenario.second_write) Scenario.second_write.
Proof.
  pose proof (store_message_data_replaces
                (DatabaseManager._init_database empty_file)
                Scenario.first_write eq_refl) as [Hsame Hlater].
  split; [exact Hsame|].
  destruct (Hlater Scenario.second_write eq_refl eq_refl eq_refl)
    as (_ & Hrow & Hvalues & _).
  split; [exact Hrow | apply Hvalues; reflexivity].
Defined.

(** C1 as stated fails in two ways.  A record with an identifier beyond
    64 bits is not stored at all: the call raises [OverflowError] and no
    row is found under its key.  A record whose [message_date] reads as a
    number is stored with the number: written twice with the date "007",
    the one row under the key holds the integer 7, not the text. *)
Lemma store_message_data_large_id_or_numeric_date :
  (fst (DatabaseManager.store_record Sample.large_id
          (DatabaseManager._init_database empty_file)) = Raise OverflowError
   /\ rows_with_key (2 ^ 63) 100
        (snd (DatabaseManager.store_record Sample.large_id
                (snd (DatabaseManager.store_record Sample.large_id
                        (DatabaseManager._init_database empty_file))))) = []
   /\ ~ second_write_is_the_row (DatabaseManager._init_database empty_file)
         Sample.large_id Sample.large_id)
  /\ (map m_message_date
         (rows_with_key 11 100
            (snd (DatabaseManager.store_record Sample.numeric_date
                    (snd (DatabaseManager.store_record Sample.numeric_date
                            (DatabaseManager._init_database empty_file))))))
       = [Integer 7]
      /\ ~ second_write_is_the_row (DatabaseManager._init_database empty_file)
            Sample.numeric_date Sample.numeric_date).
Proof.
  split; split; try reflexivity; try split; try reflexivity.
  - intros (x & Hrows & _). discriminate Hrows.
  - intros (x & Hrows & Hvalues).
    vm_compute in Hrows. injection Hrows as <-.
    destruct Hvalues as (_ & _ & _ & _ & _ & _ & Hdate & _).
    discriminate Hdate.
Qed.

(** ** The guard of [process_message] *)

Section Guard.

Variable fromtimestamp_isoformat : Z -> outcome string.
Variable db_manager : manager.

Let process := UserTegOSINT.process_message fromtimestamp_isoformat db_manager.

Lemma chat_id_read (message : Message.t) :
  Chat.id (get (Message.chat message) Chat.empty) = chat_identifier message.
Proof. unfold chat_identifier. now destruct (Message.chat message). Qed.

Lemma user_id_read (message : Message.t) :
  User.id (get (Message.from message) User.empty) = sender_identifier message.
Proof. unfold sender_identifier. now destruct (Message.from message). Qed.

Lemma guard_rejects (message : Message.t) (w : World) :
  all [Message.message_id message; chat_identifier message;
       sender_identifier message] = false ->
  process message w = (Return tt, w).
Proof.
  intros H. unfold process, UserTegOSINT.process_message.
  rewrite chat_id_read, user_id_read, H. reflexivity.
Qed.

Lemma falsy_identifier_fails_all (message : Message.t) :
  (truthy (Message.message_id message) = false
   \/ truthy (chat_identifier message) = false
   \/ truthy (sender_identifier message) = false) ->
  all [Message.message_id message; chat_identifier message;
       sender_identifier message] = false.
Proof.
  unfold all. simpl. intros [H | [H | H]]; rewrite H;
    rewrite ?andb_false_r; reflexivity.
Qed.

Lemma lacking_is_rejected (message : Message.t) (w : World) :
  lacks_identifier message -> process message w = (Return tt, w).
Proof.
  intros H. apply guard_rejects, falsy_identifier_fails_all.
  destruct H as [H | [H | H]]; rewrite H; auto.
Qed.

Lemma zero_is_rejected (message : Message.t) (w : World) :
  zero_identifier message -> process message w = (Return tt, w).
Proof.
  intros H. apply guard_rejects, falsy_identifier_fails_all.
  destruct H as [H | [H | H]]; rewrite H; auto.
Qed.

End Guard.

(** C3. An update that carries no message, or whose message lacks the
    message identifier, the chat identifier or the sender identifier, is
    skipped: [process_message] returns with the world as it was, and the
    dispatch step of the polling loop leaves the world (every table, the
    output, the log) unchanged and goes on to the next update. *)
Theorem skipped_update_writes_nothing
    (fromtimestamp_isoformat : Z -> outcome string) (db_manager : manager) :
  let process := UserTegOSINT.process_message fromtimestamp_isoformat db_manager in
  (forall message w, lacks_identifier message -> process message w = (Return tt, w))
  /\ (forall server m update rest,
        at_ m = Dispatching update rest ->
        (Update.message update = None
         \/ exists message, Update.message update = Some message
                            /\ lacks_identifier message) ->
        world (DatabaseManager.step server process m) = world m
        /\ at_ (DatabaseManager.step server process m) = Iterating rest).
Proof.
  cbv zeta. split.
  - intros message w H. now apply lacking_is_rejected.
  - intros server m update rest Hat H.
    unfold DatabaseManager.step. rewrite Hat.
    destruct H as [H | (message & H & Hlack)]; rewrite H.
    + split; reflexivity.
    + rewrite (lacking_is_rejected _ _ _ _ Hlack). split; reflexivity.
Qed.

Lemma skipped_update_witness :
  Program.process_message Scenario.isoformat_stub Scenario.no_chat_id Program.fresh
  = (Return tt, Program.fresh)
  /\ world (DatabaseManager.step (Scenario.serves [])
              (Program.process_message Scenario.isoformat_stub)
              {| at_ := Dispatching Scenario.bare_update [];
                 last_update_id := 601; world := Program.fresh;
                 requests := [(1, 30)]; sleeps := O |})
     = Program.fresh.
Proof.
  destruct (skipped_update_writes_nothing Scenario.isoformat_stub
              DatabaseManager.instance) as [Hskip Hstep].
  split.
  - apply Hskip. right; left. reflexivity.
  - refine (proj1 (Hstep (Scenario.serves []) _ Scenario.bare_update [] _ _)).
    + reflexivity.
    + left. reflexivity.
Defined.

(** C10. The guard tests truth values, so an identifier that is present
    and equal to 0 counts as missing: a message whose message identifier,
    chat identifier or sender identifier is 0 is skipped without an error
    and with the world, hence every table, unchanged. *)
Theorem zero_identifier_is_skipped
    (fromtimestamp_isoformat : Z -> outcome string) (db_manager : manager)
    (message : Message.t) (w : World) :
  zero_identifier message ->
  UserTegOSINT.process_message fromtimestamp_isoformat db_manager message w
  = (Return tt, w).
Proof. apply zero_is_rejected. Qed.

Lemma zero_identifier_witness :
  Program.process_message Scenario.isoformat_stub Scenario.zero_message_id
    Program.fresh
  = (Return tt, Program.fresh).
Proof.
  apply (zero_identifier_is_skipped Scenario.isoformat_stub
           DatabaseManager.instance Scenario.zero_message_id Program.fresh).
  left. reflexivity.
Defined.

(** ** Media classification *)

Lemma media_type_of_first_match (message : Message.t) :
  UserTegOSINT.media_type_of message = first_match (media_checks message).
Proof.
  unfold UserTegOSINT.media_type_of, first_match, media_checks. simpl.
  destruct (contains (Message.photo message)); [reflexivity|].
  destruct (contains (Message.video message)); [reflexivity|].
  destruct (contains (Message.document message)); reflexivity.
Qed.

(** With a manager that has both methods, the record built from the
    message is what reaches [store_message_data]. *)
Lemma process_message_stores_record
    (fromtimestamp_isoformat : Z -> outcome string) (db_manager : manager)
    (store_user_data : User.t -> M unit)
    (message : Message.t) (w : World) (d : Database) (message_date : string) :
  all [Message.message_id message; chat_identifier message;
       sender_identifier message] = true ->
  attr_store_user_data db_manager = Some store_user_data ->
  attr_store_message_data db_manager = Some DatabaseManager.store_record ->
  store_user_data (get (Message.from message) User.empty) (db w) = (Return tt, d) ->
  fromtimestamp_isoformat (get (Message.date message) 0) = Return message_date ->
  bindable (UserTegOSINT.message_record message message_date) = true ->
  exists w',
    UserTegOSINT.process_message fromtimestamp_isoformat db_manager message w
    = (Return tt, w')
    /\ messages (db w')
       = Sqlite.insert_or_replace
           (row_of (UserTegOSINT.message_record message message_date))
           (messages d).
Proof.
  intros Hguard Hu Hm Hstore Hdate Hbind.
  unfold UserTegOSINT.process_message.
  rewrite chat_id_read, user_id_read, Hguard, Hu, Hstore, Hdate, Hm.
  rewrite store_record_stored by exact Hbind. simpl.
  eexists. split; reflexivity.
Qed.

(** ** [process_message] on the class as written *)

Section AsWritten.

Variable fromtimestamp_isoformat : Z -> outcome string.

Let process := Program.process_message fromtimestamp_isoformat.

Lemma process_message_raises (message : Message.t) (w : World) :
  all [Message.message_id message; chat_identifier message;
       sender_identifier message] = true ->
  process message w
  = (Raise (AttributeError "DatabaseManager" "store_user_data"), w).
Proof.
  intros H. unfold process, Program.process_message,
    UserTegOSINT.process_message.
  rewrite chat_id_read, user_id_read, H. reflexivity.
Qed.

Lemma process_message_keeps_world (message : Message.t) (w : World) :
  snd (process message w) = w.
Proof.
  destruct (all [Message.message_id message; chat_identifier message;
                 sender_identifier message]) eqn:H.
  - now rewrite process_message_raises.
  - unfold process, Program.process_message. now rewrite guard_rejects.
Qed.

Variable server : nat -> reply.

Lemma raised_keeps_db (e : exn) (m : monitor) :
  db (world (DatabaseManager.raised e m)) = db (world m)
  /\ log_file (world (DatabaseManager.raised e m)) = log_file (world m).
Proof. destruct e; split; reflexivity. Qed.

Lemma step_keeps_db (m : monitor) :
  db (world (DatabaseManager.step server process m)) = db (world m).
Proof.
  unfold DatabaseManager.step.
  destruct (at_ m) as [ | [|u us] | u rest | | | ]; try reflexivity.
  - destruct (server _); try reflexivity.
    now rewrite (proj1 (raised_keeps_db _ _)).
  - destruct (Update.message u) as [message|]; [|reflexivity].
    pose proof (process_message_keeps_world message (world m)) as H.
    destruct (process message (world m)) as [[[]|e] w']; simpl in H; subst w'.
    + reflexivity.
    + now rewrite (proj1 (raised_keeps_db _ _)).
Qed.

Lemma run_keeps_db (n : nat) (m : monitor) :
  db (world (DatabaseManager.run server process n m)) = db (world m).
Proof.
  revert m. induction n as [|n IH]; intros m; simpl; [reflexivity|].
  now rewrite IH, step_keeps_db.
Qed.

End AsWritten.

(** C7. On the code no media type is ever stored.  A message that carries
    a photo and a document, processed on the class as written, ends in the
    [AttributeError] of line 433 before the classification of lines 438-444
    is reached, and [messages] stays empty; the same holds of every
    message: [process_message] never changes [messages].  The
    classification itself is first-match-wins over photo, video, document:
    with a database manager that has [store_user_data], the row stored for
    the message holds the first of the three that the message carries, and
    no media type when it carries none. *)
Theorem media_type_is_classified_but_never_stored
    (fromtimestamp_isoformat : Z -> outcome string) :
  Program.process_message fromtimestamp_isoformat Scenario.photo_and_document
    Program.fresh
  = (Raise (AttributeError "DatabaseManager" "store_user_data"), Program.fresh)
  /\ messages (db Program.fresh) = []
  /\ (forall message w,
        messages (db (snd (Program.process_message fromtimestamp_isoformat
                             message w)))
        = messages (db w))
  /\ (forall db_manager store_user_data message w d message_date,
        all [Message.message_id message; chat_identifier message;
             sender_identifier message] = true ->
        attr_store_user_data db_manager = Some store_user_data ->
        attr_store_message_data db_manager = Some DatabaseManager.store_record ->
        store_user_data (get (Message.from message) User.empty) (db w)
        = (Return tt, d) ->
        fromtimestamp_isoformat (get (Message.date message) 0)
        = Return message_date ->
        bindable (UserTegOSINT.message_record message message_date) = true ->
        exists w',
          UserTegOSINT.process_message fromtimestamp_isoformat db_manager
            message w = (Return tt, w')
          /\ map m_media_type
               (rows_with_key (the_int (Message.message_id message))
                  (the_int (chat_identifier message)) (db w'))
             = [first_match (media_checks message)]).
Proof.
  split; [reflexivity|]. split; [reflexivity|]. split.
  - intros message w. now rewrite process_message_keeps_world.
  - intros db_manager store_user_data message w d message_date
      Hguard Hu Hm Hstore Hdate Hbind.
    destruct (process_message_stores_record fromtimestamp_isoformat db_manager
                store_user_data message w d message_date
                Hguard Hu Hm Hstore Hdate Hbind) as (w' & Hrun & Hrows).
    exists w'. split; [exact Hrun|].
    unfold rows_with_key. rewrite Hrows.
    pose proof (insert_or_replace_one_row
                  (row_of (UserTegOSINT.message_record message message_date))
                  (messages d)) as Hone.
    simpl in Hone. rewrite chat_id_read in Hone. rewrite Hone. simpl.
    now rewrite media_type_of_first_match.
Qed.

Lemma media_type_witness :
  exists w',
    UserTegOSINT.process_message Scenario.isoformat_stub Sample.capable
      Scenario.photo_and_document Program.fresh = (Return tt, w')
    /\ map m_media_type (rows_with_key 31 100 (db w')) = [Some "photo"].
Proof.
  apply (proj2 (proj2 (proj2 (media_type_is_classified_but_never_stored
                                Scenario.isoformat_stub)))
           Sample.capable (fun _ d => (Return tt, d))
           Scenario.photo_and_document Program.fresh (db Program.fresh)
           "1970-01-01T00:00:00");
    reflexivity.
Defined.

(** C2. On the code, the sequence alice, bob, alice for user 1 leaves
    [username_history] empty and [users] without a row: the first update is
    dispatched to [process_message], whose call of
    [self.db_manager.store_user_data] raises [AttributeError] (the class has
    no such method), and the exception ends [start_monitoring].  Each of the
    three messages, processed on its own, fails in the same way. *)
Theorem username_history_is_never_written
    (fromtimestamp_isoformat : Z -> outcome string) :
  let m := Program.monitoring fromtimestamp_isoformat
             (Scenario.serves Scenario.renames) 3 Program.fresh in
  let missing := Raise (AttributeError "DatabaseManager" "store_user_data") in
  at_ m = Crashed (AttributeError "DatabaseManager" "store_user_data")
  /\ last_update_id m = 501
  /\ username_history (db (world m)) = []
  /\ users (db (world m)) = []
  /\ Program.process_message fromtimestamp_isoformat Scenario.alice_T1 Program.fresh
     = (missing, Program.fresh)
  /\ Program.process_message fromtimestamp_isoformat Scenario.bob_T2 Program.fresh
     = (missing, Program.fresh)
  /\ Program.process_message fromtimestamp_isoformat Scenario.alice_T3 Program.fresh
     = (missing, Program.fresh)
  /\ (forall server n w,
        username_history
          (db (world (Program.monitoring fromtimestamp_isoformat server n w)))
        = username_history (db w)).
Proof.
  cbv zeta. repeat split; try reflexivity.
  intros server n w. unfold Program.monitoring.
  now rewrite run_keeps_db.
Qed.

(** C8. On the code, no number of messages changes [user_activity]: the
    polling loop over [process_message] leaves the table as it was, and one
    message of user 1 in chat 100, ingested into a fresh database, leaves no
    row for the pair (the call fails on [store_user_data], and no statement
    of the program writes the table). *)
Theorem user_activity_is_never_written
    (fromtimestamp_isoformat : Z -> outcome string) :
  (forall server n w,
     user_activity
       (db (world (Program.monitoring fromtimestamp_isoformat server n w)))
     = user_activity (db w))
  /\ (forall message w,
        user_activity
          (db (snd (Program.process_message fromtimestamp_isoformat message w)))
        = user_activity (db w))
  /\ (let m := Program.monitoring fromtimestamp_isoformat
                 (Scenario.serves
                    [ {| Update.update_id := 501;
                         Update.message := Some Scenario.alice_T1 |} ])
                 3 Program.fresh in
      user_activity (db (world m)) = []
      /\ at_ m = Crashed (AttributeError "DatabaseManager" "store_user_data")).
Proof.
  split; [|split].
  - intros server n w. unfold Program.monitoring. now rewrite run_keeps_db.
  - intros message w. now rewrite process_message_keeps_world.
  - cbv zeta. split; reflexivity.
Qed.

(** ** The two definitions of [DatabaseManager] *)

Lemma same_queries_in_both_definitions :
  (forall f, DatabaseManager._init_database f
             = DatabaseManager_150._init_database f)
  /\ (forall message_id chat_id user_id username first_name message_text
             message_date media_type forwarded_from reply_to_message_id d,
        DatabaseManager.store_message_data message_id chat_id user_id username
          first_name message_text message_date media_type forwarded_from
          reply_to_message_id d
        = DatabaseManager_150.store_message_data message_id chat_id user_id
            username first_name message_text message_date media_type
            forwarded_from reply_to_message_id d)
  /\ (forall username_query d,
        DatabaseManager.search_usernames username_query d
        = DatabaseManager_150.search_usernames username_query d)
  /\ (forall number_leb user_id limit d,
        DatabaseManager.get_user_messages number_leb user_id limit d
        = DatabaseManager_150.get_user_messages number_leb user_id limit d)
  /\ (forall number_leb user_id d,
        DatabaseManager.get_username_history_617 number_leb user_id d
        = DatabaseManager_150.get_username_history number_leb user_id d).
Proof. repeat split. Qed.

(** C9. On the code, the second definition of [DatabaseManager] agrees
    with the first on [_init_database], [store_message_data],
    [search_usernames] and [get_user_messages], and its lines 617-631 agree
    with the first [get_username_history]; but the name
    [get_username_history] is bound, in the second class, to the [def] of
    line 636, which raises [AttributeError] where the first definition
    returns the history: for user 1 of the database [Scenario.renamed] the
    first returns the entry alice and the second raises. *)
Theorem second_definition_shadows_get_username_history
    (number_leb : sql_value -> sql_value -> bool) :
  class_attr DatabaseManager_150.body "get_username_history" = Some 305%nat
  /\ class_attr DatabaseManager.body "get_username_history" = Some 636%nat
  /\ DatabaseManager.has_attribute "db_manager" = false
  /\ DatabaseManager_150.get_username_history number_leb 1 Scenario.renamed
     = (Return [ {| hv_username := Some "alice";
                    hv_changed_at := Some (Text "2024-01-02T10:00:00") |} ],
        Scenario.renamed)
  /\ DatabaseManager.get_username_history 1 Scenario.renamed
     = (Raise (AttributeError "DatabaseManager" "db_manager"), Scenario.renamed)
  /\ (forall user_id d,
        fst (DatabaseManager.get_username_history user_id d)
        <> fst (DatabaseManager_150.get_username_history number_leb user_id d)).
Proof.
  repeat split; try reflexivity.
  intros user_id d. unfold DatabaseManager_150.get_username_history.
  destruct (in_int64 user_id); discriminate.
Qed.

(** ** The polling loop *)

Section Loop.

Variable server : nat -> reply.
Variable process_message : Message.t -> World -> outcome unit * World.

Let step := DatabaseManager.step server process_message.
Let run := DatabaseManager.run server process_message.

Lemma run_last (n : nat) (m : monitor) : run (S n) m = step (run n m).
Proof.
  revert m. induction n as [|n IH]; intros m; [reflexivity|].
  change (run (S (S n)) m) with (run (S n) (step m)).
  now rewrite IH.
Qed.

Lemma run_add (j k : nat) (m : monitor) : run (j + k) m = run k (run j m).
Proof.
  revert m. induction j as [|j IH]; intros m; [reflexivity|].
  simpl. apply IH.
Qed.

Lemma raised_ends (e : exn) (m : monitor) :
  ended (DatabaseManager.raised e m)
  /\ requests (DatabaseManager.raised e m) = requests m
  /\ last_update_id (DatabaseManager.raised e m) = last_update_id m.
Proof.
  unfold ended. destruct e; simpl; repeat split; eauto.
Qed.

Lemma ended_is_final (m : monitor) : ended m -> step m = m.
Proof.
  unfold step, DatabaseManager.step.
  intros [H | [e H]]; now rewrite H.
Qed.

Lemma ended_forever (k : nat) (m : monitor) : ended m -> run k m = m.
Proof.
  intros H. induction k as [|k IH]; [reflexivity|].
  rewrite run_last, IH. now apply ended_is_final.
Qed.

Lemma step_advances_first (m : monitor) : offset_advanced (step m).
Proof.
  unfold offset_advanced, step, DatabaseManager.step.
  destruct (at_ m) as [ | [|u us] | u rest | | | ] eqn:Hat; simpl; auto.
  - destruct (server _); simpl; auto. destruct e; simpl; auto.
  - destruct (Update.message u); simpl; auto.
    destruct (process_message _ _) as [[?|e] ?]; simpl; auto.
    destruct e; simpl; auto.
  - now rewrite Hat.
  - now rewrite Hat.
Qed.

Lemma reachable_offset_advanced (n : nat) (w : World) :
  offset_advanced (run n (DatabaseManager.start_monitoring w)).
Proof.
  destruct n as [|n]; [exact I|].
  rewrite run_last. apply step_advances_first.
Qed.

Lemma failed_dispatch_ends (m : monitor) (update : Update.t)
    (rest : list Update.t) (message : Message.t) (e : exn) (w' : World) :
  at_ m = Dispatching update rest ->
  Update.message update = Some message ->
  process_message message (world m) = (Raise e, w') ->
  ended (step m)
  /\ requests (step m) = requests m
  /\ last_update_id (step m) = last_update_id m.
Proof.
  intros Hat Hmsg Hfail. unfold step, DatabaseManager.step.
  rewrite Hat, Hmsg, Hfail.
  destruct (raised_ends e (DatabaseManager.set_world w' m)) as (H1 & H2 & H3).
  auto.
Qed.

Lemma step_polling_ok (m : monitor) (updates : list Update.t) :
  at_ m = Polling ->
  server (List.length (requests m)) = Ok updates ->
  step m
  = {| at_ := Iterating updates; last_update_id := last_update_id m;
       world := world m;
       requests := (requests m ++ [(last_update_id m + 1, 30)])%list;
       sleeps := sleeps m |}.
Proof.
  intros Hat Hreply. unfold step, DatabaseManager.step.
  now rewrite Hat, Hreply.
Qed.

Lemma step_iterating (m : monitor) (u : Update.t) (rest : list Update.t) :
  at_ m = Iterating (u :: rest) ->
  step m
  = {| at_ := Dispatching u rest; last_update_id := Update.update_id u;
       world := world m; requests := requests m; sleeps := sleeps m |}.
Proof. intros Hat. unfold step, DatabaseManager.step. now rewrite Hat. Qed.

Lemma step_dispatching_none (m : monitor) (u : Update.t) (rest : list Update.t) :
  at_ m = Dispatching u rest ->
  Update.message u = None ->
  step m
  = {| at_ := Iterating rest; last_update_id := last_update_id m;
       world := world m; requests := requests m; sleeps := sleeps m |}.
Proof.
  intros Hat Hmsg. unfold step, DatabaseManager.step. now rewrite Hat, Hmsg.
Qed.

Lemma step_dispatching_returns (m : monitor) (u : Update.t)
    (rest : list Update.t) (message : Message.t) (w' : World) :
  at_ m = Dispatching u rest ->
  Update.message u = Some message ->
  process_message message (world m) = (Return tt, w') ->
  step m
  = {| at_ := Iterating rest; last_update_id := last_update_id m;
       world := w'; requests := requests m; sleeps := sleeps m |}.
Proof.
  intros Hat Hmsg Hok. unfold step, DatabaseManager.step.
  now rewrite Hat, Hmsg, Hok.
Qed.

Lemma dispatch_one (m : monitor) (u : Update.t) (rest : list Update.t) :
  at_ m = Iterating (u :: rest) ->
  dispatch_returns process_message [u] ->
  run 2 m
  = {| at_ := Iterating rest; last_update_id := Update.update_id u;
       world := dispatched process_message [u] (world m);
       requests := requests m; sleeps := sleeps m |}.
Proof.
  intros Hat Hret. change (run 2 m) with (step (step m)).
  rewrite (step_iterating m u rest Hat). unfold dispatched. simpl.
  destruct (Update.message u) as [message|] eqn:Hmsg.
  - pose proof (Hret u message (world m) (or_introl eq_refl) Hmsg) as Hok.
    destruct (process_message message (world m)) as [[[]|e] w'] eqn:E;
      simpl in Hok; [|discriminate].
    rewrite (step_dispatching_returns _ u rest message w');
      [reflexivity | reflexivity | exact Hmsg | exact E].
  - now rewrite (step_dispatching_none _ u rest).
Qed.

Lemma run_to_dispatch (i : nat) :
  forall (updates : list Update.t) (update : Update.t) (m : monitor),
    at_ m = Iterating updates ->
    nth_error updates i = Some update ->
    dispatch_returns process_message (firstn i updates) ->
    at_ (run (1 + 2 * i) m) = Dispatching update (skipn (S i) updates)
    /\ last_update_id (run (1 + 2 * i) m) = Update.update_id update
    /\ world (run (1 + 2 * i) m)
       = dispatched process_message (firstn i updates) (world m)
    /\ requests (run (1 + 2 * i) m) = requests m.
Proof.
  induction i as [|i IH]; intros updates update m Hat Hnth Hret.
  - destruct updates as [|u rest]; [discriminate|].
    injection Hnth as ->.
    change (run (1 + 2 * 0) m) with (step m).
    rewrite (step_iterating m update rest Hat). repeat split.
  - destruct updates as [|u rest]; [discriminate|].
    replace (1 + 2 * S i)%nat with (2 + (1 + 2 * i))%nat by lia.
    unfold run. rewrite run_add. fold run.
    assert (Hu : dispatch_returns process_message [u]).
    { intros u' message w0 [<- | []]. apply Hret. now left. }
    rewrite (dispatch_one m u rest Hat Hu).
    destruct (IH rest update
                {| at_ := Iterating rest; last_update_id := Update.update_id u;
                   world := dispatched process_message [u] (world m);
                   requests := requests m; sleeps := sleeps m |}
                eq_refl Hnth) as (H1 & H2 & H3 & H4).
    { intros u' message w0 Hin. apply Hret. now right. }
    repeat split; assumption.
Qed.

End Loop.

Lemma poll_records_request (server : nat -> reply)
    (process_message : Message.t -> World -> outcome unit * World)
    (m : monitor) :
  at_ m = Polling ->
  requests (DatabaseManager.step server process_message m)
  = (requests m ++ [(last_update_id m + 1, 30)])%list.
Proof.
  intros Hat. unfold DatabaseManager.step. rewrite Hat.
  destruct (server _) as [e| |updates]; try reflexivity.
  destruct e; reflexivity.
Qed.

(** C4, as the code has it.  In every state that [start_monitoring]
    reaches, under any server and any [process_message]:
    - when an update is about to be dispatched, the offset already holds
      its identifier;
    - a request asks for the offset plus one, and the updates of its reply
      are taken whole and in the order received: while the dispatches
      return, the update dispatched next is the next of the reply, the
      offset is its identifier, the world is what the dispatches before it
      made of it, one after the other, and no request is made in between;
    - a dispatch that returns hands its world on to the rest of the reply;
    - when the dispatch of an update raises, this call of
      [start_monitoring] has ended: it makes no request afterwards, its
      offset stays at the identifier of the update, and what the dispatch
      wrote before it raised stays written;
    - the offset lives in the call only: every call starts at offset 0 and
      first asks for the updates from 1 on. *)
Theorem offset_advances_before_dispatch
    (server : nat -> reply)
    (process_message : Message.t -> World -> outcome unit * World)
    (w : World) (n : nat) :
  let step := DatabaseManager.step server process_message in
  let run := DatabaseManager.run server process_message in
  let m := run n (DatabaseManager.start_monitoring w) in
  offset_advanced m
  /\ (at_ m = Polling ->
      requests (step m) = (requests m ++ [(last_update_id m + 1, 30)])%list
      /\ forall updates,
           server (List.length (requests m)) = Ok updates ->
           at_ (step m) = Iterating updates
           /\ last_update_id (step m) = last_update_id m
           /\ world (step m) = world m
           /\ forall i update,
                nth_error updates i = Some update ->
                dispatch_returns process_message (firstn i updates) ->
                at_ (run (2 + 2 * i)%nat m)
                = Dispatching update (skipn (S i) updates)
                /\ last_update_id (run (2 + 2 * i)%nat m)
                   = Update.update_id update
                /\ world (run (2 + 2 * i)%nat m)
                   = dispatched process_message (firstn i updates) (world m)
                /\ requests (run (2 + 2 * i)%nat m) = requests (step m))
  /\ (forall update rest,
        at_ m = Iterating (update :: rest) ->
        at_ (step m) = Dispatching update rest
        /\ last_update_id (step m) = Update.update_id update
        /\ world (step m) = world m
        /\ requests (step m) = requests m)
  /\ (forall update rest,
        at_ m = Dispatching update rest ->
        (Update.message update = None ->
         at_ (step m) = Iterating rest
         /\ last_update_id (step m) = Update.update_id update
         /\ world (step m) = world m
         /\ requests (step m) = requests m)
        /\ (forall message w',
              Update.message update = Some message ->
              process_message message (world m) = (Return tt, w') ->
              at_ (step m) = Iterating rest
              /\ last_update_id (step m) = Update.update_id update
              /\ world (step m) = w'
              /\ requests (step m) = requests m)
        /\ (forall message e w',
              Update.message update = Some message ->
              process_message message (world m) = (Raise e, w') ->
              forall k,
                ended (run k (step m))
                /\ requests (run k (step m)) = requests m
                /\ last_update_id (run k (step m)) = Update.update_id update
                /\ db (world (run k (step m))) = db w'))
  /\ (forall w0,
        last_update_id (DatabaseManager.start_monitoring w0) = 0
        /\ requests (step (DatabaseManager.start_monitoring w0)) = [(1, 30)]).
Proof.
  cbv zeta.
  pose proof (reachable_offset_advanced server process_message n w) as Hinv.
  set (m := DatabaseManager.run server process_message n
              (DatabaseManager.start_monitoring w)) in *.
  split; [exact Hinv|]. split; [|split; [|split]].
  - intros Hat. split.
    + unfold DatabaseManager.step. rewrite Hat.
      destruct (server _); try reflexivity. destruct e; reflexivity.
    + intros updates Hreply.
      pose proof (step_polling_ok server process_message m updates Hat Hreply)
        as E.
      do 3 (split; [now rewrite E|]).
      intros i update Hnth Hret.
      destruct (run_to_dispatch server process_message i updates update
                  (DatabaseManager.step server process_message m))
        as (H1 & H2 & H3 & H4);
        [now rewrite E | exact Hnth | exact Hret |].
      rewrite E in H3 at 2. simpl in H3.
      repeat split; assumption.
  - intros update rest Hat.
    rewrite (step_iterating server process_message m update rest Hat).
    repeat split.
  - intros update rest Hat.
    unfold offset_advanced in Hinv. rewrite Hat in Hinv.
    split; [|split].
    + intros Hmsg.
      rewrite (step_dispatching_none server process_message m update rest
                 Hat Hmsg).
      repeat split. exact Hinv.
    + intros message w' Hmsg Hok.
      rewrite (step_dispatching_returns server process_message m update rest
                 message w' Hat Hmsg Hok).
      repeat split. exact Hinv.
    + intros message e w' Hmsg Hfail k.
      destruct (failed_dispatch_ends server process_message m update rest
                  message e w' Hat Hmsg Hfail) as (Hend & Hreq & Hoff).
      rewrite (ended_forever server process_message k _ Hend).
      repeat split; [exact Hend | exact Hreq | now rewrite Hoff |].
      unfold DatabaseManager.step. rewrite Hat, Hmsg, Hfail.
      destruct e; reflexivity.
  - intros w0. split; [reflexivity|].
    rewrite poll_records_request by reflexivity. reflexivity.
Qed.

Lemma offset_advances_witness :
  let server := Scenario.serves Scenario.renames in
  let process :=
    UserTegOSINT.process_message Scenario.isoformat_stub Sample.capable in
  let m' := DatabaseManager.run server process 4
              (DatabaseManager.start_monitoring Program.fresh) in
  at_ m' = Dispatching {| Update.update_id := 502;
                          Update.message := Some Scenario.bob_T2 |}
             [ {| Update.update_id := 503;
                  Update.message := Some Scenario.alice_T3 |} ]
  /\ last_update_id m' = 502
  /\ requests m' = [(1, 30)].
Proof.
  cbv zeta.
  destruct (offset_advances_before_dispatch
              (Scenario.serves Scenario.renames)
              (UserTegOSINT.process_message Scenario.isoformat_stub
                 Sample.capable)
              Program.fresh 0) as (_ & Hpoll & _).
  destruct (Hpoll eq_refl) as (_ & Hbatch).
  destruct (Hbatch Scenario.renames eq_refl) as (_ & _ & _ & Hnth).
  destruct (Hnth 1%nat {| Update.update_id := 502;
                          Update.message := Some Scenario.bob_T2 |} eq_refl)
    as (H1 & H2 & _ & H4).
  - intros update message w0 [<- | []] Hm. injection Hm as <-. reflexivity.
  - repeat split; assumption.
Defined.

(** C4 as stated fails across calls.  Update 501 of [Scenario.renames]
    carries a complete message, so its dispatch raises the
    [AttributeError] of the missing [store_user_data] after the offset was
    set to 501, and the call ends.  The next call of [start_monitoring], on
    the world that the first one left, asks for the updates from 1 on: the
    update 501 is requested again. *)
Lemma failed_update_is_requested_again :
  let server := Scenario.serves Scenario.renames in
  let process := Program.process_message Scenario.isoformat_stub in
  let failed := DatabaseManager.run server process 3
                  (DatabaseManager.start_monitoring Program.fresh) in
  let again := DatabaseManager.run server process 1
                 (DatabaseManager.start_monitoring (world failed)) in
  at_ failed = Crashed (AttributeError "DatabaseManager" "store_user_data")
  /\ last_update_id failed = 501
  /\ requests failed = [(1, 30)]
  /\ requests again = [(1, 30)]
  /\ asks_for again 501.
Proof.
  cbv zeta. repeat split.
  exists (1, 30). split; [left; reflexivity | simpl; lia].
Qed.

(** ** Failures of a request *)

Lemma step_not_ok (server : nat -> reply)
    (process_message : Message.t -> World -> outcome unit * World)
    (m : monitor) :
  at_ m = Polling ->
  server (List.length (requests m)) = NotOk ->
  DatabaseManager.step server process_message m
  = {| at_ := Sleeping; last_update_id := last_update_id m; world := world m;
       requests := (requests m ++ [(last_update_id m + 1, 30)])%list;
       sleeps := sleeps m |}.
Proof.
  intros Hat Hreply. unfold DatabaseManager.step. now rewrite Hat, Hreply.
Qed.

(** C5, as the code has it.  A reply that decodes and is not [ok] costs one
    cycle: the loop sleeps its 0.1 s once and is back at the request with
    the offset it had, so the next request repeats the offset; the world is
    untouched, so nothing is written to the log file or printed, and no
    table changes. *)
Theorem not_ok_reply_is_retried
    (server : nat -> reply)
    (process_message : Message.t -> World -> outcome unit * World)
    (m : monitor) :
  at_ m = Polling ->
  server (List.length (requests m)) = NotOk ->
  let step := DatabaseManager.step server process_message in
  let m' := DatabaseManager.run server process_message 2 m in
  at_ m' = Polling
  /\ last_update_id m' = last_update_id m
  /\ world m' = world m
  /\ sleeps m' = S (sleeps m)
  /\ requests m' = (requests m ++ [(last_update_id m + 1, 30)])%list
  /\ requests (step m')
     = (requests m ++ [(last_update_id m + 1, 30);
                       (last_update_id m + 1, 30)])%list.
Proof.
  intros Hat Hreply. cbv zeta. simpl.
  rewrite (step_not_ok server process_message m Hat Hreply).
  repeat split.
  rewrite poll_records_request by reflexivity. simpl.
  now rewrite <- app_assoc.
Qed.

Lemma not_ok_reply_witness :
  let m' := DatabaseManager.run (fun _ => NotOk)
              (Program.process_message Scenario.isoformat_stub) 2
              (Scenario.at_polling Program.fresh) in
  at_ m' = Polling /\ last_update_id m' = 500 /\ world m' = Program.fresh
  /\ sleeps m' = 2%nat /\ requests m' = [(1, 30); (501, 30)].
Proof.
  cbv zeta.
  destruct (not_ok_reply_is_retried (fun _ => NotOk)
              (Program.process_message Scenario.isoformat_stub)
              (Scenario.at_polling Program.fresh) eq_refl eq_refl)
    as (H1 & H2 & H3 & H4 & H5 & _).
  repeat split; assumption.
Defined.

(** C5 as stated fails.  When the request raises for a network error, or
    the body does not decode, the exception leaves [start_monitoring]: the
    loop has ended after one step, has not slept, and is still ended a
    hundred steps later.  When the reply is not [ok], the cycle writes
    nothing to the log file and prints nothing. *)
Lemma transport_failure_ends_or_is_silent :
  let process := Program.process_message Scenario.isoformat_stub in
  let start := Scenario.at_polling Program.fresh in
  let network := DatabaseManager.run (fun _ => Fails ConnectionError) process in
  let malformed := DatabaseManager.run (fun _ => Fails JSONDecodeError) process in
  let not_ok := DatabaseManager.run (fun _ => NotOk) process in
  (at_ (network 1%nat start) = Crashed ConnectionError
   /\ at_ (network 100%nat start) = Crashed ConnectionError
   /\ sleeps (network 100%nat start) = sleeps start
   /\ requests (network 100%nat start) = [(1, 30); (501, 30)])
  /\ (at_ (malformed 1%nat start) = Crashed JSONDecodeError
      /\ at_ (malformed 100%nat start) = Crashed JSONDecodeError
      /\ sleeps (malformed 100%nat start) = sleeps start)
  /\ (log_file (world (not_ok 2%nat start)) = log_file (world start)
      /\ stdout (world (not_ok 2%nat start)) = stdout (world start)).
Proof. cbv zeta. repeat split; reflexivity. Qed.

(** ** [LIKE '%query%'] and substrings *)

Lemma list_ascii_of_append (a b : string) :
  list_ascii_of_string (a ++ b)
  = (list_ascii_of_string a ++ list_ascii_of_string b)%list.
Proof. induction a as [|c a IH]; simpl; [reflexivity | now rewrite IH]. Qed.

Lemma pattern_chars (query : string) :
  list_ascii_of_string ("%" ++ query ++ "%")
  = ("%"%char :: list_ascii_of_string query ++ ["%"%char])%list.
Proof. simpl. now rewrite list_ascii_of_append. Qed.

Lemma like_percent_only (t : list ascii) :
  Sqlite.like_chars ["%"%char] t = true.
Proof.
  induction t as [|x t IH]; [reflexivity|].
  simpl in *. exact IH.
Qed.

Lemma like_literal_prefix (q t : list ascii) :
  forallb (fun c => negb (Sqlite.is_percent c) && negb (Sqlite.is_underscore c)) q
  = true ->
  Sqlite.like_chars (q ++ ["%"%char]) t = prefix_nocase q t.
Proof.
  revert t. induction q as [|c q IH]; intros t Hq.
  - apply like_percent_only.
  - simpl in Hq. apply andb_prop in Hq as [Hc Hq].
    apply andb_prop in Hc as [Hp Hu].
    apply negb_true_iff in Hp, Hu.
    change ((c :: q) ++ ["%"%char])%list with (c :: (q ++ ["%"%char]))%list.
    cbn [Sqlite.like_chars]. rewrite Hp, Hu.
    destruct t as [|d t]; [reflexivity|].
    cbn [prefix_nocase]. now rewrite IH.
Qed.

Lemma like_is_contains (q s : list ascii) :
  forallb (fun c => negb (Sqlite.is_percent c) && negb (Sqlite.is_underscore c)) q
  = true ->
  Sqlite.like_chars ("%"%char :: q ++ ["%"%char]) s = contains_nocase q s.
Proof.
  intros Hq. cbn [Sqlite.like_chars].
  change (Sqlite.is_percent "%"%char) with true. cbv iota.
  induction s as [|x s IH].
  - cbn [contains_nocase]. now rewrite like_literal_prefix.
  - cbn [contains_nocase]. rewrite like_literal_prefix by exact Hq.
    now rewrite <- IH.
Qed.

Lemma prefix_nocase_spec (q s : list ascii) :
  prefix_nocase q s = true <->
  exists found after,
    s = (found ++ after)%list
    /\ Forall2 (fun c d => Sqlite.eq_nocase c d = true) q found.
Proof.
  revert s. induction q as [|c q IH]; intros s.
  - split; [intros _; exists [], s; split; [reflexivity | constructor]|reflexivity].
  - destruct s as [|d s]; simpl.
    + split; [discriminate|].
      intros (found & after & Hs & Hf). inversion Hf; subst. discriminate.
    + rewrite andb_true_iff, IH. split.
      * intros (Hcd & found & after & Hs & Hf).
        exists (d :: found), after. subst s. split; [reflexivity|].
        now constructor.
      * intros (found & after & Hs & Hf).
        inversion Hf as [|c' d' q' found' Hcd Hf']; subst.
        simpl in Hs. injection Hs as -> ->.
        split; [exact Hcd|]. exists found', after. auto.
Qed.

Lemma contains_nocase_spec (q s : list ascii) :
  contains_nocase q s = true <-> substring_nocase q s.
Proof.
  unfold substring_nocase. induction s as [|x s IH].
  - cbn [contains_nocase]. rewrite orb_false_r, prefix_nocase_spec. split.
    + intros (found & after & Hs & Hf). exists [], found, after. auto.
    + intros (before & found & after & Hs & Hf).
      destruct before; [|discriminate]. exists found, after. auto.
  - cbn [contains_nocase]. rewrite orb_true_iff, prefix_nocase_spec, IH. split.
    + intros [(found & after & Hs & Hf) | (before & found & after & Hs & Hf)].
      * exists [], found, after. auto.
      * exists (x :: before), found, after. subst s. auto.
    + intros (before & found & after & Hs & Hf).
      destruct before as [|b before]; simpl in Hs.
      * left. exists found, after. auto.
      * right. injection Hs as -> ->. exists before, found, after. auto.
Qed.

Lemma upto_nul_nul_free (l : list ascii) :
  forallb (fun c => negb (Sqlite.is_nul c)) l = true -> Sqlite.upto_nul l = l.
Proof.
  induction l as [|c l IH]; simpl; [reflexivity|].
  intros H. apply andb_prop in H as [Hc Hl].
  apply negb_true_iff in Hc. rewrite Hc. now rewrite IH.
Qed.

Lemma pattern_upto_nul (query : string) :
  nul_free query ->
  Sqlite.upto_nul (list_ascii_of_string ("%" ++ query ++ "%"))
  = ("%"%char :: list_ascii_of_string query ++ ["%"%char])%list.
Proof.
  intros Hq. rewrite pattern_chars. apply upto_nul_nul_free.
  simpl. rewrite forallb_app, Hq. reflexivity.
Qed.

Lemma like_query_spec (query : string) (name : option string) :
  wildcard_free query -> nul_free query ->
  Sqlite.like name ("%" ++ query ++ "%") = true <-> visible_contains query name.
Proof.
  intros Hq Hn. unfold visible_contains, Sqlite.like. destruct name as [s|].
  - rewrite pattern_upto_nul, like_is_contains by assumption.
    rewrite contains_nocase_spec. split.
    + intros H. exists s. auto.
    + intros (s' & Hs & H). now injection Hs as <-.
  - split; [discriminate|]. intros (s & Hs & _). discriminate.
Qed.

(** ** [LEFT JOIN] and [SELECT DISTINCT] *)

Section Join.

Context {L R : Type} (on : L -> R -> bool).

Lemma left_join_in (ls : list L) (rs : list R) (l : L) (o : option R) :
  In (l, o) (Sqlite.left_join on ls rs) <->
  In l ls /\ match o with
             | None => filter (on l) rs = []
             | Some r => In r rs /\ on l r = true
             end.
Proof.
  unfold Sqlite.left_join. rewrite in_flat_map. split.
  - intros (l' & Hl' & Hin).
    destruct (filter (on l') rs) as [|r0 ms] eqn:Hf.
    + destruct Hin as [Heq | []]. injection Heq as -> <-. auto.
    + apply in_map_iff in Hin as (r & Heq & Hr). injection Heq as -> <-.
      split; [exact Hl'|]. rewrite <- Hf in Hr.
      now apply filter_In in Hr.
  - intros (Hl & Ho). exists l. split; [exact Hl|].
    destruct o as [r|].
    + assert (Hr : In r (filter (on l) rs)) by now apply filter_In.
      destruct (filter (on l) rs) as [|r0 ms]; [destruct Hr|].
      apply in_map_iff. exists r. auto.
    + rewrite Ho. now left.
Qed.

Lemma left_join_covers (ls : list L) (rs : list R) (l : L) :
  In l ls -> exists o, In (l, o) (Sqlite.left_join on ls rs).
Proof.
  intros Hl. destruct (filter (on l) rs) as [|r ms] eqn:Hf.
  - exists None. apply left_join_in. auto.
  - exists (Some r). apply left_join_in. split; [exact Hl|].
    assert (Hr : In r (filter (on l) rs)) by (rewrite Hf; now left).
    now apply filter_In in Hr.
Qed.

End Join.

Section Distinct.

Context {A : Type} (eqb : A -> A -> bool).
Hypothesis eqb_spec : forall x y, eqb x y = true <-> x = y.

Lemma distinct_in (l : list A) (y : A) :
  In y (Sqlite.distinct eqb l) <-> In y l.
Proof.
  induction l as [|x l IH]; simpl; [tauto|].
  rewrite filter_In, IH, negb_true_iff. split.
  - intros [H | [H _]]; auto.
  - intros [H | H]; [auto|].
    destruct (eqb x y) eqn:E; [left; now apply eqb_spec | auto].
Qed.

Lemma distinct_NoDup (l : list A) : NoDup (Sqlite.distinct eqb l).
Proof.
  induction l as [|x l IH]; simpl; constructor.
  - rewrite filter_In, negb_true_iff. intros [_ H].
    assert (eqb x x = true) by now apply eqb_spec. congruence.
  - now apply NoDup_filter.
Qed.

End Distinct.

Lemma opt_eqb_spec {A : Type} (eqb : A -> A -> bool) :
  (forall x y, eqb x y = true <-> x = y) ->
  forall a b, Sqlite.opt_eqb eqb a b = true <-> a = b.
Proof.
  intros H [x|] [y|]; simpl; try (split; congruence).
  rewrite H. split; congruence.
Qed.

Lemma found_user_eqb_spec (a b : found_user) :
  found_user_eqb a b = true <-> a = b.
Proof.
  unfold found_user_eqb.
  rewrite !andb_true_iff, Z.eqb_eq, !(opt_eqb_spec String.eqb String.eqb_eq).
  destruct a, b; simpl. split.
  - intros [[-> ->] ->]. reflexivity.
  - intros H. injection H as -> -> ->. auto.
Qed.

Lemma sql_eq_spec (a : Z) (b : option Z) :
  Sqlite.sql_eq a b = true <-> b = Some a.
Proof.
  destruct b as [y|]; simpl; [|split; discriminate].
  rewrite Z.eqb_eq. split; congruence.
Qed.

Lemma left_join_is_empty {L R : Type} (on : L -> R -> bool)
    (ls : list L) (rs : list R) :
  is_empty (Sqlite.left_join on ls rs) = is_empty ls.
Proof.
  destruct ls as [|l ls]; [reflexivity|].
  unfold Sqlite.left_join. simpl.
  destruct (filter (on l) rs); reflexivity.
Qed.

Lemma search_usernames_fits (query : string) (d : Database) :
  pattern_fits query \/ users d = [] ->
  DatabaseManager.search_usernames query d
  = (Return
       (Sqlite.distinct found_user_eqb
          (map (fun r => found_of (fst r))
             (filter (fun r =>
                        Sqlite.like (u_current_username (fst r))
                          ("%" ++ query ++ "%")
                        || Sqlite.like (joined h_username (snd r))
                             ("%" ++ query ++ "%"))
                (Sqlite.left_join
                   (fun u uh => Sqlite.sql_eq (u_user_id u) (h_user_id uh))
                   (users d) (username_history d))))),
     d).
Proof.
  intros Hruns. unfold DatabaseManager.search_usernames. cbv zeta.
  rewrite left_join_is_empty.
  destruct Hruns as [Hfits | Hnone].
  - unfold pattern_fits in Hfits. now rewrite Hfits.
  - rewrite Hnone. now rewrite andb_false_r.
Qed.

Lemma search_usernames_too_complex (query : string) (d : Database) :
  ~ pattern_fits query -> users d <> [] ->
  DatabaseManager.search_usernames query d = (Raise OperationalError, d).
Proof.
  intros Hfits Hu. unfold DatabaseManager.search_usernames. cbv zeta.
  unfold pattern_fits in Hfits.
  destruct (Sqlite.too_complex _); [|now elim Hfits].
  rewrite left_join_is_empty.
  destruct (users d); [now elim Hu | reflexivity].
Qed.

Lemma search_usernames_by (hit : string -> option string -> Prop)
    (query : string) (d : Database) :
  (forall name, Sqlite.like name ("%" ++ query ++ "%") = true <-> hit query name) ->
  pattern_fits query \/ users d = [] ->
  exists results,
    DatabaseManager.search_usernames query d = (Return results, d)
    /\ NoDup results
    /\ forall t, In t results <->
         exists u, In u (users d) /\ t = found_of u
           /\ (hit query (u_current_username u)
               \/ exists h, In h (username_history d)
                    /\ h_user_id h = Some (u_user_id u)
                    /\ hit query (h_username h)).
Proof.
  intros Hlike Hfits. rewrite search_usernames_fits by exact Hfits.
  eexists. split; [reflexivity|]. split.
  - apply distinct_NoDup, found_user_eqb_spec.
  - intros t. rewrite (distinct_in _ found_user_eqb_spec), in_map_iff. split.
    + intros ([u o] & Ht & Hin). simpl in Ht.
      apply filter_In in Hin as [Hjoin Hsel]. simpl in Hsel.
      apply left_join_in in Hjoin as [Hu Ho].
      exists u. split; [exact Hu|]. split; [now rewrite <- Ht|].
      apply orb_true_iff in Hsel as [Hsel | Hsel].
      * left. now apply Hlike.
      * right. destruct o as [h|]; [|discriminate].
        destruct Ho as [Hh Hon]. exists h. split; [exact Hh|].
        split; [now apply sql_eq_spec | now apply Hlike].
    + intros (u & Hu & -> & [Hcur | (h & Hh & Hid & Hname)]).
      * destruct (left_join_covers
                    (fun u uh => Sqlite.sql_eq (u_user_id u) (h_user_id uh))
                    (users d) (username_history d) u Hu) as [o Ho].
        exists (u, o). split; [reflexivity|].
        apply filter_In. split; [exact Ho|].
        apply orb_true_iff. left. now apply Hlike.
      * exists (u, Some h). split; [reflexivity|].
        apply filter_In. split.
        -- apply left_join_in. split; [exact Hu|]. split; [exact Hh|].
           now apply sql_eq_spec.
        -- apply orb_true_iff. right. now apply Hlike.
Qed.

(** C6, as the code has it.  For a query that contains neither [%] nor
    [_] nor a NUL character, and whose pattern [%query%] is of at most
    50000 bytes, [search_usernames] returns, without repetition and without
    changing the database, exactly the [(user_id, first_name,
    current_username)] of the users whose current username, or one of whose
    recorded usernames, read up to its first NUL character, contains the
    query, the letters A-Z compared without regard to case; a user found
    through a recorded username is returned with the current one. *)
Theorem search_usernames_without_wildcards (query : string) (d : Database) :
  wildcard_free query -> nul_free query -> pattern_fits query ->
  search_is_visible_substring_search query d.
Proof.
  intros Hq Hn Hfits. unfold search_is_visible_substring_search.
  apply (search_usernames_by visible_contains); [|left; exact Hfits].
  intros name. now apply like_query_spec.
Qed.

Lemma search_usernames_witness :
  search_is_visible_substring_search "LIC" Scenario.renamed
  /\ DatabaseManager.search_usernames "LIC" Scenario.renamed
     = (Return [ {| fu_user_id := 1; fu_first_name := Some "Al";
                    fu_current_username := Some "bob" |} ],
        Scenario.renamed).
Proof.
  split.
  - apply (search_usernames_without_wildcards "LIC" Scenario.renamed);
      reflexivity.
  - reflexivity.
Defined.

Lemma no_such_username (query : string) :
  contains_nocase (list_ascii_of_string query) (list_ascii_of_string "bob") = false ->
  contains_nocase (list_ascii_of_string query) (list_ascii_of_string "alice") = false ->
  DatabaseManager.search_usernames query Scenario.renamed
  = (Return [found_of Scenario.bob_row], Scenario.renamed) ->
  ~ search_is_substring_search query Scenario.renamed.
Proof.
  intros Hbob Halice Hrun (results & Hres & _ & Hiff).
  rewrite Hrun in Hres. injection Hres as <-.
  assert (Hin : In (found_of Scenario.bob_row) [found_of Scenario.bob_row])
    by (left; reflexivity).
  apply Hiff in Hin as (u & Hu & _ & Hhit).
  destruct Hu as [<- | []].
  destruct Hhit as [(s & Hs & Hsub) | (h & Hh & _ & (s & Hs & Hsub))].
  - injection Hs as <-. apply contains_nocase_spec in Hsub. congruence.
  - destruct Hh as [<- | []]. injection Hs as <-.
    apply contains_nocase_spec in Hsub. congruence.
Qed.

(** C6 as stated fails for a query with a wildcard and for a query with a
    NUL character.  The query [_] finds user 1 of [Scenario.renamed], none
    of whose usernames (bob now, alice before) contains an underscore; the
    query made of a NUL character and [zzz], read by [LIKE] as the empty
    query, finds the same user, none of whose usernames contains it. *)
Lemma search_usernames_wildcard_query :
  ~ search_is_substring_search "_" Scenario.renamed
  /\ ~ search_is_substring_search (String "000"%char "zzz") Scenario.renamed.
Proof. split; apply no_such_username; reflexivity. Qed.

(** * Further properties of the code *)

(** ** [store_message_data] *)

Lemma store_record_db (r : message_args) (d : Database) :
  snd (DatabaseManager.store_record r d)
  = if bindable r then
      set_messages d (Sqlite.insert_or_replace (row_of r) (messages d))
    else d.
Proof. rewrite store_record_messages. now destruct (bindable r). Qed.

Lemma insert_or_replace_others (r : message_row) (t : list message_row) :
  filter (fun x => negb (Sqlite.same_key r x)) (Sqlite.insert_or_replace r t)
  = filter (fun x => negb (Sqlite.same_key r x)) t.
Proof.
  unfold Sqlite.insert_or_replace. rewrite filter_app. simpl.
  assert (Hself : Sqlite.same_key r r = true)
    by (unfold Sqlite.same_key; now rewrite !Z.eqb_refl).
  rewrite Hself. simpl. rewrite app_nil_r.
  induction t as [|x t IH]; simpl; [reflexivity|].
  destruct (Sqlite.same_key r x) eqn:E; simpl; [exact IH|].
  rewrite E. simpl. now rewrite IH.
Qed.

Lemma same_key_iff (r x : message_row) :
  Sqlite.same_key r x = true <-> row_key x = row_key r.
Proof.
  unfold Sqlite.same_key, row_key.
  rewrite andb_true_iff, !Z.eqb_eq. split.
  - intros [-> ->]. reflexivity.
  - intros H. injection H as -> ->. auto.
Qed.

Lemma insert_or_replace_other_key (r : message_row) (t : list message_row)
    (mid cid : Z) :
  (mid, cid) <> row_key r ->
  filter (fun x => (m_message_id x =? mid) && (m_chat_id x =? cid))
    (Sqlite.insert_or_replace r t)
  = filter (fun x => (m_message_id x =? mid) && (m_chat_id x =? cid)) t.
Proof.
  intros Hne. unfold Sqlite.insert_or_replace. rewrite filter_app. simpl.
  destruct ((m_message_id r =? mid) && (m_chat_id r =? cid)) eqn:E.
  - apply andb_true_iff in E as [E1 E2]. apply Z.eqb_eq in E1, E2.
    exfalso. apply Hne. unfold row_key. now subst.
  - rewrite app_nil_r.
    induction t as [|x t IH]; simpl; [reflexivity|].
    destruct (Sqlite.same_key r x) eqn:Ex; simpl.
    + apply same_key_iff in Ex. unfold row_key in Ex.
      injection Ex as -> ->. now rewrite E.
    + now rewrite IH.
Qed.

(** X1. [store_message_data] touches one key only: the rows under every
    other key are the rows that were there, in the same order; in
    particular what is stored under a different key reads back unchanged. *)
Theorem store_message_data_keeps_other_keys (r : message_args) (d : Database) :
  let d' := snd (DatabaseManager.store_record r d) in
  filter (fun x => negb (Sqlite.same_key (row_of r) x)) (messages d')
  = filter (fun x => negb (Sqlite.same_key (row_of r) x)) (messages d)
  /\ (forall mid cid,
        (mid, cid) <> message_key r ->
        rows_with_key mid cid d' = rows_with_key mid cid d).
Proof.
  cbv zeta. rewrite store_record_db.
  destruct (bindable r); [|split; [reflexivity | intros; reflexivity]].
  split.
  - apply insert_or_replace_others.
  - intros mid cid Hne. unfold rows_with_key. simpl.
    now apply insert_or_replace_other_key.
Qed.

Lemma store_keeps_other_keys_witness :
  rows_with_key 12 100
    (snd (DatabaseManager.store_record Scenario.second_write
            (snd (DatabaseManager.store_record Sample.other_message
                    (DatabaseManager._init_database empty_file)))))
  = [ {| m_message_id := 12; m_chat_id := 100; m_user_id := 2;
         m_username := None; m_first_name := None;
         m_message_text := "other";
         m_message_date := Text "2024-01-02T09:00:00";
         m_media_type := None; m_forwarded_from := None;
         m_reply_to_message_id := None |} ].
Proof.
  rewrite (proj2 (store_message_data_keeps_other_keys Scenario.second_write _)
             12 100).
  - reflexivity.
  - discriminate.
Defined.

Lemma insert_or_replace_unique (r : message_row) (t : list message_row) :
  NoDup (map row_key t) ->
  NoDup (map row_key (Sqlite.insert_or_replace r t)).
Proof.
  intros Hu. unfold Sqlite.insert_or_replace. rewrite map_app. simpl.
  apply NoDup_app.
  - induction t as [|x t IH]; simpl; [constructor|].
    inversion Hu as [|k ks Hnotin Hrest]; subst.
    destruct (Sqlite.same_key r x); simpl; [now apply IH|].
    constructor; [|now apply IH].
    intros Hin. apply Hnotin.
    apply in_map_iff in Hin as (y & Hy & Hin). apply filter_In in Hin as [Hin _].
    apply in_map_iff. eauto.
  - constructor; [intros []| constructor].
  - intros k Hin [<- | []].
    apply in_map_iff in Hin as (y & Hy & Hin). apply filter_In in Hin as [_ Hneg].
    apply negb_true_iff in Hneg.
    apply same_key_iff in Hy. congruence.
Qed.

Lemma store_all_last (rs : list message_args) (r : message_args) (d : Database) :
  store_all (rs ++ [r]) d = snd (DatabaseManager.store_record r (store_all rs d)).
Proof. unfold store_all. now rewrite fold_left_app. Qed.

(** X2. The primary key holds in every database that calls of
    [store_message_data] build from a fresh file: whatever records are
    stored, in whatever order, no two rows share a [(message_id, chat_id)];
    and a call on a database with unique keys leaves the keys unique and
    adds at most one row. *)
Theorem store_message_data_keeps_keys_unique :
  (forall rs, keys_unique
                (store_all rs (DatabaseManager._init_database empty_file)))
  /\ (forall r d,
        keys_unique d ->
        keys_unique (snd (DatabaseManager.store_record r d))
        /\ (List.length (messages (snd (DatabaseManager.store_record r d)))
            <= S (List.length (messages d)))%nat).
Proof.
  assert (Hstep : forall r d, keys_unique d ->
            keys_unique (snd (DatabaseManager.store_record r d))).
  { intros r d Hd. rewrite store_record_db.
    destruct (bindable r); [|exact Hd].
    unfold keys_unique. simpl. now apply insert_or_replace_unique. }
  split.
  - intros rs. induction rs as [|r rs IH] using rev_ind.
    + constructor.
    + rewrite store_all_last. now apply Hstep.
  - intros r d Hd. split; [now apply Hstep|].
    rewrite store_record_db. destruct (bindable r); [|lia].
    simpl. unfold Sqlite.insert_or_replace.
    rewrite length_app. simpl.
    pose proof (filter_length_le
                  (fun x => negb (Sqlite.same_key (row_of r) x)) (messages d)).
    lia.
Qed.

Lemma keys_unique_witness :
  keys_unique (store_all [Scenario.first_write; Scenario.second_write]
                 (DatabaseManager._init_database empty_file))
  /\ keys_unique (snd (DatabaseManager.store_record Scenario.second_write
                         (snd (DatabaseManager.store_record Scenario.first_write
                                 (DatabaseManager._init_database empty_file))))).
Proof.
  destruct store_message_data_keeps_keys_unique as [Hall Hone].
  split.
  - apply Hall.
  - apply Hone. apply (Hall [Scenario.first_write]).
Defined.

(** ** [ORDER BY ... DESC] and [LIMIT] *)

Lemma value_leb_total (number_leb : sql_value -> sql_value -> bool)
    (a b : option sql_value) :
  total number_leb ->
  Sqlite.value_leb number_leb a b = true
  \/ Sqlite.value_leb number_leb b a = true.
Proof.
  intros Ht.
  destruct a as [[x|x|x]|], b as [[y|y|y]|]; simpl; auto;
    try apply Ht; try apply String.leb_total.
  rewrite !Z.leb_le. lia.
Qed.

Section OrderBy.

Variable number_leb : sql_value -> sql_value -> bool.

Context {A : Type} (key : A -> option sql_value).

Let desc (a b : A) : Prop := not_older number_leb (key a) (key b).

Lemma insert_desc_perm (x : A) (l : list A) :
  Permutation (Sqlite.insert_desc number_leb key x l) (x :: l).
Proof.
  induction l as [|y l IH]; simpl; [reflexivity|].
  destruct (Sqlite.value_leb number_leb (key y) (key x)); [reflexivity|].
  rewrite IH. apply perm_swap.
Qed.

Lemma order_by_desc_perm (l : list A) :
  Permutation (Sqlite.order_by_desc number_leb key l) l.
Proof.
  unfold Sqlite.order_by_desc. induction l as [|x l IH]; simpl; [reflexivity|].
  rewrite insert_desc_perm. now constructor.
Qed.

Lemma firstn_sorted (n : nat) (l : list A) :
  Sorted desc l -> Sorted desc (firstn n l).
Proof.
  revert l. induction n as [|n IH]; intros l Hs; [constructor|].
  destruct l as [|x l]; [constructor|]. simpl.
  inversion Hs as [|x' l' Hsl Hhd]; subst.
  constructor; [now apply IH|].
  destruct n; [constructor|].
  destruct l as [|y l]; constructor. now inversion Hhd.
Qed.

Lemma limit_sorted (n : Z) (l : list A) :
  Sorted desc l -> Sorted desc (Sqlite.limit n l).
Proof.
  unfold Sqlite.limit. destruct (n <? 0); [auto | apply firstn_sorted].
Qed.

Hypothesis number_leb_total : total number_leb.

Lemma insert_desc_sorted (x : A) (l : list A) :
  Sorted desc l -> Sorted desc (Sqlite.insert_desc number_leb key x l).
Proof.
  induction l as [|y l IH]; intros Hs; simpl.
  - repeat constructor.
  - destruct (Sqlite.value_leb number_leb (key y) (key x)) eqn:E.
    + constructor; [exact Hs|]. constructor. exact E.
    + inversion Hs as [|y' l' Hsl Hhd]; subst.
      constructor; [now apply IH|].
      assert (Hyx : desc y x).
      { destruct (value_leb_total number_leb (key x) (key y) number_leb_total)
          as [H|H]; [exact H|congruence]. }
      destruct l as [|z l]; simpl.
      * constructor. exact Hyx.
      * destruct (Sqlite.value_leb number_leb (key z) (key x)).
        -- constructor. exact Hyx.
        -- constructor. now inversion Hhd.
Qed.

Lemma order_by_desc_sorted (l : list A) :
  Sorted desc (Sqlite.order_by_desc number_leb key l).
Proof.
  unfold Sqlite.order_by_desc. induction l as [|x l IH]; simpl.
  - constructor.
  - now apply insert_desc_sorted.
Qed.

End OrderBy.

Section Limit.

Context {A : Type}.

Lemma firstn_in (n : nat) (l : list A) (x : A) :
  In x (firstn n l) -> In x l.
Proof.
  revert l. induction n as [|n IH]; intros [|y l]; simpl; try tauto.
  intros [H | H]; auto.
Qed.

Lemma limit_in (n : Z) (l : list A) (x : A) :
  In x (Sqlite.limit n l) -> In x l.
Proof.
  unfold Sqlite.limit. destruct (n <? 0); [auto | apply firstn_in].
Qed.

Lemma limit_length (n : Z) (l : list A) :
  0 <= n -> Z.of_nat (List.length (Sqlite.limit n l)) <= n.
Proof.
  intros Hn. unfold Sqlite.limit.
  destruct (n <? 0) eqn:E; [apply Z.ltb_lt in E; lia|].
  pose proof (firstn_le_length (Z.to_nat n) l). lia.
Qed.

End Limit.

Lemma map_sorted {A B : Type} (f : A -> B) (R : A -> A -> Prop)
    (S : B -> B -> Prop) (l : list A) :
  (forall a b, R a b -> S (f a) (f b)) ->
  Sorted R l -> Sorted S (map f l).
Proof.
  intros Hf. induction 1 as [|x l Hs IH Hhd]; simpl; constructor; auto.
  destruct Hhd; simpl; constructor; auto.
Qed.

Lemma get_user_messages_runs
    (number_leb : sql_value -> sql_value -> bool)
    (user_id limit : Z) (d : Database) :
  in_int64 user_id && in_int64 limit = true ->
  DatabaseManager.get_user_messages number_leb user_id limit d
  = (Return
       (map (fun r =>
               {| mv_message_id := m_message_id (fst r);
                  mv_chat_id := m_chat_id (fst r);
                  mv_username := m_username (fst r);
                  mv_first_name := m_first_name (fst r);
                  mv_text := m_message_text (fst r);
                  mv_date := m_message_date (fst r);
                  mv_media_type := m_media_type (fst r);
                  mv_chat_title := joined c_title (snd r) |})
          (Sqlite.limit limit
             (Sqlite.order_by_desc number_leb
                (fun r => Some (m_message_date (fst r)))
                (filter (fun r => sender_of (fst r) =? user_id)
                   (Sqlite.left_join (fun m c => m_chat_id m =? c_chat_id c)
                      (messages d) (chats d)))))),
     d).
Proof.
  intros H. unfold DatabaseManager.get_user_messages. now rewrite H.
Qed.

Lemma get_user_messages_overflow
    (number_leb : sql_value -> sql_value -> bool)
    (user_id limit : Z) (d : Database) :
  in_int64 user_id && in_int64 limit = false ->
  DatabaseManager.get_user_messages number_leb user_id limit d
  = (Raise OverflowError, d).
Proof.
  intros H. unfold DatabaseManager.get_user_messages. now rewrite H.
Qed.

(** X3. [get_user_messages] only reads.  Called with integers that SQLite
    can hold, it returns, leaves the database as it was, and its result
    - has at most [limit] entries when [limit] is not negative,
    - is ordered by [message_date] as the [TIMESTAMP] column holds it,
      greatest first: a date kept as text above every date kept as a
      number, two texts character by character, two numbers by value
      (SQLite's comparison of numbers, which leaves no two unordered),
    - shows only rows of [messages] whose [user_id] is the one asked for,
      the date as the column holds it.
    Called with another integer it raises [OverflowError], the database
    as it was. *)
Theorem get_user_messages_newest_first
    (number_leb : sql_value -> sql_value -> bool)
    (user_id limit : Z) (d : Database) :
  (in_int64 user_id && in_int64 limit = true ->
   exists views,
     DatabaseManager.get_user_messages number_leb user_id limit d
     = (Return views, d)
     /\ (0 <= limit -> Z.of_nat (List.length views) <= limit)
     /\ (total number_leb ->
         Sorted (fun a b => not_older number_leb (Some (mv_date a))
                              (Some (mv_date b))) views)
     /\ (forall v, In v views ->
           exists m, In m (messages d) /\ sender_of m = user_id /\ shows v m))
  /\ (in_int64 user_id && in_int64 limit = false ->
      DatabaseManager.get_user_messages number_leb user_id limit d
      = (Raise OverflowError, d)).
Proof.
  split; [|apply get_user_messages_overflow].
  intros Hfit. rewrite get_user_messages_runs by exact Hfit.
  eexists. split; [reflexivity|].
  split; [|split].
  - intros Hl. rewrite length_map. now apply limit_length.
  - intros Ht.
    eapply map_sorted; [|apply limit_sorted, order_by_desc_sorted, Ht].
    intros a b H. exact H.
  - intros v Hv. apply in_map_iff in Hv as ([m c] & <- & Hin).
    apply limit_in in Hin.
    apply (Permutation_in _ (order_by_desc_perm _ _ _)) in Hin.
    apply filter_In in Hin as [Hjoin Hsel]. simpl in Hsel.
    apply left_join_in in Hjoin as [Hm _].
    exists m. split; [exact Hm|]. split; [now apply Z.eqb_eq|].
    unfold shows. simpl. auto 10.
Qed.

Lemma get_user_messages_witness :
  exists views,
    DatabaseManager.get_user_messages Sample.no_numbers 1 1
      (store_all [Scenario.first_write; Scenario.second_write]
         (DatabaseManager._init_database empty_file))
    = (Return views,
       store_all [Scenario.first_write; Scenario.second_write]
         (DatabaseManager._init_database empty_file))
    /\ Z.of_nat (List.length views) <= 1
    /\ Sorted (fun a b => not_older Sample.no_numbers (Some (mv_date a))
                            (Some (mv_date b))) views.
Proof.
  destruct (proj1 (get_user_messages_newest_first Sample.no_numbers 1 1
                     (store_all [Scenario.first_write; Scenario.second_write]
                        (DatabaseManager._init_database empty_file)))
              eq_refl)
    as (views & Hrun & Hlen & Hsorted & _).
  exists views. split; [exact Hrun|]. split; [apply Hlen; lia|].
  apply Hsorted. intros a b. left. reflexivity.
Defined.

(** X4. A stored message is found again: after [store_message_data] of a
    record whose integers SQLite can hold, [get_user_messages] for the
    record's [user_id], without a bound ([limit] negative), shows the row
    made of the record, its date as the [TIMESTAMP] column keeps it. *)
Theorem stored_message_is_listed
    (number_leb : sql_value -> sql_value -> bool)
    (r : message_args) (d : Database) (limit : Z) :
  bindable r = true ->
  limit < 0 ->
  in_int64 limit = true ->
  exists views v,
    DatabaseManager.get_user_messages number_leb (user_id r) limit
      (snd (DatabaseManager.store_record r d))
    = (Return views, snd (DatabaseManager.store_record r d))
    /\ In v views /\ shows v (row_of r).
Proof.
  intros Hb Hl Hfit. rewrite store_record_db, Hb.
  assert (Hu : in_int64 (user_id r) = true).
  { unfold bindable in Hb. repeat (apply andb_prop in Hb as [Hb ?]).
    assumption. }
  rewrite get_user_messages_runs by (now rewrite Hu, Hfit).
  set (d' := set_messages d (Sqlite.insert_or_replace (row_of r) (messages d))).
  assert (Hr : In (row_of r) (messages d')).
  { simpl. unfold Sqlite.insert_or_replace. apply in_or_app. right. now left. }
  destruct (left_join_covers (fun m c => m_chat_id m =? c_chat_id c)
              (messages d') (chats d') (row_of r) Hr) as [c Hc].
  eexists.
  exists {| mv_message_id := message_id r; mv_chat_id := chat_id r;
            mv_username := username r; mv_first_name := first_name r;
            mv_text := message_text r;
            mv_date := Numeric.affinity (message_date r);
            mv_media_type := media_type r;
            mv_chat_title := joined c_title c |}.
  split; [reflexivity|]. split; [|unfold shows; simpl; auto 10].
  apply in_map_iff. exists (row_of r, c). split; [reflexivity|].
  unfold Sqlite.limit. apply Z.ltb_lt in Hl. rewrite Hl.
  apply (Permutation_in _ (Permutation_sym (order_by_desc_perm _ _ _))).
  apply filter_In. split; [exact Hc|]. simpl. apply Z.eqb_refl.
Qed.

Lemma stored_message_witness :
  exists views v,
    DatabaseManager.get_user_messages Sample.no_numbers 1 (-1)
      (snd (DatabaseManager.store_record Scenario.second_write Scenario.renamed))
    = (Return views,
       snd (DatabaseManager.store_record Scenario.second_write Scenario.renamed))
    /\ In v views /\ shows v (row_of Scenario.second_write).
Proof.
  apply (stored_message_is_listed Sample.no_numbers Scenario.second_write
           Scenario.renamed (-1)); reflexivity.
Defined.

(** X5. [get_username_history] as its query is written (lines 305-319, and
    again 617-631) only reads.  Called with an integer that SQLite can
    hold, it returns exactly the entries recorded for the user, each once,
    ordered by [changed_at] as the [TIMESTAMP] column holds it, greatest
    first: text above numbers, numbers above entries without a date, two
    texts character by character, two numbers by value (SQLite's
    comparison of numbers, which leaves no two unordered).  Called with
    another integer it raises [OverflowError], the database as it was. *)
Theorem get_username_history_newest_first
    (number_leb : sql_value -> sql_value -> bool)
    (user_id : Z) (d : Database) :
  (in_int64 user_id = true ->
   exists views,
     DatabaseManager_150.get_username_history number_leb user_id d
     = (Return views, d)
     /\ DatabaseManager.get_username_history_617 number_leb user_id d
        = (Return views, d)
     /\ Permutation views
          (map history_view_of
             (filter (fun h => Sqlite.sql_eq user_id (h_user_id h))
                (username_history d)))
     /\ (total number_leb ->
         Sorted (fun a b => not_older number_leb (hv_changed_at a)
                              (hv_changed_at b)) views))
  /\ (in_int64 user_id = false ->
      DatabaseManager_150.get_username_history number_leb user_id d
      = (Raise OverflowError, d)
      /\ DatabaseManager.get_username_history_617 number_leb user_id d
         = (Raise OverflowError, d)).
Proof.
  unfold DatabaseManager_150.get_username_history,
    DatabaseManager.get_username_history_617.
  split; intros Hfit; rewrite Hfit; [|split; reflexivity].
  eexists. split; [reflexivity|]. split; [reflexivity|]. split.
  - apply Permutation_map, order_by_desc_perm.
  - intros Ht. eapply map_sorted; [|apply order_by_desc_sorted, Ht].
    intros a b H. exact H.
Qed.

Lemma get_username_history_witness :
  exists views,
    DatabaseManager_150.get_username_history Sample.no_numbers 1 Scenario.renamed
    = (Return views, Scenario.renamed)
    /\ Sorted (fun a b => not_older Sample.no_numbers (hv_changed_at a)
                            (hv_changed_at b)) views.
Proof.
  destruct (proj1 (get_username_history_newest_first Sample.no_numbers 1
                     Scenario.renamed) eq_refl)
    as (views & Hrun & _ & _ & Hsorted).
  exists views. split; [exact Hrun|].
  apply Hsorted. intros a b. left. reflexivity.
Defined.

(** ** [search_usernames] for every query *)

Lemma like_star (p t : list ascii) :
  Sqlite.like_chars ("%"%char :: p) t
  = Sqlite.like_chars p t
    || match t with
       | [] => false
       | _ :: t' => Sqlite.like_chars ("%"%char :: p) t'
       end.
Proof. destruct t; reflexivity. Qed.

Lemma like_literal (c : ascii) (p t : list ascii) :
  Sqlite.is_percent c = false ->
  Sqlite.like_chars (c :: p) t
  = match t with
    | [] => false
    | d :: t' =>
        if Sqlite.is_underscore c then Sqlite.like_chars p t'
        else Sqlite.eq_nocase c d && Sqlite.like_chars p t'
    end.
Proof.
  intros Hc. cbn [Sqlite.like_chars]. rewrite Hc.
  destruct (Sqlite.is_underscore c), t; reflexivity.
Qed.

Lemma like_any_prefix (q t : list ascii) :
  prefix_nocase q t = true ->
  Sqlite.like_chars (q ++ ["%"%char]) t = true.
Proof.
  revert t. induction q as [|c q IH]; intros t H.
  - apply like_percent_only.
  - destruct t as [|d t]; [discriminate|].
    cbn [prefix_nocase] in H. apply andb_prop in H as [Hcd Hq].
    change ((c :: q) ++ ["%"%char])%list with (c :: (q ++ ["%"%char]))%list.
    destruct (Sqlite.is_percent c) eqn:Hp.
    + apply Ascii.eqb_eq in Hp. subst c.
      rewrite like_star, (like_star _ t), (IH t Hq).
      now rewrite orb_true_r.
    + rewrite like_literal by exact Hp.
      destruct (Sqlite.is_underscore c); [now apply IH|].
      now rewrite Hcd, IH.
Qed.

Lemma like_any_contains (q s : list ascii) :
  contains_nocase q s = true ->
  Sqlite.like_chars ("%"%char :: q ++ ["%"%char]) s = true.
Proof.
  induction s as [|x s IH]; cbn [contains_nocase]; intros H; rewrite like_star.
  - rewrite orb_false_r in H. now rewrite like_any_prefix.
  - apply orb_prop in H as [H | H].
    + now rewrite like_any_prefix.
    + rewrite IH by exact H. apply orb_true_r.
Qed.

Lemma lower_is_percent (d : ascii) :
  Sqlite.lower d = "%"%char -> d = "%"%char.
Proof.
  destruct d as [[] [] [] [] [] [] [] []]; vm_compute; intros H;
    first [reflexivity | discriminate H].
Qed.

Lemma lower_is_underscore (d : ascii) :
  Sqlite.lower d = "_"%char -> d = "_"%char.
Proof.
  destruct d as [[] [] [] [] [] [] [] []]; vm_compute; intros H;
    first [reflexivity | discriminate H].
Qed.

Lemma lower_is_nul (d : ascii) :
  Sqlite.lower d = "000"%char -> d = "000"%char.
Proof.
  destruct d as [[] [] [] [] [] [] [] []]; vm_compute; intros H;
    first [reflexivity | discriminate H].
Qed.

Lemma lower_keeps_width (d : ascii) :
  Nat.ltb (nat_of_ascii (Sqlite.lower d)) 128 = Nat.ltb (nat_of_ascii d) 128.
Proof. destruct d as [[] [] [] [] [] [] [] []]; reflexivity. Qed.

Lemma eq_nocase_lower (c d : ascii) :
  Sqlite.eq_nocase c d = true <-> Sqlite.lower c = Sqlite.lower d.
Proof. unfold Sqlite.eq_nocase. apply Ascii.eqb_eq. Qed.

Lemma eq_nocase_same_sort (c d x : ascii) :
  Sqlite.lower x = x ->
  (forall y, Sqlite.lower y = x -> y = x) ->
  Sqlite.eq_nocase c d = true ->
  Ascii.eqb c x = Ascii.eqb d x.
Proof.
  intros Hxx Hx H. apply eq_nocase_lower in H.
  destruct (Ascii.eqb_spec c x) as [-> | Hc];
    destruct (Ascii.eqb_spec d x) as [-> | Hd]; try reflexivity.
  - exfalso. apply Hd. apply Hx. now rewrite <- H.
  - exfalso. apply Hc. apply Hx. now rewrite H.
Qed.

Lemma eq_nocase_same_wildcard (c d : ascii) :
  Sqlite.eq_nocase c d = true ->
  Sqlite.is_percent c = Sqlite.is_percent d
  /\ Sqlite.is_underscore c = Sqlite.is_underscore d
  /\ Sqlite.is_nul c = Sqlite.is_nul d.
Proof.
  intros H. unfold Sqlite.is_percent, Sqlite.is_underscore, Sqlite.is_nul.
  split; [|split]; apply eq_nocase_same_sort;
    first [ reflexivity | exact H | exact lower_is_percent
          | exact lower_is_underscore | exact lower_is_nul ].
Qed.

Lemma upto_nul_no_nul (s : list ascii) :
  forallb (fun c => negb (Sqlite.is_nul c)) (Sqlite.upto_nul s) = true.
Proof.
  induction s as [|c s IH]; simpl; [reflexivity|].
  destruct (Sqlite.is_nul c) eqn:E; simpl; [reflexivity|].
  now rewrite E, IH.
Qed.

Lemma upto_nul_nocase (p1 p2 : list ascii) :
  Forall2 (fun c d => Sqlite.eq_nocase c d = true) p1 p2 ->
  Forall2 (fun c d => Sqlite.eq_nocase c d = true)
    (Sqlite.upto_nul p1) (Sqlite.upto_nul p2).
Proof.
  induction 1 as [|c d p1 p2 Hc Hp IH]; simpl; [constructor|].
  destruct (eq_nocase_same_wildcard c d Hc) as (_ & _ & Hn). rewrite <- Hn.
  destruct (Sqlite.is_nul c); constructor; assumption.
Qed.

Lemma nocase_no_nul (q found : list ascii) :
  Forall2 (fun c d => Sqlite.eq_nocase c d = true) q found ->
  forallb (fun c => negb (Sqlite.is_nul c)) found = true ->
  forallb (fun c => negb (Sqlite.is_nul c)) q = true.
Proof.
  induction 1 as [|c d q found Hc Hq IH]; simpl; [reflexivity|].
  destruct (eq_nocase_same_wildcard c d Hc) as (_ & _ & Hn). rewrite Hn.
  intros H. apply andb_prop in H as [H1 H2]. now rewrite H1, IH.
Qed.

Lemma visible_contains_nul_free (query : string) (name : option string) :
  visible_contains query name -> nul_free query.
Proof.
  intros (s & _ & before & found & after & Hs & Hq).
  apply (nocase_no_nul _ found Hq).
  pose proof (upto_nul_no_nul (list_ascii_of_string s)) as H.
  rewrite Hs, !forallb_app in H.
  apply andb_prop in H as [_ H]. now apply andb_prop in H as [H _].
Qed.

Lemma contained_is_liked (query : string) (name : option string) :
  visible_contains query name ->
  Sqlite.like name ("%" ++ query ++ "%") = true.
Proof.
  intros H. pose proof (visible_contains_nul_free query name H) as Hn.
  destruct H as (s & -> & Hsub). unfold Sqlite.like.
  rewrite pattern_upto_nul by exact Hn. apply like_any_contains.
  now apply contains_nocase_spec.
Qed.

(** X6. [search_usernames] misses nobody, whatever the query holds, the
    wildcards included, as long as [LIKE] accepts its pattern: a user whose
    current username, or one of whose recorded usernames, read up to its
    first NUL character, contains the query (the letters A-Z compared
    without regard to case) is in the result, with the current username;
    and the call leaves the database as it was. *)
Theorem search_usernames_finds_every_match
    (query : string) (d : Database) (u : user_row) :
  pattern_fits query ->
  In u (users d) ->
  visible_hit query d u ->
  exists results,
    DatabaseManager.search_usernames query d = (Return results, d)
    /\ In (found_of u) results.
Proof.
  intros Hfits Hu Hhit.
  destruct (search_usernames_by
              (fun q name => Sqlite.like name ("%" ++ q ++ "%") = true)
              query d (fun name => iff_refl _) (or_introl Hfits))
    as (results & Hrun & _ & Hiff).
  exists results. split; [exact Hrun|].
  apply Hiff. exists u. split; [exact Hu|]. split; [reflexivity|].
  destruct Hhit as [Hcur | (h & Hh & Hid & Hname)].
  - left. now apply contained_is_liked.
  - right. exists h. split; [exact Hh|]. split; [exact Hid|].
    now apply contained_is_liked.
Qed.

Lemma search_usernames_finds_witness :
  exists results,
    DatabaseManager.search_usernames "a_i" Sample.underscored
    = (Return results, Sample.underscored)
    /\ In (found_of Scenario.bob_row) results.
Proof.
  apply (search_usernames_finds_every_match "a_i" Sample.underscored
           Scenario.bob_row).
  - reflexivity.
  - left. reflexivity.
  - right. eexists. split; [left; reflexivity|]. split; [reflexivity|].
    eexists. split; [reflexivity|]. apply contains_nocase_spec. reflexivity.
Defined.

(** X7. What [search_usernames] returns, for every query whose pattern
    [LIKE] accepts, and for every query when [users] is empty: no entry
    twice, and an entry exactly for each row of [users] of which the
    pattern [%query%] matches the current username or a username recorded
    for that user.  A [NULL] username matches no pattern, so a user without
    any username is never returned.  A pattern of more than 50000 bytes
    makes the call raise [OperationalError] as soon as there is a row to
    look at. *)
Theorem search_usernames_returns_like_matches (query : string) (d : Database) :
  (pattern_fits query \/ users d = [] ->
   exists results,
     DatabaseManager.search_usernames query d = (Return results, d)
     /\ NoDup results
     /\ (forall t, In t results <->
           exists u, In u (users d) /\ t = found_of u /\ like_hit query d u)
     /\ (forall t, In t results ->
           exists u, In u (users d) /\ t = found_of u
             /\ (u_current_username u <> None
                 \/ exists h, In h (username_history d)
                      /\ h_user_id h = Some (u_user_id u)
                      /\ h_username h <> None)))
  /\ (~ pattern_fits query -> users d <> [] ->
      DatabaseManager.search_usernames query d = (Raise OperationalError, d)).
Proof.
  split; [|apply search_usernames_too_complex].
  intros Hruns.
  destruct (search_usernames_by
              (fun q name => Sqlite.like name ("%" ++ q ++ "%") = true)
              query d (fun name => iff_refl _) Hruns)
    as (results & Hrun & Hnd & Hiff).
  exists results. repeat split; try assumption; try apply Hiff.
  intros t Ht. apply Hiff in Ht as (u & Hu & -> & Hhit).
  exists u. split; [exact Hu|]. split; [reflexivity|].
  destruct Hhit as [Hcur | (h & Hh & Hid & Hname)].
  - left. intros E. rewrite E in Hcur. discriminate.
  - right. exists h. repeat split; try assumption.
    intros E. rewrite E in Hname. discriminate.
Qed.

Lemma like_chars_nocase (p1 p2 : list ascii) :
  Forall2 (fun c d => Sqlite.eq_nocase c d = true) p1 p2 ->
  forall s, Sqlite.like_chars p1 s = Sqlite.like_chars p2 s.
Proof.
  induction 1 as [|c1 c2 p1 p2 Hc Hp IH]; intros s; [reflexivity|].
  destruct (eq_nocase_same_wildcard c1 c2 Hc) as (Hpc & Hun & _).
  destruct (Sqlite.is_percent c1) eqn:E1.
  - apply Ascii.eqb_eq in E1. symmetry in Hpc. apply Ascii.eqb_eq in Hpc.
    subst c1 c2.
    induction s as [|x s IHs]; rewrite like_star, (like_star p2), IH;
      [reflexivity | now rewrite IHs].
  - rewrite !like_literal by congruence. rewrite <- Hun.
    destruct s as [|d s]; [reflexivity|]. rewrite IH.
    destruct (Sqlite.is_underscore c1); [reflexivity|].
    f_equal. unfold Sqlite.eq_nocase.
    apply eq_nocase_lower in Hc. now rewrite Hc.
Qed.

Lemma pattern_nocase (q1 q2 : string) :
  same_nocase q1 q2 ->
  Forall2 (fun c d => Sqlite.eq_nocase c d = true)
    (list_ascii_of_string ("%" ++ q1 ++ "%"))
    (list_ascii_of_string ("%" ++ q2 ++ "%")).
Proof.
  intros H. rewrite !pattern_chars.
  constructor; [reflexivity|].
  apply Forall2_app; [exact H|]. constructor; [reflexivity | constructor].
Qed.

Lemma like_nocase (q1 q2 : string) (name : option string) :
  same_nocase q1 q2 ->
  Sqlite.like name ("%" ++ q1 ++ "%") = Sqlite.like name ("%" ++ q2 ++ "%").
Proof.
  intros H. destruct name as [s|]; [|reflexivity]. unfold Sqlite.like.
  apply like_chars_nocase, upto_nul_nocase, pattern_nocase, H.
Qed.

Lemma too_complex_nocase (q1 q2 : string) :
  same_nocase q1 q2 ->
  Sqlite.too_complex ("%" ++ q1 ++ "%") = Sqlite.too_complex ("%" ++ q2 ++ "%").
Proof.
  intros H. unfold Sqlite.too_complex, Sqlite.utf8_length. f_equal.
  induction (pattern_nocase q1 q2 H) as [|c d p1 p2 Hc Hp IH];
    simpl; [reflexivity|].
  apply eq_nocase_lower in Hc.
  rewrite <- (lower_keeps_width c), <- (lower_keeps_width d), Hc, IH.
  reflexivity.
Qed.

(** X8. [search_usernames] does not look at the case of the letters of the
    query: two queries that differ only in the case of the letters A-Z give
    the same result, in the same order. *)
Theorem search_usernames_ignores_query_case (q1 q2 : string) (d : Database) :
  same_nocase q1 q2 ->
  DatabaseManager.search_usernames q1 d = DatabaseManager.search_usernames q2 d.
Proof.
  intros H. unfold DatabaseManager.search_usernames. cbv zeta.
  rewrite (too_complex_nocase q1 q2 H).
  destruct (Sqlite.too_complex _ && _); [reflexivity|].
  do 4 f_equal. apply filter_ext. intros r.
  now rewrite !(like_nocase q1 q2 _ H).
Qed.

Lemma search_usernames_case_witness :
  DatabaseManager.search_usernames "ALICE" Scenario.renamed
  = DatabaseManager.search_usernames "alice" Scenario.renamed.
Proof.
  apply (search_usernames_ignores_query_case "ALICE" "alice" Scenario.renamed).
  unfold same_nocase. simpl. repeat constructor.
Defined.

(** ** More on the polling loop *)

Section LoopInvariants.

Variable server : nat -> reply.
Variable process_message : Message.t -> World -> outcome unit * World.

Let step := DatabaseManager.step server process_message.
Let run := DatabaseManager.run server process_message.

Lemma raised_fields (e : exn) (m : monitor) :
  at_ (DatabaseManager.raised e m) <> Polling
  /\ requests (DatabaseManager.raised e m) = requests m
  /\ sleeps (DatabaseManager.raised e m) = sleeps m
  /\ last_update_id (DatabaseManager.raised e m) = last_update_id m.
Proof. destruct e; simpl; repeat split; discriminate. Qed.

Lemma step_paced (m : monitor) : paced m -> paced (step m).
Proof.
  unfold paced, step, DatabaseManager.step.
  destruct (at_ m) as [ | [|u us] | u rest | | | ] eqn:Hat; intros H;
    simpl; try (rewrite ?Hat; simpl; lia).
  - assert (Hlen : List.length (requests m ++ [(last_update_id m + 1, 30)])
                   = S (sleeps m)) by (rewrite length_app; simpl; lia).
    destruct (server _) as [e| |updates]; simpl; try exact Hlen.
    destruct e; simpl; exact Hlen.
  - destruct (Update.message u) as [message|]; simpl; [|exact H].
    destruct (process_message _ _) as [[[]|e] w]; simpl; [exact H|].
    destruct e; simpl; exact H.
Qed.

Lemma step_timeouts (m : monitor) :
  Forall (fun r => snd r = 30) (requests m) ->
  Forall (fun r => snd r = 30) (requests (step m)).
Proof.
  intros H. unfold step, DatabaseManager.step.
  destruct (at_ m) as [ | [|u us] | u rest | | | ] eqn:Hat; simpl; try exact H.
  - assert (H' : Forall (fun r => snd r = 30)
                   (requests m ++ [(last_update_id m + 1, 30)]))
      by (apply Forall_app; split; [exact H | repeat constructor]).
    destruct (server _) as [e| |updates]; simpl; try exact H'.
    destruct e; simpl; exact H'.
  - destruct (Update.message u) as [message|]; simpl; [|exact H].
    destruct (process_message _ _) as [[[]|e] w]; simpl; [exact H|].
    destruct e; simpl; exact H.
Qed.

Lemma reachable_paced (n : nat) (w : World) :
  paced (run n (DatabaseManager.start_monitoring w))
  /\ Forall (fun r => snd r = 30)
       (requests (run n (DatabaseManager.start_monitoring w))).
Proof.
  induction n as [|n [IH1 IH2]].
  - split; [reflexivity | constructor].
  - unfold run in *. rewrite run_last. split.
    + now apply step_paced.
    + now apply step_timeouts.
Qed.

End LoopInvariants.

(** X9. The loop is paced: in every state that [start_monitoring] reaches,
    under any server and any [process_message], it has slept its 0.1 s once
    for every request but the one in progress, so no two requests follow
    each other without a sleep; and every request carries the long-poll
    timeout 30. *)
Theorem requests_are_paced
    (server : nat -> reply)
    (process_message : Message.t -> World -> outcome unit * World)
    (w : World) (n : nat) :
  let m := DatabaseManager.run server process_message n
             (DatabaseManager.start_monitoring w) in
  paced m
  /\ (List.length (requests m) <= S (sleeps m))%nat
  /\ Forall (fun r => snd r = 30) (requests m).
Proof.
  cbv zeta.
  destruct (reachable_paced server process_message n w) as [Hp Ht].
  repeat split; try assumption.
  unfold paced in Hp.
  destruct (at_ _); lia.
Qed.

Section Idle.

Variable server : nat -> reply.
Variable process_message : Message.t -> World -> outcome unit * World.
Hypothesis idle : without_updates server.

Variable w0 : World.
Variable l0 : Z.

Let quiet (m : monitor) : Prop :=
  (at_ m = Polling \/ at_ m = Iterating [] \/ at_ m = Sleeping)
  /\ last_update_id m = l0 /\ world m = w0
  /\ Forall (fun r => r = (l0 + 1, 30)) (requests m).

Lemma step_quiet (m : monitor) :
  Forall (fun r => r = (l0 + 1, 30)) (requests m) ->
  (at_ m = Polling \/ at_ m = Iterating [] \/ at_ m = Sleeping) ->
  last_update_id m = l0 -> world m = w0 ->
  quiet (DatabaseManager.step server process_message m).
Proof.
  intros Hreq Hat Hl Hw. unfold quiet, DatabaseManager.step.
  destruct Hat as [Hat | [Hat | Hat]]; rewrite Hat.
  - assert (Hreq' : Forall (fun r => r = (l0 + 1, 30))
                      (requests m ++ [(last_update_id m + 1, 30)])).
    { apply Forall_app. split; [exact Hreq|]. rewrite Hl. repeat constructor. }
    destruct (idle (List.length (requests m))) as [E | E]; rewrite E; simpl; auto.
  - simpl. auto.
  - simpl. auto.
Qed.

Lemma run_quiet (n : nat) (m : monitor) :
  Forall (fun r => r = (l0 + 1, 30)) (requests m) ->
  (at_ m = Polling \/ at_ m = Iterating [] \/ at_ m = Sleeping) ->
  last_update_id m = l0 -> world m = w0 ->
  quiet (DatabaseManager.run server process_message n m).
Proof.
  revert m. induction n as [|n IH]; intros m Hreq Hat Hl Hw.
  - unfold quiet. auto.
  - simpl. destruct (step_quiet m Hreq Hat Hl Hw) as (H1 & H2 & H3 & H4).
    now apply IH.
Qed.

End Idle.

(** X10. While the server has no update (every reply is empty or not ok)
    the loop goes on for ever, asking for the same offset: after any number
    of steps from a state at the request it has not ended, the offset and
    the world are what they were, and every request made asks for the
    offset plus one. *)
Theorem idle_polling_repeats_the_offset
    (server : nat -> reply)
    (process_message : Message.t -> World -> outcome unit * World)
    (m : monitor) (n : nat) :
  without_updates server ->
  at_ m = Polling ->
  requests m = [] ->
  let m' := DatabaseManager.run server process_message n m in
  ~ ended m'
  /\ last_update_id m' = last_update_id m
  /\ world m' = world m
  /\ Forall (fun r => r = (last_update_id m + 1, 30)) (requests m').
Proof.
  intros Hidle Hat Hreq. cbv zeta.
  destruct (run_quiet server process_message Hidle (world m) (last_update_id m)
              n m) as (Hc & Hl & Hw & Hr); auto.
  { rewrite Hreq. constructor. }
  repeat split; try assumption.
  intros [He | [e He]]; destruct Hc as [Hc | [Hc | Hc]]; congruence.
Qed.

Lemma idle_polling_witness :
  let m' := DatabaseManager.run (fun _ => Ok [])
              (Program.process_message Scenario.isoformat_stub) 30
              (DatabaseManager.start_monitoring Program.fresh) in
  ~ ended m' /\ last_update_id m' = 0
  /\ Forall (fun r => r = (1, 30)) (requests m').
Proof.
  cbv zeta.
  destruct (idle_polling_repeats_the_offset (fun _ => Ok [])
              (Program.process_message Scenario.isoformat_stub)
              (DatabaseManager.start_monitoring Program.fresh) 30)
    as (H1 & H2 & _ & H4).
  - intros n. right. reflexivity.
  - reflexivity.
  - reflexivity.
  - repeat split; assumption.
Defined.

Lemma last_cons {A : Type} (a d : A) (l : list A) : last (a :: l) d = last l a.
Proof.
  revert a d. induction l as [|b l IH]; intros a d; [reflexivity|].
  change (last (a :: b :: l) d) with (last (b :: l) d).
  now rewrite !IH.
Qed.

Lemma step_batch_done (server : nat -> reply)
    (process_message : Message.t -> World -> outcome unit * World)
    (m : monitor) :
  at_ m = Iterating [] ->
  DatabaseManager.run server process_message 2 m
  = {| at_ := Polling; last_update_id := last_update_id m; world := world m;
       requests := requests m; sleeps := S (sleeps m) |}.
Proof.
  intros Hat. simpl. unfold DatabaseManager.step at 2. rewrite Hat.
  reflexivity.
Qed.

Section Batch.

Variable server : nat -> reply.
Variable process_message : Message.t -> World -> outcome unit * World.

Let step := DatabaseManager.step server process_message.
Let run := DatabaseManager.run server process_message.

Lemma run_batch (updates : list Update.t) (m : monitor) :
  at_ m = Iterating updates ->
  dispatch_returns process_message updates ->
  let m' := run (2 * List.length updates) m in
  at_ m' = Iterating []
  /\ last_update_id m' = last_id updates (last_update_id m)
  /\ requests m' = requests m
  /\ sleeps m' = sleeps m.
Proof.
  revert m. induction updates as [|u rest IH]; intros m Hat Hret; cbv zeta.
  - simpl. auto.
  - replace (2 * List.length (u :: rest))%nat
      with (2 + 2 * List.length rest)%nat by (simpl; lia).
    unfold run. rewrite run_add. fold run.
    set (m2 := DatabaseManager.run server process_message 2 m).
    assert (H2 : at_ m2 = Iterating rest
                 /\ last_update_id m2 = Update.update_id u
                 /\ requests m2 = requests m /\ sleeps m2 = sleeps m).
    { subst m2. simpl. rewrite (step_iterating _ _ m u rest Hat).
      unfold DatabaseManager.step. simpl.
      destruct (Update.message u) as [message|] eqn:Hm; simpl; [|auto].
      pose proof (Hret u message (world m) (or_introl eq_refl) Hm) as Hok.
      destruct (process_message message (world m)) as [[[]|e] w'];
        simpl in Hok; [simpl; auto | discriminate]. }
    destruct H2 as (Hat2 & Hl2 & Hr2 & Hs2).
    destruct (IH m2 Hat2) as (H1 & H3 & H4 & H5).
    { intros u' message w Hin. apply Hret. now right. }
    unfold last_id in *. simpl map. rewrite last_cons.
    rewrite H1, H3, H4, H5, Hl2, Hr2, Hs2. auto.
Qed.

End Batch.

(** X11. A batch whose dispatches all return is consumed whole: from the
    point where the loop starts on the updates of a reply, it comes back to
    the request after one sleep with the offset at the identifier of the
    last update of the batch (unchanged for an empty batch), having made no
    request in between; its next request asks for that identifier plus
    one. *)
Theorem batch_moves_offset_to_last_update
    (server : nat -> reply)
    (process_message : Message.t -> World -> outcome unit * World)
    (updates : list Update.t) (m : monitor) :
  at_ m = Iterating updates ->
  dispatch_returns process_message updates ->
  let m' := DatabaseManager.run server process_message
              (2 * List.length updates + 2) m in
  at_ m' = Polling
  /\ last_update_id m' = last_id updates (last_update_id m)
  /\ requests m' = requests m
  /\ sleeps m' = S (sleeps m)
  /\ requests (DatabaseManager.step server process_message m')
     = (requests m ++ [(last_id updates (last_update_id m) + 1, 30)])%list.
Proof.
  intros Hat Hret. cbv zeta. rewrite run_add.
  destruct (run_batch server process_message updates m Hat Hret)
    as (H1 & H2 & H3 & H4).
  set (m1 := DatabaseManager.run server process_message
               (2 * List.length updates) m) in *.
  rewrite (step_batch_done _ _ m1 H1). simpl.
  repeat split; try assumption.
  - now rewrite H4.
  - rewrite poll_records_request by reflexivity. simpl. now rewrite H2, H3.
Qed.

Lemma batch_witness :
  let m := {| at_ := Iterating
                       [ Scenario.bare_update;
                         {| Update.update_id := 602;
                            Update.message := Some Scenario.no_chat_id |} ];
              last_update_id := 500; world := Program.fresh;
              requests := [(501, 30)]; sleeps := 0%nat |} in
  let m' := DatabaseManager.run (fun _ => Ok [])
              (Program.process_message Scenario.isoformat_stub) 6 m in
  at_ m' = Polling /\ last_update_id m' = 602.
Proof.
  cbv zeta.
  destruct (batch_moves_offset_to_last_update (fun _ => Ok [])
              (Program.process_message Scenario.isoformat_stub)
              [ Scenario.bare_update;
                {| Update.update_id := 602;
                   Update.message := Some Scenario.no_chat_id |} ]
              {| at_ := Iterating
                          [ Scenario.bare_update;
                            {| Update.update_id := 602;
                               Update.message := Some Scenario.no_chat_id |} ];
                 last_update_id := 500; world := Program.fresh;
                 requests := [(501, 30)]; sleeps := 0%nat |})
    as (H1 & H2 & _).
  - reflexivity.
  - intros update message w [<- | [<- | []]] Hm.
    + discriminate Hm.
    + injection Hm as <-. reflexivity.
  - split; [exact H1 | exact H2].
Defined.

(** X12. An exception at the request ends the loop at once, with no sleep
    and no further request.  Only [KeyboardInterrupt] is handled: it stops
    the loop with the line "Monitoring stopped" printed; any other
    exception leaves [start_monitoring] with nothing printed.  In both
    cases the offset and the database are what they were. *)
Theorem exception_at_request_ends_loop
    (server : nat -> reply)
    (process_message : Message.t -> World -> outcome unit * World)
    (m : monitor) (e : exn) (k : nat) :
  at_ m = Polling ->
  server (List.length (requests m)) = Fails e ->
  let m' := DatabaseManager.run server process_message (S k) m in
  ended m'
  /\ (at_ m' = Stopped <-> e = KeyboardInterrupt)
  /\ (e = KeyboardInterrupt ->
      stdout (world m') = (stdout (world m) ++ [MonitoringStopped])%list)
  /\ (e <> KeyboardInterrupt ->
      at_ m' = Crashed e /\ world m' = world m)
  /\ db (world m') = db (world m)
  /\ last_update_id m' = last_update_id m
  /\ sleeps m' = sleeps m
  /\ requests m' = (requests m ++ [(last_update_id m + 1, 30)])%list.
Proof.
  intros Hat Hreply. cbv zeta. simpl.
  assert (Hstep : DatabaseManager.step server process_message m
                  = DatabaseManager.raised e
                      {| at_ := Polling; last_update_id := last_update_id m;
                         world := world m;
                         requests := requests m ++ [(last_update_id m + 1, 30)];
                         sleeps := sleeps m |}).
  { unfold DatabaseManager.step. now rewrite Hat, Hreply. }
  rewrite Hstep.
  rewrite ended_forever by apply raised_ends.
  split; [apply raised_ends|].
  destruct e; simpl; repeat split; try congruence; try discriminate;
    intros H; try discriminate H; try congruence.
Qed.

Lemma exception_at_request_witness :
  let m' := DatabaseManager.run (fun _ => Fails KeyboardInterrupt)
              (Program.process_message Scenario.isoformat_stub) 4
              (Scenario.at_polling Program.fresh) in
  at_ m' = Stopped /\ stdout (world m') = [MonitoringStopped].
Proof.
  cbv zeta.
  destruct (exception_at_request_ends_loop (fun _ => Fails KeyboardInterrupt)
              (Program.process_message Scenario.isoformat_stub)
              (Scenario.at_polling Program.fresh) KeyboardInterrupt 3
              eq_refl eq_refl) as (_ & Hstop & Hout & _).
  split; [now apply Hstop | now apply Hout].
Defined.

(** ** [store_message_data] as a state change *)

Lemma insert_or_replace_twice (r : message_row) (t : list message_row) :
  Sqlite.insert_or_replace r (Sqlite.insert_or_replace r t)
  = Sqlite.insert_or_replace r t.
Proof.
  unfold Sqlite.insert_or_replace at 1.
  now rewrite insert_or_replace_others.
Qed.

Lemma filter_swap {A : Type} (p q : A -> bool) (l : list A) :
  filter p (filter q l) = filter q (filter p l).
Proof.
  induction l as [|x l IH]; simpl; [reflexivity|].
  destruct (q x) eqn:Eq, (p x) eqn:Ep; simpl;
    rewrite ?Eq, ?Ep, IH; reflexivity.
Qed.

Lemma insert_other_key (r1 r2 : message_row) (t : list message_row) :
  row_key r1 <> row_key r2 ->
  Sqlite.insert_or_replace r2 (Sqlite.insert_or_replace r1 t)
  = (filter (fun x => negb (Sqlite.same_key r2 x))
       (filter (fun x => negb (Sqlite.same_key r1 x)) t) ++ [r1; r2])%list.
Proof.
  intros Hne. unfold Sqlite.insert_or_replace. rewrite filter_app. simpl.
  destruct (Sqlite.same_key r2 r1) eqn:E.
  - apply same_key_iff in E. contradiction.
  - simpl. now rewrite <- app_assoc.
Qed.

(** X13. As a change of the database, [store_message_data] is idempotent:
    storing a record a second time leaves the database exactly as the first
    call left it.  Two records with different keys can be stored in either
    order: the table then holds the same rows, the two new ones last. *)
Theorem store_message_data_idempotent (d : Database) :
  (forall r,
     snd (DatabaseManager.store_record r
            (snd (DatabaseManager.store_record r d)))
     = snd (DatabaseManager.store_record r d))
  /\ (forall r1 r2,
        message_key r1 <> message_key r2 ->
        Permutation
          (messages (snd (DatabaseManager.store_record r2
                            (snd (DatabaseManager.store_record r1 d)))))
          (messages (snd (DatabaseManager.store_record r1
                            (snd (DatabaseManager.store_record r2 d)))))).
Proof.
  split.
  - intros r. rewrite !store_record_db.
    destruct (bindable r); [|reflexivity].
    unfold set_messages. simpl. now rewrite insert_or_replace_twice.
  - intros r1 r2 Hne. rewrite !store_record_db.
    destruct (bindable r1), (bindable r2); try reflexivity. simpl.
    rewrite (insert_other_key (row_of r1) (row_of r2)) by exact Hne.
    rewrite (insert_other_key (row_of r2) (row_of r1))
      by (intros E; apply Hne; symmetry; exact E).
    rewrite (filter_swap (fun x => negb (Sqlite.same_key (row_of r2) x))).
    apply Permutation_app_head. apply perm_swap.
Qed.

Lemma store_idempotent_witness :
  Permutation
    (messages (store_all [Scenario.first_write; Sample.other_message]
                 Scenario.renamed))
    (messages (store_all [Sample.other_message; Scenario.first_write]
                 Scenario.renamed)).
Proof.
  apply (proj2 (store_message_data_idempotent Scenario.renamed)).
  discriminate.
Defined.

(** ** [api_call] and [validate_token] *)

Ltac settle_iffs :=
  repeat split; intros;
  try discriminate;
  try match goal with
      | H : exists _, _ |- _ => destruct H; discriminate
      end;
  eauto.

Lemma api_call_raises {A : Type} (str : exn -> string) (r : api_reply A)
    (e : exn) :
  api_call str r = Raise e <-> r = ApiFails e /\ e = KeyboardInterrupt.
Proof.
  split.
  - destruct r as [e0|description| |x]; simpl; try discriminate.
    destruct e0; simpl; try discriminate.
    intros H. injection H as <-. auto.
  - intros [-> ->]. reflexivity.
Qed.

Lemma api_call_shape {A : Type} (str : exn -> string) (r : api_reply A)
    (result : api_result A) :
  api_call str r = Return result ->
  (success result = true <-> exists x, data result = Some x)
  /\ (success result = false <-> exists msg, error result = Some msg)
  /\ (success result = true <-> exists x, r = ApiOk x).
Proof.
  destruct r as [e0|description| |x]; simpl; intros H.
  - destruct e0; simpl in H; try discriminate; injection H as <-; simpl;
      settle_iffs.
  - injection H as <-. simpl. settle_iffs.
  - injection H as <-. simpl. settle_iffs.
  - injection H as <-. simpl. settle_iffs.
Qed.

(** X14. [api_call] turns every failure but an interrupt into a result:
    it raises only when the request is interrupted by [KeyboardInterrupt];
    otherwise it returns a dictionary that has ['data'] exactly when
    ['success'] is true and ['error'] exactly when it is false, and
    ['success'] is true exactly when the reply was [ok] with a result.
    [validate_token] is true for such a reply and false, without raising,
    for a network error, an undecodable body or a reply that is not [ok]. *)
Theorem api_call_reports_failures {A : Type} (str : exn -> string)
    (r : api_reply A) :
  (forall e, api_call str r = Raise e <-> r = ApiFails e /\ e = KeyboardInterrupt)
  /\ (forall result,
        api_call str r = Return result ->
        (success result = true <-> exists x, data result = Some x)
        /\ (success result = false <-> exists msg, error result = Some msg)
        /\ (success result = true <-> exists x, r = ApiOk x))
  /\ (validate_token str r = Return true <-> exists x, r = ApiOk x)
  /\ (r <> ApiFails KeyboardInterrupt ->
      (forall x, r <> ApiOk x) ->
      validate_token str r = Return false).
Proof.
  split; [intros e; apply api_call_raises|].
  split; [intros result; apply api_call_shape|].
  unfold validate_token. split.
  - destruct (api_call str r) as [result|e] eqn:E; [|split; [discriminate|]].
    + destruct (api_call_shape str r result E) as (_ & _ & H).
      rewrite <- H. split; [intros H'; now injection H' | intros ->; reflexivity].
    + intros [x ->]. discriminate E.
  - intros Hint Hok.
    destruct (api_call str r) as [result|e] eqn:E.
    + destruct (api_call_shape str r result E) as (_ & _ & H).
      destruct (success result); [|reflexivity].
      destruct (proj1 H eq_refl) as [x ->]. now elim (Hok x).
    + apply api_call_raises in E as [-> ->]. now elim Hint.
Qed.


Lemma api_call_witness :
  validate_token (A := User.t) Sample.str_stub (ApiFails ConnectionError)
  = Return false.
Proof.
  apply (api_call_reports_failures (A := User.t) Sample.str_stub
           (ApiFails ConnectionError)).
  - discriminate.
  - discriminate.
Defined.

(** ** [FolderStructure.get_path] *)

(** X15. [get_path] never fails and never leaves the data directory: for
    every key, known or not, the path is [base_dir] followed by at most two
    components, and an unknown key gives [base_dir] itself; the database
    file is [base_dir/database/intelligence.db]. *)
Theorem get_path_stays_under_base_dir
    (base_dir : FolderStructure.Path) (key : string) :
  (exists rest,
     FolderStructure.get_path base_dir key = (base_dir ++ rest)%list
     /\ (List.length rest <= 2)%nat)
  /\ (FolderStructure.dict_get (FolderStructure.folders base_dir) key = None ->
      FolderStructure.get_path base_dir key = base_dir)
  /\ FolderStructure.database_file base_dir
     = (base_dir ++ ["database"; "intelligence.db"])%list.
Proof.
  split; [|split].
  - unfold FolderStructure.get_path, FolderStructure.folders.
    cbn [FolderStructure.dict_get].
    repeat match goal with
           | |- context [String.eqb ?a key] => destruct (String.eqb a key)
           end; cbn [get]; unfold FolderStructure.div;
      first [ exists []; split; [symmetry; apply app_nil_r | simpl; lia]
            | rewrite <- ?app_assoc; simpl;
              eexists; split; [reflexivity | simpl; lia] ].
  - unfold FolderStructure.get_path. now intros ->.
  - unfold FolderStructure.database_file, FolderStructure.div.
    change (FolderStructure.get_path base_dir "database")
      with (base_dir ++ ["database"])%list.
    now rewrite <- app_assoc.
Qed.

Lemma get_path_witness :
  FolderStructure.get_path ["userteg_data"] "backup" = ["userteg_data"].
Proof.
  apply (get_path_stays_under_base_dir ["userteg_data"] "backup").
  reflexivity.
Defined.

(** ** [MenuSystem.handle_choice] *)

Section MenuFacts.

Variable str : exn -> string.
Variable log_file : string.

Let handle := MenuSystem.handle_choice str log_file.

Lemma search_usernames_reads (query : string) (d : Database) :
  snd (DatabaseManager.search_usernames query d) = d.
Proof.
  unfold DatabaseManager.search_usernames. cbv zeta.
  now destruct (Sqlite.too_complex _ && _).
Qed.

Lemma choice_cases (choice : Z) :
  choice = 1 \/ choice = 2 \/ choice = 3 \/ choice = 4 \/ choice = 5
  \/ choice = 6 \/ choice = 7 \/ choice = 8 \/ choice = 9 \/ choice = 10
  \/ choice = 11 \/ (choice < 1 \/ 11 < choice).
Proof. lia. Qed.

Lemma other_choice (choice : Z) (typed : string) (getMe : api_reply User.t)
    (c : MenuSystem.console) :
  choice < 1 \/ 11 < choice -> handle choice typed getMe c = (Return true, c).
Proof.
  intros H. unfold handle, MenuSystem.handle_choice.
  repeat match goal with
         | |- context [choice =? ?n] =>
             destruct (Z.eqb_spec choice n); [lia|]
         end.
  reflexivity.
Qed.

Lemma handle_keeps_db (choice : Z) (typed : string) (getMe : api_reply User.t)
    (c : MenuSystem.console) :
  MenuSystem.c_db (snd (handle choice typed getMe c)) = MenuSystem.c_db c
  /\ exists lines,
       MenuSystem.c_out (snd (handle choice typed getMe c))
       = (MenuSystem.c_out c ++ lines)%list.
Proof.
  destruct (choice_cases choice)
    as [-> | [-> | [-> | [-> | [-> | [-> | [-> | [-> | [-> | [-> | [-> | H]]]]]]]]]]].
  12: { rewrite other_choice by exact H. split; [reflexivity|].
        exists []. now rewrite app_nil_r. }
  all: unfold handle, MenuSystem.handle_choice; simpl.
  - unfold MenuSystem.view_user_intelligence.
    destruct (MenuSystem.isdigit _); simpl; split; try reflexivity;
      eexists; try reflexivity. now rewrite <- app_assoc.
  - unfold MenuSystem.search_username. cbv zeta.
    pose proof (search_usernames_reads
                  (MenuSystem.strip typed)
                  (MenuSystem.c_db (MenuSystem.show
                     [MenuSystem.ShowHeader "Username Search"] c))) as E.
    destruct (DatabaseManager.search_usernames _ _) as [[results|e] d'].
    + simpl in E. subst d'.
      destruct results; simpl; split; try reflexivity;
        eexists; now rewrite <- app_assoc.
    + simpl in E. subst d'. simpl. split; [reflexivity|].
      eexists. reflexivity.
  - unfold MenuSystem.view_message_history.
    destruct (MenuSystem.isdigit _); simpl; split; try reflexivity;
      eexists; try reflexivity. now rewrite <- app_assoc.
  - split; [reflexivity | eexists; reflexivity].
  - split; [reflexivity | exists []; now rewrite app_nil_r].
  - split; [reflexivity | eexists; reflexivity].
  - split; [reflexivity | eexists; reflexivity].
  - split; [reflexivity | eexists; reflexivity].
  - split; [reflexivity | eexists; reflexivity].
  - unfold MenuSystem.show_bot_info.
    destruct (api_call str getMe) as [result|e]; simpl.
    + destruct (success result); simpl;
        [destruct (data result); simpl|];
        split; try reflexivity;
        first [eexists; reflexivity | exists []; now rewrite app_nil_r].
    + split; [reflexivity | exists []; now rewrite app_nil_r].
  - split; [reflexivity | exists []; now rewrite app_nil_r].
Qed.

End MenuFacts.

(** X16. No entry of the menu writes to the database, and none removes
    what is on the screen: [handle_choice] leaves every table as it was,
    whatever the choice, the text typed and the reply of the platform, and
    only adds lines to the output. *)
Theorem handle_choice_never_writes
    (str : exn -> string) (log_file : string)
    (choice : Z) (typed : string) (getMe : api_reply User.t)
    (c : MenuSystem.console) :
  MenuSystem.c_db
    (snd (MenuSystem.handle_choice str log_file choice typed getMe c))
  = MenuSystem.c_db c
  /\ exists lines,
       MenuSystem.c_out
         (snd (MenuSystem.handle_choice str log_file choice typed getMe c))
       = (MenuSystem.c_out c ++ lines)%list.
Proof. apply handle_keeps_db. Qed.

Section MenuResults.

Variable str : exn -> string.
Variable log_file : string.

Let handle := MenuSystem.handle_choice str log_file.

Lemma entry_result (r : outcome unit * MenuSystem.console) :
  fst (match r with
       | (Return _, c') => (Return true, c')
       | (Raise e, c') => (Raise e, c')
       end) <> Return false.
Proof. destruct r as [[[]|e] c']; simpl; discriminate. Qed.

Lemma only_exit_returns_false (choice : Z) (typed : string)
    (getMe : api_reply User.t) (c : MenuSystem.console) :
  fst (handle choice typed getMe c) = Return false <-> choice = 11.
Proof.
  split.
  - destruct (choice_cases choice)
      as [-> | [-> | [-> | [-> | [-> | [-> | [-> | [-> | [-> | [-> | [-> | H]]]]]]]]]]];
      try reflexivity.
    11: { rewrite (other_choice str log_file) by exact H. discriminate. }
    all: unfold handle, MenuSystem.handle_choice; cbn [Z.eqb Pos.eqb];
      intros Hf; try discriminate Hf;
      exfalso; revert Hf; apply entry_result.
  - intros ->. reflexivity.
Qed.

End MenuResults.

(** X17. [handle_choice] asks the main loop to stop for the entry 11 only:
    whenever it returns [False] the choice was 11, and 11 returns [False]
    with nothing shown and nothing changed; a number that is no entry of
    the menu returns [True] and does nothing; the entries 7, 8 and 9 return
    [True] after their one line. *)
Theorem handle_choice_stops_on_exit_only
    (str : exn -> string) (log_file : string)
    (choice : Z) (typed : string) (getMe : api_reply User.t)
    (c : MenuSystem.console) :
  let handle := MenuSystem.handle_choice str log_file in
  (fst (handle choice typed getMe c) = Return false <-> choice = 11)
  /\ handle 11 typed getMe c = (Return false, c)
  /\ (choice < 1 \/ 11 < choice -> handle choice typed getMe c = (Return true, c))
  /\ fst (handle 7 typed getMe c) = Return true
  /\ fst (handle 8 typed getMe c) = Return true
  /\ handle 9 typed getMe c
     = (Return true,
        MenuSystem.show [MenuSystem.ShowInfo ("Log file: " ++ log_file)] c).
Proof.
  cbv zeta. split; [apply only_exit_returns_false|].
  split; [reflexivity|]. split; [apply other_choice|].
  repeat split.
Qed.

Lemma handle_choice_witness :
  MenuSystem.handle_choice Sample.str_stub "session.log" 0 "" (ApiNotOk None)
    (Sample.console_of Scenario.renamed)
  = (Return true, Sample.console_of Scenario.renamed).
Proof.
  apply (handle_choice_stops_on_exit_only Sample.str_stub "session.log" 0 ""
           (ApiNotOk None) (Sample.console_of Scenario.renamed)).
  left. reflexivity.
Defined.

(** X18. Five entries of the menu cannot complete.  [UserTegOSINT] has
    none of [get_username_history], [get_user_messages], [search_messages],
    [get_database_stats], [start_monitoring], so the entries 4, 5 and 6
    always raise [AttributeError], and the entries 1 and 3 raise it as soon
    as the text typed is a number; when it is not, they show
    "Invalid User ID" and return. *)
Theorem menu_entries_raise_AttributeError
    (str : exn -> string) (log_file : string)
    (typed : string) (getMe : api_reply User.t) (c : MenuSystem.console) :
  let handle := MenuSystem.handle_choice str log_file in
  forallb (fun name => negb (MenuSystem.osint_has name))
    ["get_username_history"; "get_user_messages"; "search_messages";
     "get_database_stats"; "start_monitoring"] = true
  /\ fst (handle 4 typed getMe c) = Raise (MenuSystem.missing "search_messages")
  /\ fst (handle 5 typed getMe c) = Raise (MenuSystem.missing "start_monitoring")
  /\ fst (handle 6 typed getMe c) = Raise (MenuSystem.missing "get_database_stats")
  /\ (MenuSystem.isdigit (MenuSystem.strip typed) = true ->
      fst (handle 1 typed getMe c)
      = Raise (MenuSystem.missing "get_username_history")
      /\ fst (handle 3 typed getMe c)
         = Raise (MenuSystem.missing "get_user_messages"))
  /\ (MenuSystem.isdigit (MenuSystem.strip typed) = false ->
      handle 1 typed getMe c
      = (Return true,
         MenuSystem.show [MenuSystem.ShowError "Invalid User ID"]
           (MenuSystem.show [MenuSystem.ShowHeader "User Intelligence Lookup"] c))
      /\ handle 3 typed getMe c
         = (Return true,
            MenuSystem.show [MenuSystem.ShowError "Invalid User ID"]
              (MenuSystem.show [MenuSystem.ShowHeader "Message History Viewer"] c))).
Proof.
  cbv zeta. repeat split; try reflexivity.
  - unfold MenuSystem.handle_choice, MenuSystem.view_user_intelligence.
    cbn [Z.eqb Pos.eqb]. cbv zeta. now rewrite H.
  - unfold MenuSystem.handle_choice, MenuSystem.view_message_history.
    cbn [Z.eqb Pos.eqb]. cbv zeta. now rewrite H.
  - unfold MenuSystem.handle_choice, MenuSystem.view_user_intelligence.
    cbn [Z.eqb Pos.eqb]. cbv zeta. now rewrite H.
  - unfold MenuSystem.handle_choice, MenuSystem.view_message_history.
    cbn [Z.eqb Pos.eqb]. cbv zeta. now rewrite H.
Qed.

Lemma menu_entries_witness :
  fst (MenuSystem.handle_choice Sample.str_stub "session.log" 1 " 42 "
         (ApiNotOk None) (Sample.console_of Scenario.renamed))
  = Raise (AttributeError "UserTegOSINT" "get_username_history")
  /\ fst (MenuSystem.handle_choice Sample.str_stub "session.log" 3 "4x"
            (ApiNotOk None) (Sample.console_of Scenario.renamed))
     = Return true.
Proof.
  split.
  - apply (menu_entries_raise_AttributeError Sample.str_stub "session.log"
             " 42 " (ApiNotOk None) (Sample.console_of Scenario.renamed)).
    reflexivity.
  - destruct (menu_entries_raise_AttributeError Sample.str_stub "session.log"
                "4x" (ApiNotOk None) (Sample.console_of Scenario.renamed))
      as (_ & _ & _ & _ & _ & H).
    destruct (H eq_refl) as [_ H3]. now rewrite H3.
Defined.

Lemma matches_numbered (results : list found_user) (first : nat) :
  List.length (MenuSystem.matches_from first results) = List.length results
  /\ forall i r,
       nth_error results i = Some r ->
       nth_error (MenuSystem.matches_from first results) i
       = Some (MenuSystem.ShowMatch (first + i) r).
Proof.
  revert first. induction results as [|x results IH]; intros first; simpl.
  - split; [reflexivity|]. intros [|i] r H; discriminate H.
  - destruct (IH (S first)) as [Hlen Hnth]. split; [now rewrite Hlen|].
    intros [|i] r H; simpl in *.
    + injection H as ->. now rewrite Nat.add_0_r.
    + rewrite (Hnth i r H). f_equal. f_equal. lia.
Qed.

(** X19. The entry 2 shows what [search_usernames] finds for the text
    typed, stripped of surrounding blanks: after the header either the one
    line "No matches found", exactly when nothing is found, or the number
    of matches followed by one line per match, in the order of the result
    and numbered from 1.  It returns [True] and leaves the database as it
    was.  When the search raises, for a text of more than 49998 bytes and a
    table [users] that is not empty, the entry raises the same
    [OperationalError] after the header, nothing else shown. *)
Theorem search_entry_shows_the_result
    (str : exn -> string) (log_file : string)
    (typed : string) (getMe : api_reply User.t) (c : MenuSystem.console) :
  (pattern_fits (MenuSystem.strip typed) \/ users (MenuSystem.c_db c) = [] ->
   exists results,
     DatabaseManager.search_usernames (MenuSystem.strip typed) (MenuSystem.c_db c)
     = (Return results, MenuSystem.c_db c)
     /\ MenuSystem.handle_choice str log_file 2 typed getMe c
        = (Return true,
           MenuSystem.show
             (match results with
              | [] => [MenuSystem.ShowWarning "No matches found"]
              | _ :: _ =>
                  MenuSystem.ShowFound (List.length results)
                  :: MenuSystem.matches_from 1 results
              end)
             (MenuSystem.show [MenuSystem.ShowHeader "Username Search"] c))
     /\ List.length (MenuSystem.matches_from 1 results) = List.length results
     /\ forall i r,
          nth_error results i = Some r ->
          nth_error (MenuSystem.matches_from 1 results) i
          = Some (MenuSystem.ShowMatch (S i) r))
  /\ (~ pattern_fits (MenuSystem.strip typed) ->
      users (MenuSystem.c_db c) <> [] ->
      MenuSystem.handle_choice str log_file 2 typed getMe c
      = (Raise OperationalError,
         MenuSystem.show [MenuSystem.ShowHeader "Username Search"] c)).
Proof.
  split.
  - intros Hruns.
    pose proof (search_usernames_fits (MenuSystem.strip typed)
                  (MenuSystem.c_db c) Hruns) as E.
    eexists. split; [exact E|].
    split; [|apply (matches_numbered _ 1)].
    unfold MenuSystem.handle_choice, MenuSystem.search_username.
    cbn [Z.eqb Pos.eqb]. cbv zeta.
    change (MenuSystem.c_db
              (MenuSystem.show [MenuSystem.ShowHeader "Username Search"] c))
      with (MenuSystem.c_db c).
    rewrite E.
    destruct (Sqlite.distinct _ _); reflexivity.
  - intros Hfits Husers.
    pose proof (search_usernames_too_complex (MenuSystem.strip typed)
                  (MenuSystem.c_db c) Hfits Husers) as E.
    unfold MenuSystem.handle_choice, MenuSystem.search_username.
    cbn [Z.eqb Pos.eqb]. cbv zeta.
    change (MenuSystem.c_db
              (MenuSystem.show [MenuSystem.ShowHeader "Username Search"] c))
      with (MenuSystem.c_db c).
    rewrite E. destruct c; reflexivity.
Qed.

(** ** [process_message] end to end *)

(** X20. With a database manager that has [store_user_data] (returning,
    and leaving [messages] alone) next to [store_message_data], a message
    that passes the guard, whose date converts and whose integers SQLite
    can hold is stored as the row made of the record built from it, by
    [INSERT OR REPLACE]; and processing the same message again returns as
    well and leaves [messages] exactly as the first processing left it: a
    replayed update makes no second row. *)
Theorem replayed_message_is_stored_once
    (fromtimestamp_isoformat : Z -> outcome string) (db_manager : manager)
    (store_user_data : User.t -> M unit)
    (message : Message.t) (w : World) (message_date : string) :
  all [Message.message_id message; chat_identifier message;
       sender_identifier message] = true ->
  attr_store_user_data db_manager = Some store_user_data ->
  attr_store_message_data db_manager = Some DatabaseManager.store_record ->
  (forall u d, fst (store_user_data u d) = Return tt
               /\ messages (snd (store_user_data u d)) = messages d) ->
  fromtimestamp_isoformat (get (Message.date message) 0) = Return message_date ->
  bindable (UserTegOSINT.message_record message message_date) = true ->
  let process :=
    UserTegOSINT.process_message fromtimestamp_isoformat db_manager message in
  fst (process w) = Return tt
  /\ messages (db (snd (process w)))
     = Sqlite.insert_or_replace
         (row_of (UserTegOSINT.message_record message message_date))
         (messages (db w))
  /\ fst (process (snd (process w))) = Return tt
  /\ messages (db (snd (process (snd (process w)))))
     = messages (db (snd (process w))).
Proof.
  intros Hguard Hu Hm Hsud Hdate Hbind. cbv zeta.
  assert (Hrun : forall w0, exists w1,
            UserTegOSINT.process_message fromtimestamp_isoformat db_manager
              message w0 = (Return tt, w1)
            /\ messages (db w1)
               = Sqlite.insert_or_replace
                   (row_of (UserTegOSINT.message_record message message_date))
                   (messages (db w0))).
  { intros w0.
    destruct (Hsud (get (Message.from message) User.empty) (db w0)) as [Hr Hk].
    destruct (store_user_data (get (Message.from message) User.empty) (db w0))
      as [[[]|e] d] eqn:E; simpl in Hr, Hk; [|discriminate].
    destruct (process_message_stores_record fromtimestamp_isoformat db_manager
                store_user_data message w0 d message_date
                Hguard Hu Hm E Hdate Hbind) as (w1 & H1 & H2).
    exists w1. split; [exact H1 | now rewrite H2, Hk]. }
  destruct (Hrun w) as (w1 & E1 & M1). rewrite E1. simpl.
  destruct (Hrun w1) as (w2 & E2 & M2). rewrite E2. simpl.
  repeat split; try assumption.
  now rewrite M2, M1, insert_or_replace_twice.
Qed.

Lemma replayed_message_witness :
  let process :=
    UserTegOSINT.process_message Scenario.isoformat_stub Sample.capable
      Scenario.alice_T1 in
  messages (db (snd (process (snd (process Program.fresh)))))
  = [ row_of (UserTegOSINT.message_record Scenario.alice_T1
                "1970-01-01T00:00:00") ].
Proof.
  cbv zeta.
  destruct (replayed_message_is_stored_once Scenario.isoformat_stub
              Sample.capable (fun _ d => (Return tt, d))
              Scenario.alice_T1 Program.fresh "1970-01-01T00:00:00"
              eq_refl eq_refl eq_refl (fun u d => conj eq_refl eq_refl) eq_refl
              eq_refl)
    as (_ & H1 & _ & H2).
  rewrite H2, H1. reflexivity.
Defined.

Lemma run_keeps_log (fromtimestamp_isoformat : Z -> outcome string)
    (server : nat -> reply) (n : nat) (m : monitor) :
  log_file (world (DatabaseManager.run server
                     (Program.process_message fromtimestamp_isoformat) n m))
  = log_file (world m).
Proof.
  revert m. induction n as [|n IH]; intros m; [reflexivity|]. simpl.
  rewrite IH. unfold DatabaseManager.step.
  destruct (at_ m) as [ | [|u us] | u rest | | | ]; try reflexivity.
  - destruct (server _) as [e| |updates]; try reflexivity.
    destruct e; reflexivity.
  - destruct (Update.message u) as [message|]; [|reflexivity].
    pose proof (process_message_keeps_world fromtimestamp_isoformat
                  message (world m)) as H.
    destruct (Program.process_message _ _ _) as [[[]|e] w'];
      simpl in H; subst w'; [reflexivity|].
    destruct e; reflexivity.
Qed.

(** X21. On the class as written the pipeline stores nothing at all: under
    any server, after any number of steps, every table and the log file
    are what they were when [start_monitoring] was called; and the
    dispatch of a message that passes the guard ends the loop with the
    [AttributeError] of the missing [store_user_data], the world
    untouched. *)
Theorem pipeline_stores_nothing
    (fromtimestamp_isoformat : Z -> outcome string)
    (server : nat -> reply) :
  let process := Program.process_message fromtimestamp_isoformat in
  (forall n w,
     db (world (Program.monitoring fromtimestamp_isoformat server n w)) = db w
     /\ log_file (world (Program.monitoring fromtimestamp_isoformat server n w))
        = log_file w)
  /\ (forall m update rest message,
        at_ m = Dispatching update rest ->
        Update.message update = Some message ->
        all [Message.message_id message; chat_identifier message;
             sender_identifier message] = true ->
        DatabaseManager.step server process m
        = {| at_ := Crashed (AttributeError "DatabaseManager" "store_user_data");
             last_update_id := last_update_id m; world := world m;
             requests := requests m; sleeps := sleeps m |}).
Proof.
  cbv zeta. split.
  - intros n w. unfold Program.monitoring. split.
    + now rewrite run_keeps_db.
    + now rewrite run_keeps_log.
  - intros m update rest message Hat Hmsg Hguard.
    unfold DatabaseManager.step. rewrite Hat, Hmsg.
    rewrite process_message_raises by exact Hguard.
    reflexivity.
Qed.

Lemma pipeline_stores_nothing_witness :
  at_ (DatabaseManager.step (Scenario.serves Scenario.renames)
         (Program.process_message Scenario.isoformat_stub)
         {| at_ := Dispatching
                     {| Update.update_id := 501;
                        Update.message := Some Scenario.alice_T1 |} [];
            last_update_id := 501; world := Program.fresh;
            requests := [(1, 30)]; sleeps := 0%nat |})
  = Crashed (AttributeError "DatabaseManager" "store_user_data").
Proof.
  rewrite (proj2 (pipeline_stores_nothing Scenario.isoformat_stub
                    (Scenario.serves Scenario.renames))
             {| at_ := Dispatching
                         {| Update.update_id := 501;
                            Update.message := Some Scenario.alice_T1 |} [];
                last_update_id := 501; world := Program.fresh;
                requests := [(1, 30)]; sleeps := 0%nat |}
             {| Update.update_id := 501;
                Update.message := Some Scenario.alice_T1 |}
             [] Scenario.alice_T1 eq_refl eq_refl eq_refl).
  reflexivity.
Defined.

Lemma search_like_witness :
  exists u, In u (users Scenario.renamed)
    /\ found_of Scenario.bob_row = found_of u
    /\ (u_current_username u <> None
        \/ exists h, In h (username_history Scenario.renamed)
             /\ h_user_id h = Some (u_user_id u) /\ h_username h <> None).
Proof.
  destruct (proj1 (search_usernames_returns_like_matches "%" Scenario.renamed)
              (or_introl eq_refl))
    as (results & Hrun & _ & _ & Hsound).
  apply Hsound.
  injection Hrun as <-. left. reflexivity.
Defined.

Lemma search_entry_witness :
  exists results,
    nth_error (MenuSystem.matches_from 1 results) 0
    = Some (MenuSystem.ShowMatch 1 (found_of Scenario.bob_row)).
Proof.
  destruct (proj1 (search_entry_shows_the_result Sample.str_stub "session.log"
                     " alice " (ApiNotOk None)
                     (Sample.console_of Scenario.renamed))
              (or_introl eq_refl))
    as (results & Hrun & _ & _ & Hnth).
  exists results. apply Hnth.
  injection Hrun as <-. reflexivity.
Defined.

(** X22. The chat title that [get_user_messages] reports is the title of a
    row of [chats] with the chat identifier of the message, and [NULL] when
    [chats] has no such row: every fetched row has eleven columns, so the
    fallback ['Unknown'] of line 611 is never used.  (The call returns
    whenever SQLite can hold its two integers.) *)
Theorem get_user_messages_chat_title
    (number_leb : sql_value -> sql_value -> bool)
    (user_id limit : Z) (d : Database) :
  in_int64 user_id && in_int64 limit = true ->
  exists views,
    DatabaseManager.get_user_messages number_leb user_id limit d
    = (Return views, d)
    /\ forall v, In v views ->
         (mv_chat_title v = None
          /\ forall c, In c (chats d) -> c_chat_id c <> mv_chat_id v)
         \/ (exists c, In c (chats d) /\ c_chat_id c = mv_chat_id v
                       /\ mv_chat_title v = c_title c).
Proof.
  intros Hfit. rewrite get_user_messages_runs by exact Hfit.
  eexists. split; [reflexivity|].
  intros v Hv. apply in_map_iff in Hv as ([m o] & <- & Hin).
  apply limit_in in Hin.
  apply (Permutation_in _ (order_by_desc_perm _ _ _)) in Hin.
  apply filter_In in Hin as [Hjoin _].
  apply left_join_in in Hjoin as [_ Ho]. simpl.
  destruct o as [c|].
  - right. destruct Ho as [Hc Hon]. apply Z.eqb_eq in Hon.
    exists c. auto.
  - left. split; [reflexivity|]. intros c Hc Heq.
    assert (Hin : In c (filter (fun c => m_chat_id m =? c_chat_id c) (chats d))).
    { apply filter_In. split; [exact Hc|]. apply Z.eqb_eq. now symmetry. }
    rewrite Ho in Hin. destruct Hin.
Qed.

Lemma chat_title_witness :
  exists views v,
    DatabaseManager.get_user_messages Sample.no_numbers 1 50
      (snd (DatabaseManager.store_record Scenario.first_write Scenario.renamed))
    = (Return views,
       snd (DatabaseManager.store_record Scenario.first_write Scenario.renamed))
    /\ In v views /\ mv_chat_title v = None.
Proof.
  destruct (get_user_messages_chat_title Sample.no_numbers 1 50
              (snd (DatabaseManager.store_record Scenario.first_write
                      Scenario.renamed)) eq_refl)
    as (views & Hrun & Htitle).
  exists views.
  assert (Hv : exists v, In v views).
  { injection Hrun as <-. eexists. left. reflexivity. }
  destruct Hv as [v Hv]. exists v. split; [exact Hrun|]. split; [exact Hv|].
  destruct (Htitle v Hv) as [[H _] | (c & [] & _)]. exact H.
Defined.
